(** * Assistant de Correction Intelligent: a shallow embedding of [app.py]

    The development follows the layout of the Python module:
    - Python strings ([str], sequences of Unicode code points) and the
      string operations the module uses ([strip], [in], [join]);
    - the fragment of the [re] module the four patterns need, as a
      backtracking matcher;
    - the three text extractors [lire_docx], [lire_pdf], [lire_image];
    - [analyser_avec_gemini]: tone mapping, prompt, model call, parsing;
    - [creer_fiche_word]: the report document;
    - the handler of the button "Lancer la correction IA".

    External libraries (the reading side of python-docx, PyMuPDF,
    pytesseract, the Gemini client, Streamlit) are not part of the module:
    their calls are answered by an environment record, and Streamlit's
    output is a trace of events. The writing side of python-docx is part of
    what [creer_fiche_word] does with its values, so it is modelled: a text
    assigned to a run is split at tabs and line ends and stored through
    lxml, which refuses the characters XML cannot hold. *)

From Stdlib Require Import NArith List String Ascii Bool Lia.
From stdpp Require Import base list gmap strings.
Import ListNotations.

(** ** Python strings *)

Module PyStr.

(** A Python [str] is a sequence of Unicode code points. *)
Definition char := N.
Definition str := list char.

(** Source literals are UTF-8 text; Python decodes them to code points. *)
Fixpoint utf8_decode (bs : list N) : str :=
  match bs with
  | [] => []
  | b :: rest =>
    if (b <? 128)%N then b :: utf8_decode rest
    else if (b <? 224)%N then
      match rest with
      | b2 :: r => ((b mod 32) * 64 + b2 mod 64)%N :: utf8_decode r
      | _ => []
      end
    else if (b <? 240)%N then
      match rest with
      | b2 :: b3 :: r =>
        ((b mod 16) * 4096 + (b2 mod 64) * 64 + b3 mod 64)%N :: utf8_decode r
      | _ => []
      end
    else
      match rest with
      | b2 :: b3 :: b4 :: r =>
        ((b mod 8) * 262144 + (b2 mod 64) * 4096 + (b3 mod 64) * 64 + b4 mod 64)%N
          :: utf8_decode r
      | _ => []
      end
  end.

Definition py (s : string) : str :=
  utf8_decode (map N_of_ascii (list_ascii_of_string s)).
Arguments py s%_string.

Definition NL : char := 10%N.
Definition COLON : char := 58%N.
Definition DOT : char := 46%N.
Definition SLASH : char := 47%N.

(** [str.isspace] for one character; [\s] of [re] and [str.strip] both use
    this table (Unicode 14, as in CPython 3.11). *)
Definition space_ranges : list (N * N) :=
  [ (9, 13); (28, 32); (133, 133); (160, 160); (5760, 5760);
    (8192, 8202); (8232, 8233); (8239, 8239); (8287, 8287);
    (12288, 12288) ]%N.

(** [str.isdecimal] for one character (general category Nd); [\d] of [re]
    uses this table. Every range is one script's digits 0 to 9, except the
    mathematical digits 120782..120831 (five sets). *)
Definition decimal_ranges : list (N * N) :=
  [ (48, 57); (1632, 1641); (1776, 1785); (1984, 1993); (2406, 2415);
    (2534, 2543); (2662, 2671); (2790, 2799); (2918, 2927); (3046, 3055);
    (3174, 3183); (3302, 3311); (3430, 3439); (3558, 3567); (3664, 3673);
    (3792, 3801); (3872, 3881); (4160, 4169); (4240, 4249); (6112, 6121);
    (6160, 6169); (6470, 6479); (6608, 6617); (6784, 6793); (6800, 6809);
    (6992, 7001); (7088, 7097); (7232, 7241); (7248, 7257); (42528, 42537);
    (43216, 43225); (43264, 43273); (43472, 43481); (43504, 43513);
    (43600, 43609); (44016, 44025); (65296, 65305); (66720, 66729);
    (68912, 68921); (69734, 69743); (69872, 69881); (69942, 69951);
    (70096, 70105); (70384, 70393); (70736, 70745); (70864, 70873);
    (71248, 71257); (71360, 71369); (71472, 71481); (71904, 71913);
    (72016, 72025); (72784, 72793); (73040, 73049); (73120, 73129);
    (92768, 92777); (92864, 92873); (93008, 93017); (120782, 120831);
    (123200, 123209); (123632, 123641); (125264, 125273);
    (130032, 130041) ]%N.

Definition in_ranges (rs : list (N * N)) (c : char) : bool :=
  existsb (fun r => (fst r <=? c)%N && (c <=? snd r)%N) rs.

Definition isspace (c : char) : bool := in_ranges space_ranges c.
Definition isdecimal (c : char) : bool := in_ranges decimal_ranges c.

(** Truth value of a string: non-empty. *)
Definition truthy (s : str) : bool :=
  match s with
  | [] => false
  | _ :: _ => true
  end.

(** [a == b] on strings. *)
Definition str_eqb (a b : str) : bool := bool_decide (a = b).

(** [s.lstrip()], [s.rstrip()], [s.strip()] *)
Fixpoint lstrip (s : str) : str :=
  match s with
  | c :: s' => if isspace c then lstrip s' else s
  | [] => []
  end.

Definition rstrip (s : str) : str := rev (lstrip (rev s)).

Definition strip (s : str) : str := rstrip (lstrip s).

(** [s.startswith(p)] *)
Fixpoint startswith (p s : str) : bool :=
  match p, s with
  | [], _ => true
  | a :: p', b :: s' => (a =? b)%N && startswith p' s'
  | _ :: _, [] => false
  end.

(** [sub in s] *)
Fixpoint str_in (sub s : str) : bool :=
  startswith sub s ||
  match s with
  | [] => false
  | _ :: s' => str_in sub s'
  end.

(** [s.count(sub)] with overlapping occurrences counted, i.e. the number of
    positions at which [sub] starts in [s] (a specification device: the
    module itself never counts). *)
Fixpoint occurrences (sub s : str) : nat :=
  (if startswith sub s then 1 else 0) +
  match s with
  | [] => 0
  | _ :: s' => occurrences sub s'
  end.

(** [s.find(sub)]: the first position at which [sub] starts, [None] for
    Python's -1 (a specification device, like [occurrences]). *)
Fixpoint find (sub s : str) : option nat :=
  if startswith sub s then Some 0
  else match s with
       | [] => None
       | _ :: s' => option_map S (find sub s')
       end.

(** [sep.join(parts)] *)
Fixpoint join (sep : str) (parts : list str) : str :=
  match parts with
  | [] => []
  | [p] => p
  | p :: ps => p ++ sep ++ join sep ps
  end.

(** [str(n)] for a natural number: its decimal digits. The first argument
    bounds the number of digits. *)
Fixpoint decimal_digits (fuel n : nat) (acc : str) : str :=
  match fuel with
  | 0 => acc
  | S fuel' =>
    let acc' := N.of_nat (48 + n mod 10) :: acc in
    match n / 10 with
    | 0 => acc'
    | q => decimal_digits fuel' q acc'
    end
  end.

Definition decimal (n : nat) : str := decimal_digits (S n) n [].

(** [s.zfill(width)] on digits: zeros on the left up to [width]. *)
Definition zfill (width : nat) (s : str) : str :=
  replicate (width - length s) 48%N ++ s.

(** ["%04x" % c]: four hexadecimal digits, in lower case. *)
Definition hex_digit (d : N) : char :=
  if (d <? 10)%N then (48 + d)%N else (87 + d)%N.

Definition hex4 (c : N) : str :=
  [ hex_digit ((c / 4096) mod 16); hex_digit ((c / 256) mod 16);
    hex_digit ((c / 16) mod 16); hex_digit (c mod 16) ]%N.

End PyStr.
Export PyStr.

(** ** The fragment of [re] used by the module

    Patterns are sequences of single-character items with an optional
    quantifier, and one capturing group. Matching is the backtracking search
    of [re]: alternatives are tried in priority order (greedy: longest
    first, lazy: shortest first) and the first complete match wins. *)

Module Re.

Inductive cclass :=
| CChar (c : char)    (* a literal character *)
| CSpace              (* \s *)
| CDigit              (* \d *)
| CDotAll.            (* . under re.DOTALL *)

Inductive quant :=
| Once                (* x *)
| Star                (* x* *)
| LazyStar            (* x*? *)
| Plus.               (* x+ *)

Inductive item := Rep (c : cclass) (q : quant).

(** A pattern with one capturing group: [before ( inside ) after]. *)
Record regex := Regex {
  before : list item;
  inside : list item;
  after : list item
}.

Definition accepts (c : cclass) (x : char) : bool :=
  match c with
  | CChar a => (a =? x)%N
  | CSpace => isspace x
  | CDigit => isdecimal x
  | CDotAll => true
  end.

Section Repeat.
Context {R : Type} (c : cclass) (k : str -> option R).

(** x* : as many as possible first, then fewer. *)
Fixpoint greedy (s : str) : option R :=
  match s with
  | x :: s' =>
    if accepts c x then
      match greedy s' with
      | Some r => Some r
      | None => k s
      end
    else k s
  | [] => k s
  end.

(** x*? : as few as possible first, then more. *)
Fixpoint lazy (s : str) : option R :=
  match k s with
  | Some r => Some r
  | None =>
    match s with
    | x :: s' => if accepts c x then lazy s' else None
    | [] => None
    end
  end.
End Repeat.

(** Match the items at the head of [s], then continue with [k] on the rest;
    [None] makes the matcher backtrack. *)
Fixpoint run {R : Type} (p : list item) (k : str -> option R) (s : str) : option R :=
  match p with
  | [] => k s
  | Rep c Once :: p' =>
    match s with
    | x :: s' => if accepts c x then run p' k s' else None
    | [] => None
    end
  | Rep c Star :: p' => greedy c (run p' k) s
  | Rep c LazyStar :: p' => lazy c (run p' k) s
  | Rep c Plus :: p' =>
    match s with
    | x :: s' => if accepts c x then greedy c (run p' k) s' else None
    | [] => None
    end
  end.

(** [re.match(p, s)]: a match starting at the first character. The match
    object is represented by its [group(1)], the only part the module
    reads: the text between the rest at "(" and the rest at ")". *)
Definition match_at (p : regex) (s : str) : option str :=
  run (before p)
    (fun s1 =>
       run (inside p)
         (fun s2 => run (after p) (fun _ => Some (take (length s1 - length s2) s1)) s2)
         s1)
    s.

(** [re.search(p, s)]: the match at the first start position that has one. *)
Fixpoint search (p : regex) (s : str) : option str :=
  match match_at p s with
  | Some g => Some g
  | None =>
    match s with
    | [] => None
    | _ :: s' => search p s'
    end
  end.

(** A literal run of characters in a pattern. *)
Definition lit (l : str) : list item := map (fun a => Rep (CChar a) Once) l.

End Re.
Export Re.

(** ** Effects: exceptions and the trace of external calls *)

Module Py.

(** An instance of [Exception]; [str(e)] is its message. *)
Record exn := Exception { exn_class : string; exn_str : str }.

Inductive result (A : Type) :=
| Ok (a : A)
| Raise (e : exn).
Arguments Ok {A} a.
Arguments Raise {A} e.

(** An uploaded file ([UploadedFile] of Streamlit). *)
Record file := File { file_name : str; file_bytes : list N }.

(** A decoded image ([PIL.Image]). *)
Record image := Image { image_data : list N }.

(** A [datetime.date]; [str(d)] is [d.isoformat()], "%04d-%02d-%02d". *)
Record date := Date { year : nat; month : nat; day : nat }.

Definition isoformat (d : date) : str :=
  zfill 4 (decimal (year d)) ++ py "-" ++
  zfill 2 (decimal (month d)) ++ py "-" ++
  zfill 2 (decimal (day d)).

(** python-docx documents: the body is a sequence of blocks, each with the
    text it reads back as ([paragraph.text], [cell.text]). *)
Inductive alignment := LEFT | CENTER.

Record table := Table { table_style : str; table_cells : list (list str) }.

Inductive block :=
| Paragraph (text : str) (align : alignment)
| Heading (text : str) (level : nat)
| TableBlock (t : table).

Definition document := list block.

(** Everything the module does to the outside world, in order. *)
Inductive event :=
| docx_Document (f : file)                 (* Document(file) *)
| fitz_open (stream : list N)              (* fitz.open(stream=..., filetype="pdf") *)
| Image_open (f : file)                    (* Image.open(file) *)
| pytesseract_image_to_string (img : image) (lang : str)
| model_generate_content (prompt : str)    (* model.generate_content(prompt) *)
| docx_new_Document                        (* Document() *)
| docx_save (doc : document)               (* doc.save(buffer) *)
| st_error (body : str)
| st_info (body : str)
| st_warning (body : str)
| st_success (body : str)
| st_write (body : str)
| st_metric (label value : str)
| st_spinner (text : str)
| st_download_button (label : str) (data : document) (file_name mime : str).

(** What the libraries answer. A PDF is its pages, each with the outcome of
    [page.get_text()]; a model call is the outcome of
    [model.generate_content(prompt).text]. The texts the libraries and the
    widgets hand over are decoded from UTF-8, so they hold no lone
    surrogate; [str] has room for them because a Python string has. *)
Record env := Env {
  python_docx : file -> result (list str);       (* texts of doc.paragraphs *)
  pymupdf : list N -> result (list (result str));
  pil : file -> result image;
  tesseract : image -> str -> result str;
  gemini : str -> result str;
  date_today : date                               (* datetime.date.today() *)
}.

(** A computation returns or raises, and leaves a trace. *)
Definition M (A : Type) : Type := (result A * list event)%type.

Definition ret {A} (a : A) : M A := (Ok a, []).
Definition raise {A} (e : exn) : M A := (Raise e, []).
Definition emit (ev : event) : M unit := (Ok tt, [ev]).
Definition lift {A} (r : result A) : M A := (r, []).

Definition bind {A B} (m : M A) (f : A -> M B) : M B :=
  match m with
  | (Ok a, t) => let '(r, t') := f a in (r, t ++ t')
  | (Raise e, t) => (Raise e, t)
  end.

(** [try: m  except Exception as e: h e] *)
Definition try_except {A} (m : M A) (h : exn -> M A) : M A :=
  match m with
  | (Ok a, t) => (Ok a, t)
  | (Raise e, t) => let '(r, t') := h e in (r, t ++ t')
  end.

End Py.
Export Py.

Notation "x <- m ;; k" := (bind m (fun x => k))
  (at level 100, m at next level, right associativity).
Notation "m ;;; k" := (bind m (fun _ => k))
  (at level 100, right associativity).

(** ** Lecture fichiers *)

Definition lire_docx (e : env) (f : file) : M str :=
  try_except
    (emit (docx_Document f) ;;;
     paragraphs <- lift (python_docx e f) ;;
     ret (join [NL] (List.filter (fun text => truthy (strip text)) paragraphs)))
    (fun ex =>
       emit (st_error (py "Erreur DOCX : " ++ exn_str ex)) ;;;
       ret []).

(** [for page in doc: texte += page.get_text()] *)
Fixpoint lire_pages (pages : list (result str)) (texte : str) : M str :=
  match pages with
  | [] => ret texte
  | page :: pages' =>
    t <- lift page ;;
    lire_pages pages' (texte ++ t)
  end.

Definition lire_pdf (e : env) (f : file) : M str :=
  try_except
    (emit (fitz_open (file_bytes f)) ;;;
     doc <- lift (pymupdf e (file_bytes f)) ;;
     lire_pages doc [])
    (fun ex =>
       emit (st_error (py "Erreur PDF : " ++ exn_str ex)) ;;;
       ret []).

Definition lire_image (e : env) (f : file) : M str :=
  try_except
    (emit (Image_open f) ;;;
     img <- lift (pil e f) ;;
     emit (pytesseract_image_to_string img (py "fra")) ;;;
     texte <- lift (tesseract e img (py "fra")) ;;
     ret texte)
    (fun ex =>
       emit (st_error (py "Erreur Image : " ++ exn_str ex)) ;;;
       ret []).

(** ** Analyse IA *)

(** The four patterns of [analyser_avec_gemini]. *)

(* r"Commentaire pédagogique\s*:\s*(.*?)\n\s*Axes d'amélioration", re.DOTALL *)
Definition pat_comm : regex :=
  Regex (lit (py "Commentaire pédagogique") ++
           [Rep CSpace Star; Rep (CChar COLON) Once; Rep CSpace Star])
        [Rep CDotAll LazyStar]
        ([Rep (CChar NL) Once; Rep CSpace Star] ++ lit (py "Axes d'amélioration")).

(* r"Axes d'amélioration\s*:\s*(.*?)\n\s*Points forts", re.DOTALL *)
Definition pat_axes : regex :=
  Regex (lit (py "Axes d'amélioration") ++
           [Rep CSpace Star; Rep (CChar COLON) Once; Rep CSpace Star])
        [Rep CDotAll LazyStar]
        ([Rep (CChar NL) Once; Rep CSpace Star] ++ lit (py "Points forts")).

(* r"Points forts\s*:\s*(.*?)\n\s*Note indicative", re.DOTALL *)
Definition pat_pf : regex :=
  Regex (lit (py "Points forts") ++
           [Rep CSpace Star; Rep (CChar COLON) Once; Rep CSpace Star])
        [Rep CDotAll LazyStar]
        ([Rep (CChar NL) Once; Rep CSpace Star] ++ lit (py "Note indicative")).

(* r"Note indicative\s*:\s*(\d+)" *)
Definition pat_note : regex :=
  Regex (lit (py "Note indicative") ++
           [Rep CSpace Star; Rep (CChar COLON) Once; Rep CSpace Star])
        [Rep CDigit Plus]
        [].

Definition NON_GENERE : str := py "Non généré".

(** The tone mapping at the head of [analyser_avec_gemini]. *)
Definition consigne_style (style : str) : str :=
  if str_in (py "Encourageante") style then
    py "Sois très bienveillant et valorise les efforts."
  else if str_in (py "Stricte") style then
    py "Sois rigoureux et exigeant."
  else
    py "Sois neutre et objectif.".

(** The f-string [prompt]. *)
Definition prompt (texte_ref texte_eleve matiere niveau style : str) : str :=
  [NL] ++
  py "Tu es un expert pédagogique niveau " ++ niveau ++ py "." ++ [NL] ++
  py "Matière : " ++ matiere ++ [NL] ++
  py "Style : " ++ consigne_style style ++ [NL] ++
  [NL] ++
  py "CORRIGÉ :" ++ [NL] ++
  texte_ref ++ [NL] ++
  [NL] ++
  py "COPIE ÉLÈVE :" ++ [NL] ++
  texte_eleve ++ [NL] ++
  [NL] ++
  py "Répond STRICTEMENT sous ce format :" ++ [NL] ++
  [NL] ++
  py "Commentaire pédagogique :" ++ [NL] ++
  py "..." ++ [NL] ++
  [NL] ++
  py "Axes d'amélioration :" ++ [NL] ++
  py "..." ++ [NL] ++
  [NL] ++
  py "Points forts :" ++ [NL] ++
  py "..." ++ [NL] ++
  [NL] ++
  py "Note indicative :" ++ [NL] ++
  py ".../20" ++ [NL].

(** The body of the [try] after the model call: "Extraction sécurisée avec
    regex". *)
Definition extraction (res : str) : str * str * str * str :=
  let comm := search pat_comm res in
  let axes := search pat_axes res in
  let pf := search pat_pf res in
  let note := search pat_note res in
  let commentaire := match comm with Some g => strip g | None => NON_GENERE end in
  let axes_amelioration := match axes with Some g => strip g | None => NON_GENERE end in
  let points_forts := match pf with Some g => strip g | None => NON_GENERE end in
  let note_finale := match note with Some g => g | None => py "10" end in
  (commentaire, axes_amelioration, points_forts, note_finale).

Definition analyser_avec_gemini (e : env)
    (texte_ref texte_eleve matiere niveau style : str) : M (str * str * str * str) :=
  let prompt := prompt texte_ref texte_eleve matiere niveau style in
  try_except
    (emit (model_generate_content prompt) ;;;
     res <- lift (gemini e prompt) ;;
     ret (extraction res))
    (fun ex => ret (py "Erreur IA : " ++ exn_str ex, [], [], py "00")).

(** ** Rapport Word *)

(** [infos[key]] *)
Definition getitem (infos : gmap string str) (key : string) : M str :=
  match infos !! key with
  | Some v => ret v
  | None => raise (Exception "KeyError" (py "'" ++ py key ++ py "'"))
  end.

(** *** Text written into the document

    python-docx keeps the document as an XML tree (lxml). Every text of the
    report reaches the tree through the setter of [run.text]:
    [doc.add_paragraph(text)] and [doc.add_heading(text, level)] add a
    paragraph and call [paragraph.add_run(text)], which assigns [run.text];
    the setter of [cell.text] empties the cell, adds a paragraph and a run,
    and assigns [run.text]. *)

Definition TAB : char := 9%N.
Definition CR : char := 13%N.

(** libxml2's [xmlIsChar_ch], on the characters of one byte. *)
Definition xmlIsChar_ch (c : char) : bool :=
  ((9 <=? c) && (c <=? 10) || (c =? 13) || (32 <=? c))%N.

Definition is_surrogate (c : char) : bool :=
  ((0xD800 <=? c) && (c <=? 0xDFFF))%N.

(** How many surrogates [s] starts with. *)
Fixpoint surrogates (s : str) : nat :=
  match s with
  | c :: s' => if is_surrogate c then S (surrogates s') else 0
  | [] => 0
  end.

(** [s.encode('utf8')] raises [UnicodeEncodeError] (a [ValueError]) on the
    first run of surrogates of [s]; [pos] is the position of [s] in the
    whole string. *)
Fixpoint encode_error (s : str) (pos : nat) : option exn :=
  match s with
  | [] => None
  | c :: s' =>
    if is_surrogate c then
      Some (Exception "UnicodeEncodeError"
              match surrogates s' with
              | 0 =>
                py "'utf-8' codec can't encode character '\u" ++ hex4 c ++
                py "' in position " ++ decimal pos ++ py ": surrogates not allowed"
              | S n =>
                py "'utf-8' codec can't encode characters in position " ++
                decimal pos ++ py "-" ++ decimal (pos + S n) ++
                py ": surrogates not allowed"
              end)
    else encode_error s' (S pos)
  end.

(** lxml's [_is_valid_xml_utf8], on code points: a character of one byte
    must satisfy [xmlIsChar_ch], and U+FFFE and U+FFFF are refused. *)
Definition is_valid_xml (c : char) : bool :=
  if (c <? 128)%N then xmlIsChar_ch c
  else negb ((c =? 0xFFFE) || (c =? 0xFFFF))%N.

(** lxml's [_utf8], which every text stored in the tree goes through: the
    text is encoded, then checked. *)
Definition lxml_utf8 (s : str) : result unit :=
  match encode_error s 0 with
  | Some ex => Raise ex
  | None =>
    if forallb is_valid_xml s then Ok tt
    else Raise (Exception "ValueError"
                  (py "All strings must be XML compatible: Unicode or ASCII, no NULL bytes or control characters"))
  end.

(** python-docx's [_RunContentAppender]: the characters are buffered; a tab
    flushes the buffer and adds a tab element, a carriage return or a line
    feed flushes it and adds a line break, and the end of the text flushes
    it. Flushing a non-empty buffer stores it as the text of a new element
    ([add_t]), through [lxml_utf8]. [written] is what the run reads back as
    so far: a tab element reads as a tab, a line break as a line feed. *)
Definition flush (written bfr : str) : result str :=
  match bfr with
  | [] => Ok written
  | _ :: _ =>
    match lxml_utf8 bfr with
    | Ok _ => Ok (written ++ bfr)
    | Raise ex => Raise ex
    end
  end.

Fixpoint add_text (text written bfr : str) : result str :=
  match text with
  | [] => flush written bfr
  | c :: text' =>
    if (c =? TAB)%N then
      match flush written bfr with
      | Ok w => add_text text' (w ++ [TAB]) []
      | Raise ex => Raise ex
      end
    else if (c =? CR)%N || (c =? NL)%N then
      match flush written bfr with
      | Ok w => add_text text' (w ++ [NL]) []
      | Raise ex => Raise ex
      end
    else add_text text' written (bfr ++ [c])
  end.

(** [run.text = text]: the result is the text the run reads back as. *)
Definition run_text (text : str) : result str := add_text text [] [].

(** python-docx objects are handles into the document body: [doc.add_...]
    appends a block and returns its handle, and later assignments through
    the handle change the block inside the document. *)
Definition add_paragraph (doc : document) (text : str) : M (document * nat) :=
  t <- lift (run_text text) ;;
  ret (doc ++ [Paragraph t LEFT], length doc).

Definition add_heading (doc : document) (text : str) (level : nat) : M document :=
  t <- lift (run_text text) ;;
  ret (doc ++ [Heading t level]).

(** [doc.add_table(rows, cols)]: every cell starts empty. *)
Definition add_table (doc : document) (rows cols : nat) : document * nat :=
  (doc ++ [TableBlock (Table (py "Normal Table") (replicate rows (replicate cols [])))],
   length doc).

Definition set_alignment (doc : document) (h : nat) (a : alignment) : document :=
  alter (fun b => match b with Paragraph t _ => Paragraph t a | _ => b end) h doc.

Definition set_style (doc : document) (h : nat) (style : str) : document :=
  alter (fun b => match b with
                  | TableBlock t => TableBlock (Table style (table_cells t))
                  | _ => b
                  end) h doc.

(** [paragraph.add_run(text)] *)
Definition add_run (doc : document) (h : nat) (text : str) : M document :=
  t <- lift (run_text text) ;;
  ret (alter (fun b => match b with Paragraph t0 a => Paragraph (t0 ++ t) a | _ => b end)
         h doc).

(** [table.cell(i, j).text = text]: [table.cell(i, j)] raises [IndexError]
    outside the table; then the text is assigned to the one run of the
    cell. *)
Definition set_cell_text (doc : document) (h i j : nat) (text : str) : M document :=
  match doc !! h with
  | Some (TableBlock t) =>
    match table_cells t !! i with
    | Some row =>
      if decide (j < length row) then
        v <- lift (run_text text) ;;
        ret (<[h := TableBlock (Table (table_style t)
                                  (<[i := <[j := v]> row]> (table_cells t)))]> doc)
      else raise (Exception "IndexError" (py "list index out of range"))
    | None => raise (Exception "IndexError" (py "list index out of range"))
    end
  | _ => raise (Exception "IndexError" (py "list index out of range"))
  end.

(** [for i, (label, value) in enumerate(data_rows): ...], from index [i]. *)
Fixpoint fill_rows (doc : document) (h i : nat) (data_rows : list (str * str)) : M document :=
  match data_rows with
  | [] => ret doc
  | (label, value) :: rows' =>
    doc <- set_cell_text doc h i 0 label ;;
    doc <- set_cell_text doc h i 1 value ;;
    fill_rows doc h (S i) rows'
  end.

(** The returned [BytesIO] buffer is represented by the document saved into
    it. *)
Definition creer_fiche_word (e : env) (infos : gmap string str) : M document :=
  emit docx_new_Document ;;;
  let doc : document := [] in
  r <- add_paragraph doc (py "REPUBLIQUE DE COTE D'IVOIRE" ++ [NL] ++
                          py "Union - Discipline - Travail") ;;
  let '(doc, p) := r in
  let doc := set_alignment doc p CENTER in
  doc <- add_heading doc (py "RAPPORT DE CORRECTION PEDAGOGIQUE IA") 0 ;;
  let '(doc, table) := add_table doc 6 2 in
  let doc := set_style doc table (py "Table Grid") in
  enseignant <- getitem infos "enseignant" ;;
  eleve <- getitem infos "eleve" ;;
  matiere <- getitem infos "matiere" ;;
  niveau <- getitem infos "niveau" ;;
  note <- getitem infos "note" ;;
  commentaire <- getitem infos "commentaire" ;;
  axes <- getitem infos "axes" ;;
  let data_rows :=
    [ (py "Enseignant :", enseignant);
      (py "Apprenant :", eleve);
      (py "Matière / Niveau :", matiere ++ py " (" ++ niveau ++ py ")");
      (py "Note indicative :", note);
      (py "Commentaire pédagogique :", commentaire);
      (py "Axes d'amélioration :", axes) ] in
  doc <- fill_rows doc table 0 data_rows ;;
  r <- add_paragraph doc
         ([NL] ++ py "Document généré le : " ++ isoformat (date_today e)) ;;
  let '(doc, _) := r in
  r <- add_paragraph doc
         (py "------------------------------------------------------------") ;;
  let '(doc, _) := r in
  r <- add_paragraph doc [] ;;
  let '(doc, contact) := r in
  let doc := set_alignment doc contact CENTER in
  doc <- add_run doc contact
           (py "Pour tout besoin en intelligence artificielle, contactez le Techno Djieh " ++
            py "au +225 0757283553 ou au mail : bitahdhiehd@gmail.com") ;;
  emit (docx_save doc) ;;;
  ret doc.

(** ** Interface Streamlit: the handler of "Lancer la correction IA" *)

Definition is_some {A} (o : option A) : bool :=
  match o with
  | Some _ => true
  | None => false
  end.

(** The dictionary [infos = {"enseignant": enseignant, ..., "axes": axes}]
    of the handler. *)
Definition build_infos (enseignant eleve matiere niveau note commentaire axes : str)
    : gmap string str :=
  <["axes" := axes]>
  (<["commentaire" := commentaire]>
  (<["note" := note]>
  (<["niveau" := niveau]>
  (<["matiere" := matiere]>
  (<["eleve" := eleve]>
  (<["enseignant" := enseignant]> ∅)))))).

Definition lancer_la_correction (e : env)
    (enseignant eleve matiere niveau style : str)
    (fichier_ref : option file) (type_doc : str) (fichier_eleve : option file) : M unit :=
  if truthy eleve && truthy matiere && is_some fichier_eleve then
    match fichier_eleve with
    | None => ret tt
    | Some fichier_eleve =>
      texte_ref <- match fichier_ref with
                   | Some f => lire_docx e f
                   | None => ret []
                   end ;;
      texte_eleve <- (if str_eqb type_doc (py "DOCX") then lire_docx e fichier_eleve
                      else if str_eqb type_doc (py "PDF") then lire_pdf e fichier_eleve
                      else lire_image e fichier_eleve) ;;
      emit (st_spinner (py "Analyse IA en cours...")) ;;;
      r <- analyser_avec_gemini e texte_ref texte_eleve matiere niveau style ;;
      let '(commentaire, axes, points_forts, note) := r in
      emit (st_info (py "### 📝 Commentaire pédagogique")) ;;;
      emit (st_write commentaire) ;;;
      emit (st_warning (py "### 🔧 Axes d'amélioration")) ;;;
      emit (st_write axes) ;;;
      emit (st_success (py "### 🌟 Points forts")) ;;;
      emit (st_write points_forts) ;;;
      emit (st_metric (py "Note indicative") (note ++ py "/20")) ;;;
      let infos := build_infos enseignant eleve matiere niveau note commentaire axes in
      docx_file <- creer_fiche_word e infos ;;
      emit (st_download_button (py "📥 Télécharger la fiche DOCX") docx_file
              (py "Correction_" ++ eleve ++ py ".docx")
              (py "application/vnd.openxmlformats-officedocument.wordprocessingml.document"))
    end
  else
    emit (st_error (py "⚠️ Remplis tous les champs et ajoute la copie de l'élève.")).

(** ** The script: configuration, widgets, button

    What the user did in the browser (and the process environment) is a
    [session]; the run of the script is its trace and how it ended. *)

Record session := Session {
  environ : str -> option str;                (* os.getenv, after load_dotenv() *)
  text_input : str -> str -> str;             (* st.text_input(label, value) *)
  selectbox : str -> list str -> str;         (* st.selectbox(label, options) *)
  radio : str -> list str -> str;             (* st.radio(label, options) *)
  file_uploader : str -> list str -> option file;   (* st.file_uploader(label, type) *)
  button : str -> bool                        (* st.button(label) *)
}.

Inductive app_event :=
| load_dotenv
| os_getenv (name : str)
| genai_configure (api_key : str)
| genai_GenerativeModel (model_name : str)
| st_set_page_config (page_title layout : str)
| st_title (body : str)
| st_sidebar
| st_header (body : str)
| st_text_input (label value : str)
| st_selectbox (label : str) (options : list str)
| st_radio (label : str) (options : list str)
| st_divider
| st_columns (n : nat)
| st_file_uploader (label : str) (types : list str)
| st_button (label : str)
| st_stop
| pipeline (ev : event).                      (* an event of the functions above *)

Inductive outcome :=
| Completed
| Stopped                                     (* st.stop() *)
| Crashed (e : exn).

Definition script (e : env) (s : session) : outcome * list app_event :=
  let API_KEY := environ s (py "GEMINI_API_KEY") in
  let t_env := [load_dotenv; os_getenv (py "GEMINI_API_KEY")] in
  if negb (match API_KEY with Some key => truthy key | None => false end) then
    (Stopped,
     t_env ++
     [pipeline (st_error (py "❌ Clé API Gemini introuvable. Vérifie ton fichier .env"));
      st_stop])
  else
    let t_model :=
      [genai_configure (match API_KEY with Some key => key | None => [] end);
       genai_GenerativeModel (py "gemini-2.0-flash")] in
    let enseignant := text_input s (py "Enseignant") (py "M. Techno Djieh") in
    let eleve := text_input s (py "Nom de l'élève") [] in
    let matiere := text_input s (py "Matière") [] in
    let niveaux := [py "Primaire"; py "Secondaire"; py "Universitaire"] in
    let niveau := selectbox s (py "Niveau") niveaux in
    let styles := [py "Encourageante"; py "Standard"; py "Stricte"] in
    let style := radio s (py "Style") styles in
    let fichier_ref := file_uploader s (py "Corrigé (DOCX optionnel)") [py "docx"] in
    let types := [py "DOCX"; py "PDF"; py "Image"] in
    let type_doc := radio s (py "Type copie élève") types in
    let '(fichier_eleve, t_copie) :=
      if str_eqb type_doc (py "DOCX") then
        (file_uploader s (py "Copie DOCX") [py "docx"],
         st_file_uploader (py "Copie DOCX") [py "docx"])
      else if str_eqb type_doc (py "PDF") then
        (file_uploader s (py "Copie PDF") [py "pdf"],
         st_file_uploader (py "Copie PDF") [py "pdf"])
      else
        (file_uploader s (py "Image devoir") [py "jpg"; py "png"; py "jpeg"],
         st_file_uploader (py "Image devoir") [py "jpg"; py "png"; py "jpeg"]) in
    let t_ui :=
      [st_set_page_config (py "Assistant de Correction Intelligent") (py "wide");
       st_title (py "📝 Assistant de Correction Intelligent");
       st_sidebar;
       st_header (py "Paramètres");
       st_text_input (py "Enseignant") (py "M. Techno Djieh");
       st_text_input (py "Nom de l'élève") [];
       st_text_input (py "Matière") [];
       st_selectbox (py "Niveau") niveaux;
       st_radio (py "Style") styles;
       st_divider;
       st_columns 2;
       st_file_uploader (py "Corrigé (DOCX optionnel)") [py "docx"];
       st_radio (py "Type copie élève") types;
       t_copie;
       st_button (py "Lancer la correction IA")] in
    if button s (py "Lancer la correction IA") then
      let '(r, t) :=
        lancer_la_correction e enseignant eleve matiere niveau style
          fichier_ref type_doc fichier_eleve in
      (match r with Ok _ => Completed | Raise ex => Crashed ex end,
       t_env ++ t_model ++ t_ui ++ map pipeline t)
    else
      (Completed, t_env ++ t_model ++ t_ui).

(** * Vocabulary of the statements

    Definitions the statements below are written with: the language of a
    pattern, the patterns by label, parts of the results, and sample
    environments and replies. *)

(** The texts a sequence of items can consume. *)
Fixpoint Lang (p : list item) (w : str) : Prop :=
  match p with
  | [] => w = []
  | Rep c Once :: p' =>
    exists x t, w = x :: t /\ accepts c x = true /\ Lang p' t
  | Rep c Star :: p' | Rep c LazyStar :: p' =>
    exists u t, w = u ++ t /\ forallb (accepts c) u = true /\ Lang p' t
  | Rep c Plus :: p' =>
    exists x u t, w = x :: u ++ t /\ accepts c x = true /\
                  forallb (accepts c) u = true /\ Lang p' t
  end.

Definition ranges_apart (rs1 rs2 : list (N * N)) : bool :=
  forallb (fun r1 =>
    forallb (fun r2 => (snd r1 <? fst r2)%N || (snd r2 <? fst r1)%N) rs2) rs1.

(** [L\s*:\s*], the part all four patterns start with. *)
Definition label_colon (L : str) : list item :=
  lit L ++ [Rep CSpace Star; Rep (CChar COLON) Once; Rep CSpace Star].

(** [L1\s*:\s*(.*?)\n\s*L2] under [re.DOTALL]. *)
Definition between_pattern (L1 L2 : str) : regex :=
  Regex (label_colon L1) [Rep CDotAll LazyStar]
        ([Rep (CChar NL) Once; Rep CSpace Star] ++ lit L2).

(** [L\s*:\s*(\d+)] *)
Definition number_pattern (L : str) : regex :=
  Regex (label_colon L) [Rep CDigit Plus] [].

(** The four section labels. *)
Definition LABEL_COMM : str := py "Commentaire pédagogique".
Definition LABEL_AXES : str := py "Axes d'amélioration".
Definition LABEL_PF : str := py "Points forts".
Definition LABEL_NOTE : str := py "Note indicative".

(** [sub] is a contiguous part of [s]. *)
Definition contains (sub s : str) : Prop := exists a b, s = a ++ sub ++ b.

(** The tables of a document, in order. *)
Definition tables_of (doc : document) : list table :=
  flat_map (fun b => match b with TableBlock t => [t] | _ => [] end) doc.

(** The table [creer_fiche_word] fills. *)
Definition fiche_rows (enseignant eleve matiere niveau note commentaire axes : str)
    : list (list str) :=
  [ [py "Enseignant :"; enseignant];
    [py "Apprenant :"; eleve];
    [py "Matière / Niveau :"; matiere ++ py " (" ++ niveau ++ py ")"];
    [py "Note indicative :"; note];
    [py "Commentaire pédagogique :"; commentaire];
    [py "Axes d'amélioration :"; axes] ].

(** The components of the tuple [analyser_avec_gemini] returns. *)
Definition commentaire_of (r : str * str * str * str) : str := r.1.1.1.
Definition axes_of (r : str * str * str * str) : str := r.1.1.2.
Definition points_forts_of (r : str * str * str * str) : str := r.1.2.
Definition note_of (r : str * str * str * str) : str := r.2.

(** An environment whose libraries answer with fixed values. *)
Definition env_const (docx : result (list str)) (pdf : result (list (result str)))
    (img : result image) (ocr : result str) (reply : result str) : env :=
  Env (fun _ => docx) (fun _ => pdf) (fun _ => img) (fun _ _ => ocr)
      (fun _ => reply) (Date 2024 5 17).

Definition env_model_down : env :=
  env_const (Ok []) (Ok []) (Ok (Image [])) (Ok [])
    (Raise (Exception "DeadlineExceeded" (py "504 Deadline Exceeded"))).

Definition env_all_fine : env :=
  env_const (Ok [py "Bonjour"]) (Ok [Ok (py "Bonjour")]) (Ok (Image []))
    (Ok (py "Bonjour")) (Ok (py "Note indicative : 12/20")).

Definition env_broken_files : env :=
  env_const (Raise (Exception "PackageNotFoundError" (py "Package not found")))
    (Ok [Ok (py "page 1"); Raise (Exception "RuntimeError" (py "page damaged"))])
    (Raise (Exception "UnidentifiedImageError" (py "cannot identify image file")))
    (Ok []) (Ok []).

Definition env_empty_pdf : env :=
  env_const (Ok []) (Ok []) (Ok (Image [])) (Ok []) (Ok []).

(** An environment whose model answers [reply]. *)
Definition env_reply (reply : str) : env :=
  env_const (Ok []) (Ok []) (Ok (Image [])) (Ok []) (Ok reply).

(** A report whose fields are all empty. *)
Definition infos_empty : gmap string str := build_infos [] [] [] [] [] [] [].

(** The well-formed reply of the specification, with the labels of the
    source. *)
Definition reply_well_formed : str :=
  py "Commentaire pédagogique:" ++ [NL] ++ py "Good work" ++ [NL] ++
  py "Axes d'amélioration:" ++ [NL] ++ py "Work on grammar" ++ [NL] ++
  py "Points forts:" ++ [NL] ++ py "Clear structure" ++ [NL] ++
  py "Note indicative:" ++ [NL] ++ py "15/20".

(** The same four sections written on one line. *)
Definition reply_one_line : str :=
  py "Commentaire pédagogique: Bon travail Axes d'amélioration: Grammaire Points forts: Structure Note indicative: 15/20".

(** The well-formed reply is [reply_head], the second label with its colon,
    and [reply_tail]; without that label it is
    [reply_missing_axes_label]. *)
Definition reply_head : str :=
  py "Commentaire pédagogique:" ++ [NL] ++ py "Good work" ++ [NL].

Definition reply_tail : str :=
  [NL] ++ py "Work on grammar" ++ [NL] ++
  py "Points forts:" ++ [NL] ++ py "Clear structure" ++ [NL] ++
  py "Note indicative:" ++ [NL] ++ py "15/20".

Definition reply_missing_axes_label : str := reply_head ++ reply_tail.


Definition reply_note_only : str := py "Bilan. Note indicative : 15/20".

(** A reply whose score comes after a word. *)
Definition reply_note_after_word : str := py "Note indicative : environ 15/20".

Definition reply_decimal_note : str := py "Note indicative : 15.5/20".

(** The document [creer_fiche_word] builds: letterhead, title, table, date
    line, rule, contact line. *)
Definition fiche (date : str) (cells : list (list str)) : document :=
  [ Paragraph (py "REPUBLIQUE DE COTE D'IVOIRE" ++ [NL] ++
               py "Union - Discipline - Travail") CENTER;
    Heading (py "RAPPORT DE CORRECTION PEDAGOGIQUE IA") 0;
    TableBlock (Table (py "Table Grid") cells);
    Paragraph ([NL] ++ py "Document généré le : " ++ date) LEFT;
    Paragraph (py "------------------------------------------------------------") LEFT;
    Paragraph (py "Pour tout besoin en intelligence artificielle, contactez le Techno Djieh " ++
               py "au +225 0757283553 ou au mail : bitahdhiehd@gmail.com") CENTER ].

Definition rapport (date enseignant eleve matiere niveau note commentaire axes : str)
    : document :=
  fiche date (fiche_rows enseignant eleve matiere niveau note commentaire axes).

(** The characters XML text can hold (production [Char] of XML 1.0, over
    the code points of a Python string): tab, line feed, carriage return,
    and everything from U+0020 on except the surrogates, U+FFFE and
    U+FFFF. The control characters below U+0020 other than those three are
    not among them. *)
Definition xml_char (c : char) : bool :=
  ((c =? 9) || (c =? 10) || (c =? 13) ||
   (32 <=? c) && negb ((0xD800 <=? c) && (c <=? 0xDFFF)) &&
   negb (c =? 0xFFFE) && negb (c =? 0xFFFF))%N.

Definition xml_compatible (s : str) : bool := forallb xml_char s.

(** A text as the document gives it back: every carriage return has become
    a line feed. *)
Definition line_feeds (s : str) : str :=
  map (fun c => if (c =? 13)%N then 10%N else c) s.

(** The exceptions of a text the document refuses: [ValueError], or its
    subclass [UnicodeEncodeError]. *)
Definition refused (ex : exn) : Prop :=
  exn_class ex = "ValueError"%string \/ exn_class ex = "UnicodeEncodeError"%string.

(** The [ValueError] of lxml. *)
Definition XML_ERROR : exn :=
  Exception "ValueError"
    (py "All strings must be XML compatible: Unicode or ASCII, no NULL bytes or control characters").

(** Characters that are stored as they are: those of [xml_char] other than
    tab, line feed and carriage return. *)
Definition plain (c : char) : bool :=
  xml_char c && negb ((c =? 9) || (c =? 10) || (c =? 13))%N.

(** Printable ASCII. *)
Definition printable (c : char) : bool := ((32 <=? c) && (c <=? 126))%N.

(** The six values [creer_fiche_word] writes all fit in XML text. *)
Definition values_compatible
    (enseignant eleve matiere niveau note commentaire axes : str) : bool :=
  xml_compatible enseignant && xml_compatible eleve && xml_compatible matiere &&
  xml_compatible niveau && xml_compatible note && xml_compatible commentaire &&
  xml_compatible axes.

(** No lone surrogate: what every string decoded from UTF-8 satisfies. *)
Definition no_surrogate (s : str) : bool :=
  forallb (fun c => negb ((0xD800 <=? c) && (c <=? 0xDFFF))%N) s.

Definition values_no_surrogate
    (enseignant eleve matiere niveau note commentaire axes : str) : bool :=
  no_surrogate enseignant && no_surrogate eleve && no_surrogate matiere &&
  no_surrogate niveau && no_surrogate note && no_surrogate commentaire &&
  no_surrogate axes.

(** What the model answers, as text: the reply, or the message of the
    exception. *)
Definition answer_text (r : result str) : str :=
  match r with
  | Ok res => res
  | Raise ex => exn_str ex
  end.

(** A paragraph is blank when it holds nothing but whitespace. *)
Definition blank (p : str) : bool := forallb isspace p.

(** [s] starts with a place where the score can be read: the label,
    optional spaces, a colon, optional spaces, a digit. *)
Definition note_site_here (s : str) : bool :=
  startswith LABEL_NOTE s &&
  match lstrip (drop (length LABEL_NOTE) s) with
  | c :: s' =>
    (c =? COLON)%N &&
    match lstrip s' with
    | d :: _ => isdecimal d
    | [] => false
    end
  | [] => false
  end.

(** The first position of [s] where the score can be read. *)
Fixpoint first_note_site (s : str) : option nat :=
  if note_site_here s then Some 0
  else match s with
       | [] => None
       | _ :: s' => option_map S (first_note_site s')
       end.

(** The last things a run past the gate does: the report is created,
    written and saved, and the download is offered; or a text is refused
    while the report is written, and the run ends there. *)
Definition fin_de_traitement (r : result document) (eleve : str) : result unit * list event :=
  match r with
  | Ok doc =>
    (Ok tt,
     [ docx_new_Document; docx_save doc;
       st_download_button (py "📥 Télécharger la fiche DOCX") doc
         (py "Correction_" ++ eleve ++ py ".docx")
         (py "application/vnd.openxmlformats-officedocument.wordprocessingml.document") ])
  | Raise ex => (Raise ex, [docx_new_Document])
  end.

(** The seven keys [creer_fiche_word] reads, in the order it reads them. *)
Definition cles : list string :=
  ["enseignant"; "eleve"; "matiere"; "niveau"; "note"; "commentaire"; "axes"]%string.

(** The reply format the prompt asks for ("Répond STRICTEMENT sous ce
    format"), with the four dotted places filled in. *)
Definition reponse_type (commentaire axes points_forts note : str) : str :=
  py "Commentaire pédagogique :" ++ [NL] ++
  commentaire ++ [NL] ++
  [NL] ++
  py "Axes d'amélioration :" ++ [NL] ++
  axes ++ [NL] ++
  [NL] ++
  py "Points forts :" ++ [NL] ++
  points_forts ++ [NL] ++
  [NL] ++
  py "Note indicative :" ++ [NL] ++
  note ++ py "/20" ++ [NL].

(** The two extractions at the head of the handler. *)
Definition texte_reference (e : env) (fichier_ref : option file) : M str :=
  match fichier_ref with
  | Some f => lire_docx e f
  | None => ret []
  end.

Definition texte_copie (e : env) (type_doc : str) (fichier_eleve : file) : M str :=
  if str_eqb type_doc (py "DOCX") then lire_docx e fichier_eleve
  else if str_eqb type_doc (py "PDF") then lire_pdf e fichier_eleve
  else lire_image e fichier_eleve.

(** What the handler shows for a grading result. *)
Definition affichage (commentaire axes points_forts note : str) : list event :=
  [ st_info (py "### 📝 Commentaire pédagogique"); st_write commentaire;
    st_warning (py "### 🔧 Axes d'amélioration"); st_write axes;
    st_success (py "### 🌟 Points forts"); st_write points_forts;
    st_metric (py "Note indicative") (note ++ py "/20") ].


(** Kinds of events, for counting. *)
Definition is_model_call (ev : event) : bool :=
  match ev with model_generate_content _ => true | _ => false end.

Definition is_save (ev : event) : bool :=
  match ev with docx_save _ => true | _ => false end.

Definition is_download (ev : event) : bool :=
  match ev with st_download_button _ _ _ _ => true | _ => false end.

Definition is_reading (ev : event) : bool :=
  match ev with
  | docx_Document _ | fitz_open _ | Image_open _
  | pytesseract_image_to_string _ _ | st_error _ => true
  | _ => false
  end.

Definition is_pipeline (ev : app_event) : bool :=
  match ev with pipeline _ => true | _ => false end.

Definition count_events {E} (f : E -> bool) (t : list E) : nat :=
  length (List.filter f t).

(** The same libraries with another model. *)
Definition with_gemini (e : env) (model : str -> result str) : env :=
  Env (python_docx e) (pymupdf e) (pil e) (tesseract e) model (date_today e).

(** Sample data for the statements below. *)
Definition copie_docx : file := File (py "copie.docx") [80; 75; 3; 4]%N.
Definition copie_pdf : file := File (py "copie.pdf") [37; 80; 68; 70]%N.

Definition env_two_pages : env :=
  env_const (Ok []) (Ok [Ok (py "page 1 "); Ok (py "page 2")]) (Ok (Image []))
    (Ok []) (Ok []).

Definition env_paragraphs : env :=
  env_const (Ok [py "Titre"; py "   "; py " Corps du devoir "; []])
    (Ok []) (Ok (Image [])) (Ok []) (Ok reply_well_formed).

Definition session_of (key : option str) (eleve matiere type_doc : str)
    (uploads : str -> option file) (pressed : bool) : session :=
  Session
    (fun name => if str_eqb name (py "GEMINI_API_KEY") then key else None)
    (fun label value =>
       if str_eqb label (py "Nom de l'élève") then eleve
       else if str_eqb label (py "Matière") then matiere
       else value)
    (fun _ options => match options with o :: _ => o | [] => [] end)
    (fun label options =>
       if str_eqb label (py "Type copie élève") then type_doc
       else match options with o :: _ => o | [] => [] end)
    (fun label _ => uploads label)
    (fun _ => pressed).

(** A dictionary without the score. *)
Definition infos_sans_note : gmap string str :=
  <["axes" := py "Relire"]>
  (<["commentaire" := py "Bien"]>
  (<["niveau" := py "Primaire"]>
  (<["matiere" := py "Maths"]>
  (<["eleve" := py "Awa"]>
  (<["enseignant" := py "M. Techno Djieh"]> ∅))))).

(** A place where the score can be read: the label, optional spaces, a
    colon, optional spaces, a digit. *)
Definition note_site (res : str) : Prop :=
  exists a u v d t,
    res = a ++ LABEL_NOTE ++ u ++ COLON :: v ++ d :: t /\
    forallb isspace u = true /\ forallb isspace v = true /\ isdecimal d = true.

(** The well-formed reply with other strengths. *)
Definition reply_other_strengths : str :=
  py "Commentaire pédagogique:" ++ [NL] ++ py "Good work" ++ [NL] ++
  py "Axes d'amélioration:" ++ [NL] ++ py "Work on grammar" ++ [NL] ++
  py "Points forts:" ++ [NL] ++ py "Neat handwriting" ++ [NL] ++
  py "Note indicative:" ++ [NL] ++ py "15/20".

(** Sessions: no key; a key and a click with a DOCX left in the DOCX
    uploader while the type is PDF; a key and no click. *)
Definition uploads_docx_only (label : str) : option file :=
  if str_eqb label (py "Copie DOCX") then Some copie_docx else None.

Definition session_no_key : session :=
  session_of None (py "Awa") (py "Maths") (py "DOCX") uploads_docx_only true.

Definition session_wrong_uploader : session :=
  session_of (Some (py "cle-de-test")) (py "Awa") (py "Maths") (py "PDF")
    uploads_docx_only true.

Definition session_no_click : session :=
  session_of (Some (py "cle-de-test")) (py "Awa") (py "Maths") (py "DOCX")
    uploads_docx_only false.

(** A comment with a form feed in it, as a page break in a reply leaves
    one. *)
Definition commentaire_form_feed : str :=
  py "Bon travail." ++ [12%N] ++ py "Page suivante".

Definition infos_form_feed : gmap string str :=
  build_infos (py "M. Techno Djieh") (py "Awa") (py "Maths") (py "Primaire")
    (py "15") commentaire_form_feed (py "Relire").

(** A comment of two lines, ended the Windows way (carriage return, line
    feed). *)
Definition commentaire_crlf : str := py "Ligne 1" ++ [13%N; NL] ++ py "Ligne 2".

Definition infos_crlf : gmap string str :=
  build_infos (py "M. Techno Djieh") (py "Awa") (py "Maths") (py "Primaire")
    (py "15") commentaire_crlf (py "Relire").

(** The well-formed reply with that comment. *)
Definition reply_form_feed : str :=
  py "Commentaire pédagogique:" ++ [NL] ++ commentaire_form_feed ++ [NL] ++
  py "Axes d'amélioration:" ++ [NL] ++ py "Work on grammar" ++ [NL] ++
  py "Points forts:" ++ [NL] ++ py "Clear structure" ++ [NL] ++
  py "Note indicative:" ++ [NL] ++ py "15/20".

(** The well-formed reply with the comment of two lines. *)
Definition reply_crlf : str :=
  py "Commentaire pédagogique:" ++ [NL] ++ commentaire_crlf ++ [NL] ++
  py "Axes d'amélioration:" ++ [NL] ++ py "Work on grammar" ++ [NL] ++
  py "Points forts:" ++ [NL] ++ py "Clear structure" ++ [NL] ++
  py "Note indicative:" ++ [NL] ++ py "15/20".

(** Two scores, the second one decimal. *)
Definition reply_two_notes : str :=
  py "Note indicative: 12/20" ++ [NL] ++ py "Note indicative: 15.5/20".

(** The label in a sentence, then the score. *)
Definition reply_note_in_prose : str :=
  py "La Note indicative figure plus bas." ++ [NL] ++ py "Note indicative : 15.5/20".

(** A session that presses the button on a PDF submission. *)
Definition uploads_pdf_only (label : str) : option file :=
  if str_eqb label (py "Copie PDF") then Some copie_pdf else None.

Definition session_click : session :=
  session_of (Some (py "cle-de-test")) (py "Awa") (py "Maths") (py "PDF")
    uploads_pdf_only true.

(** * Properties *)

(** String literals are compared as written; where a proof has to look
    inside one it evaluates it with [vm_compute]. *)
Opaque py.

(** ** Strings *)

Section StrFacts.
Implicit Types s t p sub : str.

Lemma startswith_spec p s : startswith p s = true <-> exists t, s = p ++ t.
Proof.
  revert s; induction p as [|a p IH]; intros s; simpl.
  - split; eauto.
  - destruct s as [|b s].
    + split; [discriminate | intros [t Ht]; discriminate].
    + rewrite andb_true_iff, N.eqb_eq, IH. split.
      * intros [-> [t ->]]. eauto.
      * intros [t Ht]. injection Ht as -> ->. eauto.
Qed.

Lemma startswith_app p t : startswith p (p ++ t) = true.
Proof. apply startswith_spec; eauto. Qed.

(** [sub in s] holds exactly when [sub] is a contiguous part of [s]. *)
Lemma str_in_spec sub s : str_in sub s = true <-> exists a b, s = a ++ sub ++ b.
Proof.
  induction s as [|c s IH]; simpl.
  - rewrite orb_false_r, startswith_spec. split.
    + intros [t Ht]. exists [], t. exact Ht.
    + intros (a & b & H). destruct a; [eauto|discriminate].
  - rewrite orb_true_iff, startswith_spec, IH. split.
    + intros [[t Ht] | (a & b & ->)].
      * exists [], t. exact Ht.
      * exists (c :: a), b. reflexivity.
    + intros (a & b & H). destruct a as [|c' a].
      * left. eauto.
      * right. injection H as -> ->. eauto.
Qed.

Lemma occurrences_head sub s : startswith sub s = true -> 1 <= occurrences sub s.
Proof. intros H. destruct s; simpl; rewrite H; lia. Qed.

Lemma occurrences_app_ge sub a b : 1 <= occurrences sub (a ++ sub ++ b).
Proof.
  induction a as [|c a IH]; simpl.
  - apply occurrences_head, startswith_app.
  - lia.
Qed.

(** A text that occurs once occurs at one place. *)
Lemma occurrences_unique sub a b a' b' :
  occurrences sub (a ++ sub ++ b) = 1 ->
  a ++ sub ++ b = a' ++ sub ++ b' ->
  a = a' /\ b = b'.
Proof.
  revert a'; induction a as [|c a IH]; intros [|c' a'] Hocc Heq.
  - split; [reflexivity|]. simpl in Heq. eapply app_inv_head, Heq.
  - exfalso. simpl in Heq. rewrite Heq in Hocc. simpl in Hocc.
    pose proof (occurrences_app_ge sub a' b').
    assert (startswith sub (c' :: a' ++ sub ++ b') = true) as Hs.
    { rewrite <- Heq. apply startswith_app. }
    change (c' :: a' ++ sub ++ b') with ((c' :: a') ++ sub ++ b') in Hs.
    simpl in Hs. rewrite Hs in Hocc. lia.
  - exfalso. simpl in Heq, Hocc.
    pose proof (occurrences_app_ge sub a b).
    assert (startswith sub (c :: a ++ sub ++ b) = true) as Hs.
    { rewrite Heq. apply startswith_app. }
    rewrite Hs in Hocc. lia.
  - simpl in Heq. injection Heq as -> Heq. simpl in Hocc.
    pose proof (occurrences_app_ge sub a b).
    destruct (IH a') as [-> ->]; [|exact Heq|done].
    destruct (startswith sub (c' :: a ++ sub ++ b)); lia.
Qed.

Lemma find_first sub a s :
  find sub (a ++ s) = Some (length a) ->
  forall a1 a2, a = a1 ++ a2 -> a2 <> [] -> startswith sub (a2 ++ s) = false.
Proof.
  induction a as [|c a IH]; intros H a1 a2 Ha Hne.
  - destruct a1, a2; done.
  - simpl in H. destruct (startswith sub (c :: a ++ s)) eqn:E; [done|].
    destruct (find sub (a ++ s)) as [n|] eqn:F; [|done].
    injection H as ->. destruct a1 as [|c1 a1].
    + simpl in Ha. subst a2. exact E.
    + injection Ha as -> ->. eapply IH; done.
Qed.

Lemma lstrip_spaces w s : forallb isspace w = true -> lstrip (w ++ s) = lstrip s.
Proof.
  induction w as [|c w IH]; simpl; [done|].
  rewrite andb_true_iff. intros [-> H]. auto.
Qed.

Lemma lstrip_all_spaces w : forallb isspace w = true -> lstrip w = [].
Proof.
  intros H. rewrite <- (app_nil_r w), lstrip_spaces; done.
Qed.

(** [lstrip] either removes everything, or stops at a character that is
    not a space and leaves what follows alone. *)
Lemma lstrip_app s t :
  lstrip (s ++ t) = if forallb isspace s then lstrip t else lstrip s ++ t.
Proof.
  induction s as [|c s IH]; simpl; [done|].
  destruct (isspace c); simpl; done.
Qed.

Lemma forallb_rev (f : char -> bool) w : forallb f (rev w) = forallb f w.
Proof.
  induction w as [|c w IH]; simpl; [done|].
  rewrite forallb_app, IH. simpl. rewrite andb_true_r. apply andb_comm.
Qed.

Lemma rstrip_spaces s w : forallb isspace w = true -> rstrip (s ++ w) = rstrip s.
Proof.
  intros H. unfold rstrip. rewrite rev_app_distr, lstrip_spaces; [done|].
  by rewrite forallb_rev.
Qed.

(** Whitespace around a text does not change what [strip] returns. *)
Lemma strip_spaces w1 s w2 :
  forallb isspace w1 = true -> forallb isspace w2 = true ->
  strip (w1 ++ s ++ w2) = strip s.
Proof.
  intros H1 H2. unfold strip. rewrite lstrip_spaces by done.
  rewrite lstrip_app. destruct (forallb isspace s) eqn:Hs.
  - rewrite (lstrip_all_spaces w2), (lstrip_all_spaces s); done.
  - by rewrite rstrip_spaces.
Qed.

(** Two ways of reading "spaces, then something that is not a space" off
    the same text agree. *)
Lemma spaces_then_eq w1 w2 c1 c2 t1 t2 :
  forallb isspace w1 = true -> forallb isspace w2 = true ->
  isspace c1 = false -> isspace c2 = false ->
  w1 ++ c1 :: t1 = w2 ++ c2 :: t2 ->
  w1 = w2 /\ c1 = c2 /\ t1 = t2.
Proof.
  revert w2; induction w1 as [|a w1 IH]; intros [|b w2]; simpl;
    rewrite ?andb_true_iff; intros H1 H2 Hc1 Hc2 Heq.
  - injection Heq as -> ->. done.
  - injection Heq as -> _. destruct H2 as [H2 _]. congruence.
  - injection Heq as -> _. destruct H1 as [H1 _]. congruence.
  - injection Heq as -> Heq. destruct H1 as [_ H1], H2 as [_ H2].
    destruct (IH w2 H1 H2 Hc1 Hc2 Heq) as (-> & -> & ->). done.
Qed.

End StrFacts.

(** ** The matcher against the language of a pattern *)

Module ReFacts.

Section Repeat.
Context {R : Type} (c : cclass) (k : str -> option R).

Lemma greedy_sound s r :
  greedy c k s = Some r ->
  exists u t, s = u ++ t /\ forallb (accepts c) u = true /\ k t = Some r.
Proof.
  induction s as [|x s IH]; simpl; intros H.
  - exists [], []. done.
  - destruct (accepts c x) eqn:Hx.
    + destruct (greedy c k s) as [r'|] eqn:Hg.
      * injection H as ->. destruct (IH eq_refl) as (u & t & -> & Hu & Hk).
        exists (x :: u), t. simpl. rewrite Hx. done.
      * exists [], (x :: s). done.
    + exists [], (x :: s). done.
Qed.

Lemma greedy_here s r : k s = Some r -> exists r', greedy c k s = Some r'.
Proof.
  intros H. destruct s as [|x s]; simpl; [eauto|].
  destruct (accepts c x); [|eauto].
  destruct (greedy c k s); eauto.
Qed.

Lemma greedy_complete u t r :
  forallb (accepts c) u = true -> k t = Some r ->
  exists r', greedy c k (u ++ t) = Some r'.
Proof.
  induction u as [|x u IH]; simpl; intros Hu Hk.
  - eapply greedy_here, Hk.
  - apply andb_true_iff in Hu as [-> Hu].
    destruct (IH Hu Hk) as [r' ->]. eauto.
Qed.

(** When what follows cannot start with a character of the class, the
    repetition has one way to match: take the whole run. *)
Lemma greedy_skip u t :
  forallb (accepts c) u = true ->
  (forall x t', accepts c x = true -> k (x :: t') = None) ->
  match t with [] => True | x :: _ => accepts c x = false end ->
  greedy c k (u ++ t) = k t.
Proof.
  intros Hu Hk Ht. induction u as [|x u IH]; simpl.
  - destruct t as [|y t]; simpl; [done|]. by rewrite Ht.
  - simpl in Hu. apply andb_true_iff in Hu as [Hx Hu]. rewrite Hx, (IH Hu).
    destruct (k t) eqn:E; [done|]. by apply Hk.
Qed.

(** When what follows always succeeds, the repetition takes the whole
    run. *)
Lemma greedy_longest u t :
  forallb (accepts c) u = true ->
  (forall t', k t' <> None) ->
  match t with [] => True | x :: _ => accepts c x = false end ->
  greedy c k (u ++ t) = k t.
Proof.
  intros Hu Hk Ht. induction u as [|x u IH]; simpl.
  - destruct t as [|y t]; simpl; [done|]. by rewrite Ht.
  - simpl in Hu. apply andb_true_iff in Hu as [Hx Hu]. rewrite Hx, (IH Hu).
    destruct (k t) eqn:E; [done|]. by apply Hk in E.
Qed.

Lemma lazy_sound s r :
  lazy c k s = Some r ->
  exists u t, s = u ++ t /\ forallb (accepts c) u = true /\ k t = Some r.
Proof.
  induction s as [|x s IH]; simpl; intros H.
  - destruct (k []) eqn:E; [|discriminate]. exists [], []. by rewrite E.
  - destruct (k (x :: s)) eqn:E.
    + exists [], (x :: s). by rewrite E.
    + destruct (accepts c x) eqn:Hx; [|discriminate].
      destruct (IH H) as (u & t & -> & Hu & Hk).
      exists (x :: u), t. simpl. rewrite Hx. done.
Qed.

Lemma lazy_complete u t r :
  forallb (accepts c) u = true -> k t = Some r ->
  exists r', lazy c k (u ++ t) = Some r'.
Proof.
  induction u as [|x u IH]; simpl; intros Hu Hk.
  - destruct t; simpl; rewrite Hk; eauto.
  - apply andb_true_iff in Hu as [-> Hu].
    destruct (k (x :: u ++ t)); eauto.
Qed.
End Repeat.

(** Every match of [run] consumes a text of the language, and every text of
    the language followed by an accepted rest is matched (perhaps another
    way: the matcher returns its first choice). *)
Lemma run_sound {R} (p : list item) (k : str -> option R) s r :
  run p k s = Some r ->
  exists w t, s = w ++ t /\ Lang p w /\ k t = Some r.
Proof.
  revert k s r; induction p as [|[c q] p IH]; intros k s r H; simpl in *.
  - exists [], s. done.
  - destruct q.
    + destruct s as [|x s]; [discriminate|].
      destruct (accepts c x) eqn:Hx; [|discriminate].
      destruct (IH _ _ _ H) as (w & t & -> & Hw & Hk).
      exists (x :: w), t. split; [done|]. split; [|done]. exists x, w. done.
    + destruct (greedy_sound _ _ _ _ H) as (u & t0 & -> & Hu & H').
      destruct (IH _ _ _ H') as (w & t & -> & Hw & Hk).
      exists (u ++ w), t. rewrite <- app_assoc. split; [done|]. split; [|done].
      exists u, w. done.
    + destruct (lazy_sound _ _ _ _ H) as (u & t0 & -> & Hu & H').
      destruct (IH _ _ _ H') as (w & t & -> & Hw & Hk).
      exists (u ++ w), t. rewrite <- app_assoc. split; [done|]. split; [|done].
      exists u, w. done.
    + destruct s as [|x s]; [discriminate|].
      destruct (accepts c x) eqn:Hx; [|discriminate].
      destruct (greedy_sound _ _ _ _ H) as (u & t0 & -> & Hu & H').
      destruct (IH _ _ _ H') as (w & t & -> & Hw & Hk).
      exists (x :: u ++ w), t. simpl. rewrite <- app_assoc. split; [done|].
      split; [|done]. exists x, u, w. done.
Qed.

Lemma run_complete {R} (p : list item) (k : str -> option R) w t r :
  Lang p w -> k t = Some r -> exists r', run p k (w ++ t) = Some r'.
Proof.
  revert k w t r; induction p as [|[c q] p IH]; intros k w t r Hw Hk; simpl in *.
  - subst w. eauto.
  - destruct q.
    + destruct Hw as (x & w' & -> & Hx & Hw). simpl. rewrite Hx. eauto.
    + destruct Hw as (u & w' & -> & Hu & Hw). rewrite <- app_assoc.
      destruct (IH _ _ _ _ Hw Hk) as [r' Hr'].
      eapply greedy_complete; eauto.
    + destruct Hw as (u & w' & -> & Hu & Hw). rewrite <- app_assoc.
      destruct (IH _ _ _ _ Hw Hk) as [r' Hr'].
      eapply lazy_complete; eauto.
    + destruct Hw as (x & u & w' & -> & Hx & Hu & Hw). simpl. rewrite Hx.
      rewrite <- app_assoc.
      destruct (IH _ _ _ _ Hw Hk) as [r' Hr'].
      eapply greedy_complete; eauto.
Qed.

Lemma Lang_app p q w :
  Lang (p ++ q) w <-> exists u v, w = u ++ v /\ Lang p u /\ Lang q v.
Proof.
  revert w; induction p as [|[c [| | |]] p IH]; intros w; simpl.
  - split.
    + intros H. exists [], w. done.
    + intros (u & v & -> & -> & H). done.
  - split.
    + intros (x & t & -> & Hx & H). apply IH in H as (u & v & -> & Hu & Hv).
      exists (x :: u), v. split; [done|]. split; [|done]. exists x, u. done.
    + intros (u & v & -> & (x & t & -> & Hx & Ht) & Hv).
      exists x, (t ++ v). split; [done|]. split; [done|]. apply IH. eauto.
  - split.
    + intros (a & t & -> & Ha & H). apply IH in H as (u & v & -> & Hu & Hv).
      exists (a ++ u), v. rewrite app_assoc. split; [done|]. split; [|done].
      exists a, u. done.
    + intros (u & v & -> & (a & t & -> & Ha & Ht) & Hv).
      exists a, (t ++ v). rewrite app_assoc. split; [done|]. split; [done|].
      apply IH. eauto.
  - split.
    + intros (a & t & -> & Ha & H). apply IH in H as (u & v & -> & Hu & Hv).
      exists (a ++ u), v. rewrite app_assoc. split; [done|]. split; [|done].
      exists a, u. done.
    + intros (u & v & -> & (a & t & -> & Ha & Ht) & Hv).
      exists a, (t ++ v). rewrite app_assoc. split; [done|]. split; [done|].
      apply IH. eauto.
  - split.
    + intros (x & a & t & -> & Hx & Ha & H).
      apply IH in H as (u & v & -> & Hu & Hv).
      exists (x :: a ++ u), v. simpl. rewrite app_assoc. split; [done|].
      split; [|done]. exists x, a, u. done.
    + intros (u & v & -> & (x & a & t & -> & Hx & Ha & Ht) & Hv).
      exists x, a, (t ++ v). simpl. rewrite app_assoc. split; [done|].
      split; [done|]. split; [done|]. apply IH. eauto.
Qed.

Lemma Lang_lit l w : Lang (lit l) w <-> w = l.
Proof.
  revert w; induction l as [|a l IH]; intros w; simpl; [done|]. split.
  - intros (x & t & -> & Hx & Ht). apply N.eqb_eq in Hx as ->.
    apply IH in Ht as ->. done.
  - intros ->. exists a, l. rewrite N.eqb_refl. split; [done|]. split; [done|].
    by apply IH.
Qed.

(** [match_at] against the three parts of a pattern. *)
Lemma match_at_sound p s g :
  match_at p s = Some g ->
  exists w1 w3 t, s = w1 ++ g ++ w3 ++ t /\
    Lang (before p) w1 /\ Lang (inside p) g /\ Lang (after p) w3.
Proof.
  unfold match_at. intros H.
  apply run_sound in H as (w1 & s1 & -> & H1 & H).
  apply run_sound in H as (w2 & s2 & -> & H2 & H).
  apply run_sound in H as (w3 & t & -> & H3 & H).
  injection H as <-. exists w1, w3, t.
  rewrite length_app, Nat.add_sub, take_app_length. done.
Qed.

Lemma match_at_complete p w1 g w3 t :
  Lang (before p) w1 -> Lang (inside p) g -> Lang (after p) w3 ->
  exists g', match_at p (w1 ++ g ++ w3 ++ t) = Some g'.
Proof.
  intros H1 H2 H3. unfold match_at.
  set (s1 := g ++ w3 ++ t).
  destruct (run_complete (after p)
              (fun _ => Some (take (length s1 - length (w3 ++ t)) s1))
              w3 t _ H3 eq_refl) as [r3 Hr3].
  destruct (run_complete (inside p)
              (fun s2 => run (after p)
                           (fun _ => Some (take (length s1 - length s2) s1)) s2)
              g (w3 ++ t) _ H2 Hr3) as [r2 Hr2].
  eapply run_complete; [exact H1|exact Hr2].
Qed.

(** [search] returns the match at the first position that has one. *)
Lemma search_skip p a s :
  (forall a1 a2, a = a1 ++ a2 -> a2 <> [] -> match_at p (a2 ++ s) = None) ->
  search p (a ++ s) = search p s.
Proof.
  induction a as [|c a IH]; intros H; [done|]. simpl.
  assert (match_at p (c :: a ++ s) = None) as -> by (apply (H [] (c :: a)); done).
  apply IH. intros a1 a2 -> Ha2. apply (H (c :: a1) a2); done.
Qed.

Lemma search_here p s g : match_at p s = Some g -> search p s = Some g.
Proof. intros H. destruct s; simpl; by rewrite H. Qed.

Lemma search_sound p s g :
  search p s = Some g -> exists a s', s = a ++ s' /\ match_at p s' = Some g.
Proof.
  induction s as [|c s IH]; simpl.
  - destruct (match_at p []) eqn:E; [|discriminate].
    intros [= ->]. exists [], []. done.
  - destruct (match_at p (c :: s)) eqn:E.
    + intros [= ->]. exists [], (c :: s). done.
    + intros H. destruct (IH H) as (a & s' & -> & Hm). exists (c :: a), s'. done.
Qed.

End ReFacts.

(** ** Characters of the two tables *)

Section Tables.

Lemma ranges_apart_spec rs1 rs2 c :
  ranges_apart rs1 rs2 = true -> in_ranges rs1 c = true -> in_ranges rs2 c = false.
Proof.
  unfold ranges_apart, in_ranges. intros Hap H1.
  apply not_true_is_false. intros H2.
  apply existsb_exists in H1 as (r1 & Hin1 & H1).
  apply existsb_exists in H2 as (r2 & Hin2 & H2).
  rewrite forallb_forall in Hap. specialize (Hap r1 Hin1).
  rewrite forallb_forall in Hap. specialize (Hap r2 Hin2).
  apply andb_true_iff in H1 as [H1a H1b]. apply andb_true_iff in H2 as [H2a H2b].
  apply orb_true_iff in Hap.
  rewrite !N.ltb_lt in Hap. rewrite N.leb_le in H1a, H1b, H2a, H2b. lia.
Qed.

(** No character is both a space and a decimal digit. *)
Lemma space_not_decimal c : isspace c = true -> isdecimal c = false.
Proof. apply ranges_apart_spec. vm_compute. reflexivity. Qed.

Lemma decimal_not_space c : isdecimal c = true -> isspace c = false.
Proof.
  intros H. destruct (isspace c) eqn:E; [|done].
  apply space_not_decimal in E. congruence.
Qed.

Lemma space_not_colon c : isspace c = true -> (COLON =? c)%N = false.
Proof.
  intros H. apply N.eqb_neq. intros <-. vm_compute in H. discriminate.
Qed.

End Tables.

(** ** The four patterns *)

Module Patterns.
Import ReFacts.

(** Bring concatenations into the form [a ++ (b ++ (c :: ...))]. *)
Ltac list_norm := repeat (progress (rewrite <- ?app_assoc; cbn [app])).
Ltac list_norm_in H := repeat (progress (rewrite <- ?app_assoc in H; cbn [app] in H)).

Lemma pat_comm_eq : pat_comm = between_pattern LABEL_COMM LABEL_AXES.
Proof. reflexivity. Qed.

Lemma pat_axes_eq : pat_axes = between_pattern LABEL_AXES LABEL_PF.
Proof. reflexivity. Qed.

Lemma pat_pf_eq : pat_pf = between_pattern LABEL_PF LABEL_NOTE.
Proof. reflexivity. Qed.

Lemma pat_note_eq : pat_note = number_pattern LABEL_NOTE.
Proof. reflexivity. Qed.

Lemma Lang_label_colon L w :
  Lang (label_colon L) w <->
  exists u v, w = L ++ u ++ COLON :: v /\
              forallb isspace u = true /\ forallb isspace v = true.
Proof.
  unfold label_colon. rewrite Lang_app. split.
  - intros (l & r & -> & Hl & Hr). apply Lang_lit in Hl as ->.
    cbn [Lang accepts] in Hr.
    destruct Hr as (u & t & -> & Hu & x & t' & -> & Hx & v & e & -> & Hv & ->).
    apply N.eqb_eq in Hx as <-. exists u, v. rewrite app_nil_r. done.
  - intros (u & v & -> & Hu & Hv). exists L, (u ++ COLON :: v).
    split; [done|]. split; [by apply Lang_lit|]. cbn [Lang accepts].
    exists u, (COLON :: v). split; [done|]. split; [done|].
    exists COLON, v. split; [done|]. split; [apply N.eqb_refl|].
    exists v, []. rewrite app_nil_r. done.
Qed.

Lemma Lang_dotall g : Lang [Rep CDotAll LazyStar] g.
Proof.
  simpl. exists g, []. rewrite app_nil_r. split; [done|]. split; [|done].
  induction g; simpl; done.
Qed.

Lemma Lang_newline_label L w :
  Lang ([Rep (CChar NL) Once; Rep CSpace Star] ++ lit L) w <->
  exists u, w = NL :: u ++ L /\ forallb isspace u = true.
Proof.
  cbn [Lang app accepts]. split.
  - intros (x & t & -> & Hx & u & l & -> & Hu & Hl).
    apply N.eqb_eq in Hx as <-. apply Lang_lit in Hl as ->. eauto.
  - intros (u & -> & Hu). exists NL, (u ++ L). split; [done|].
    split; [apply N.eqb_refl|]. exists u, L. split; [done|]. split; [done|].
    by apply Lang_lit.
Qed.

Lemma Lang_digits g :
  Lang [Rep CDigit Plus] g <-> g <> [] /\ forallb isdecimal g = true.
Proof.
  cbn [Lang accepts]. split.
  - intros (x & u & e & -> & Hx & Hu & ->). rewrite app_nil_r.
    split; [done|]. cbn [forallb]. apply andb_true_iff. split; [exact Hx|exact Hu].
  - intros [Hne Hd]. destruct g as [|x g]; [done|]. simpl in Hd.
    apply andb_true_iff in Hd as [Hx Hg]. exists x, g, [].
    rewrite app_nil_r. done.
Qed.

(** Every match of one of the patterns starts with the pattern's label. *)
Lemma match_at_label L ins aft s g :
  match_at (Regex (label_colon L) ins aft) s = Some g -> startswith L s = true.
Proof.
  intros H. apply match_at_sound in H as (w1 & w3 & t & -> & H1 & _).
  simpl in H1. apply Lang_label_colon in H1 as (u & v & -> & _).
  list_norm. apply startswith_app.
Qed.

Lemma run_lit {R} l p (k : str -> option R) s :
  run (lit l ++ p) k (l ++ s) = run p k s.
Proof.
  induction l as [|a l IH]; simpl; [done|]. by rewrite N.eqb_refl.
Qed.

(** After the label the head of the pattern has one way to match: all the
    spaces, the colon, all the spaces. *)
Lemma run_label_colon {R} L p (k : str -> option R) w1 w2 t :
  forallb isspace w1 = true -> forallb isspace w2 = true ->
  match t with [] => True | x :: _ => isspace x = false end ->
  (forall x t', isspace x = true -> run p k (x :: t') = None) ->
  run (label_colon L ++ p) k (L ++ w1 ++ COLON :: w2 ++ t) = run p k t.
Proof.
  intros H1 H2 Ht Hk. unfold label_colon. rewrite <- app_assoc, run_lit.
  cbn [app run].
  rewrite (greedy_skip CSpace _ w1 (COLON :: w2 ++ t)); [|done| |done].
  - cbn [accepts]. rewrite N.eqb_refl. apply greedy_skip; done.
  - intros x t' Hx. cbn [accepts]. simpl in Hx. by rewrite space_not_colon.
Qed.

Section Between.
Variables L1 L2 : str.

(** A text of the shape the pattern describes is matched by it. *)
Lemma between_match_exists w1 body w2 rest :
  forallb isspace w1 = true -> forallb isspace w2 = true ->
  exists g, match_at (between_pattern L1 L2)
              (L1 ++ w1 ++ COLON :: body ++ NL :: w2 ++ L2 ++ rest) = Some g.
Proof.
  intros H1 H2.
  destruct (match_at_complete (between_pattern L1 L2)
              (L1 ++ w1 ++ [COLON]) body (NL :: w2 ++ L2) rest) as [g Hg].
  - apply Lang_label_colon. exists w1, []. done.
  - apply Lang_dotall.
  - apply Lang_newline_label. eauto.
  - exists g. rewrite <- Hg. f_equal.
    by list_norm.
Qed.

(** What a match captures, when the closing label occurs once. *)
Lemma between_match_capture a w1 between rest g :
  forallb isspace w1 = true ->
  occurrences L2 (a ++ L1 ++ w1 ++ COLON :: between ++ L2 ++ rest) = 1 ->
  match_at (between_pattern L1 L2)
    (L1 ++ w1 ++ COLON :: between ++ L2 ++ rest) = Some g ->
  strip g = strip between.
Proof.
  intros H1 Hocc Hm.
  apply match_at_sound in Hm as (m1 & m3 & t & Heq & Hm1 & _ & Hm3).
  simpl in Hm1, Hm3.
  apply Lang_label_colon in Hm1 as (u & v & -> & Hu & Hv).
  apply Lang_newline_label in Hm3 as (u' & -> & Hu').
  list_norm_in Heq. apply app_inv_head in Heq.
  apply spaces_then_eq in Heq as (-> & _ & Heq); [|done..].
  assert (a ++ L1 ++ u ++ COLON :: between ++ L2 ++ rest
          = (a ++ L1 ++ u ++ COLON :: between) ++ L2 ++ rest) as E1.
  { by list_norm. }
  assert (a ++ L1 ++ u ++ COLON :: between ++ L2 ++ rest
          = (a ++ L1 ++ u ++ COLON :: v ++ g ++ NL :: u') ++ L2 ++ t) as E2.
  { rewrite Heq. by list_norm. }
  rewrite E1 in Hocc. rewrite E1 in E2.
  destruct (occurrences_unique _ _ _ _ _ Hocc E2) as [E _].
  do 3 apply app_inv_head in E. injection E as ->.
  symmetry. apply strip_spaces; [done|]. simpl. by rewrite Hu'.
Qed.

(** [re.search] with the pattern, on a reply where the two labels occur
    once, the first followed by a colon and the second at the start of a
    line: the capture, trimmed, is the text between the colon and the
    second label, trimmed. *)
Lemma between_search a w1 body w2 rest :
  let between := body ++ NL :: w2 in
  let res := a ++ L1 ++ w1 ++ COLON :: between ++ L2 ++ rest in
  occurrences L1 res = 1 -> occurrences L2 res = 1 ->
  forallb isspace w1 = true -> forallb isspace w2 = true ->
  exists g, search (between_pattern L1 L2) res = Some g /\
            strip g = strip between.
Proof.
  intros between res Ho1 Ho2 H1 H2.
  destruct (between_match_exists w1 body w2 rest H1 H2) as [g Hg].
  assert (L1 ++ w1 ++ COLON :: body ++ NL :: w2 ++ L2 ++ rest
          = L1 ++ w1 ++ COLON :: between ++ L2 ++ rest) as E.
  { unfold between. by list_norm. }
  rewrite E in Hg. exists g. split.
  - unfold res. rewrite search_skip; [by apply search_here|].
    intros a1 a2 -> Hne.
    destruct (match_at _ (a2 ++ _)) as [g'|] eqn:Hm; [exfalso|done].
    apply match_at_label, startswith_spec in Hm as [t Ht].
    unfold res in Ho1.
    assert ((a1 ++ a2) ++ L1 ++ w1 ++ COLON :: between ++ L2 ++ rest
            = a1 ++ L1 ++ t) as E'.
    { rewrite <- app_assoc, Ht. done. }
    destruct (occurrences_unique _ _ _ _ _ Ho1 E') as [Ea _].
    apply (f_equal length) in Ea. rewrite length_app in Ea.
    destruct a2; [done|]. simpl in Ea. lia.
  - exact (between_match_capture a w1 between rest g H1 Ho2 Hg).
Qed.

(** Without a match at any position, [re.search] returns [None]; e.g.
    when the closing label never follows a newline and spaces. *)
Lemma between_search_sound res g :
  search (between_pattern L1 L2) res = Some g ->
  exists a u v w t, res = a ++ L1 ++ u ++ COLON :: v ++ g ++ NL :: w ++ L2 ++ t /\
    forallb isspace u = true /\ forallb isspace v = true /\
    forallb isspace w = true.
Proof.
  intros H. apply search_sound in H as (a & s' & -> & Hm).
  apply match_at_sound in Hm as (m1 & m3 & t & -> & Hm1 & _ & Hm3).
  simpl in Hm1, Hm3.
  apply Lang_label_colon in Hm1 as (u & v & -> & Hu & Hv).
  apply Lang_newline_label in Hm3 as (w & -> & Hw).
  exists a, u, v, w, t. split; [|done]. by list_norm.
Qed.
(** Without a newline in the reply the pattern cannot match. *)
Lemma between_search_needs_newline res :
  ~ In NL res -> search (between_pattern L1 L2) res = None.
Proof.
  intros Hn. destruct (search _ res) as [g|] eqn:E; [exfalso|done].
  apply between_search_sound in E as (a & u & v & w & t & -> & _).
  apply Hn. do 3 (apply in_or_app; right). right.
  do 2 (apply in_or_app; right). left. reflexivity.
Qed.
End Between.

Section Number.
Variable L : str.

(** At a place where the label is followed by spaces, a colon, spaces and
    digits, the pattern captures the whole run of digits. *)
Lemma number_match_at w1 w2 ds rest :
  forallb isspace w1 = true -> forallb isspace w2 = true ->
  ds <> [] -> forallb isdecimal ds = true ->
  match rest with [] => True | x :: _ => isdecimal x = false end ->
  match_at (number_pattern L) (L ++ w1 ++ COLON :: w2 ++ ds ++ rest) = Some ds.
Proof.
  intros H1 H2 Hne Hd Hrest. unfold match_at. cbn [before inside after number_pattern].
  rewrite <- (app_nil_r (label_colon L)).
  destruct ds as [|d ds]; [done|]. simpl in Hd.
  apply andb_true_iff in Hd as [Hd Hds].
  rewrite run_label_colon; [|done|done| |].
  - cbn [run app accepts]. rewrite Hd.
    rewrite greedy_longest; [|done|done|done].
    cbn [run]. f_equal.
    change (d :: ds ++ rest) with ((d :: ds) ++ rest).
    rewrite length_app, Nat.add_sub, take_app_length. done.
  - simpl. by apply decimal_not_space.
  - intros x t' Hx. cbn [run app accepts]. by rewrite space_not_decimal.
Qed.

Lemma number_search a w1 w2 ds rest :
  let res := a ++ L ++ w1 ++ COLON :: w2 ++ ds ++ rest in
  find L res = Some (length a) ->
  forallb isspace w1 = true -> forallb isspace w2 = true ->
  ds <> [] -> forallb isdecimal ds = true ->
  match rest with [] => True | x :: _ => isdecimal x = false end ->
  search (number_pattern L) res = Some ds.
Proof.
  intros res Hfind H1 H2 Hne Hd Hrest. unfold res.
  rewrite search_skip; [by apply search_here, number_match_at|].
  intros a1 a2 Ha Hne2.
  destruct (match_at _ (a2 ++ _)) as [g'|] eqn:Hm; [exfalso|done].
  apply match_at_label in Hm.
  rewrite (find_first _ _ _ Hfind a1 a2 Ha Hne2) in Hm. done.
Qed.

Lemma number_search_sound res g :
  search (number_pattern L) res = Some g ->
  g <> [] /\ forallb isdecimal g = true /\
  exists a u v t, res = a ++ L ++ u ++ COLON :: v ++ g ++ t /\
    forallb isspace u = true /\ forallb isspace v = true.
Proof.
  intros H. apply search_sound in H as (a & s' & -> & Hm).
  apply match_at_sound in Hm as (m1 & m3 & t & -> & Hm1 & Hg & Hm3).
  simpl in Hm1, Hg, Hm3. subst m3.
  apply Lang_label_colon in Hm1 as (u & v & -> & Hu & Hv).
  pose proof (proj1 (Lang_digits g)) as Hdig. simpl in Hdig.
  destruct (Hdig Hg) as [Hne Hd]. split; [done|]. split; [done|].
  exists a, u, v, t. split; [|done]. by list_norm.
Qed.
End Number.

End Patterns.

(** ** Text written into the document *)

Section WrittenText.

Lemma xml_char_spec c :
  xml_char c = true <-> is_surrogate c = false /\ is_valid_xml c = true.
Proof.
  unfold xml_char, is_surrogate, is_valid_xml, xmlIsChar_ch.
  destruct (N.ltb_spec c 128);
    repeat match goal with
           | |- context [(?a =? ?b)%N] => destruct (N.eqb_spec a b)
           | |- context [(?a <=? ?b)%N] => destruct (N.leb_spec a b)
           end; cbn; split; try tauto; try lia; intros [? ?]; try lia; try done.
Qed.

Lemma plain_xml_char c : plain c = true -> xml_char c = true.
Proof. unfold plain. by intros [? _]%andb_true_iff. Qed.

Lemma forallb_plain_xml s : forallb plain s = true -> forallb xml_char s = true.
Proof.
  rewrite !forallb_forall. intros H c Hc. by apply plain_xml_char, H.
Qed.

Lemma encode_error_none s pos :
  forallb xml_char s = true -> encode_error s pos = None.
Proof.
  revert pos. induction s as [|c s IH]; intros pos; simpl; [done|].
  intros [Hc Hs]%andb_true_iff. apply xml_char_spec in Hc as [-> _]. by apply IH.
Qed.

Lemma encode_error_refused s pos ex : encode_error s pos = Some ex -> refused ex.
Proof.
  revert pos. induction s as [|c s IH]; intros pos; simpl; [done|].
  destruct (is_surrogate c); [|by apply IH].
  intros [= <-]. by right.
Qed.

Lemma lxml_utf8_ok s : forallb xml_char s = true -> lxml_utf8 s = Ok tt.
Proof.
  intros H. unfold lxml_utf8. rewrite encode_error_none by done.
  assert (forallb is_valid_xml s = true) as ->; [|done].
  rewrite forallb_forall in *. intros c Hc. by apply xml_char_spec, H.
Qed.

Lemma forallb_false {A} (f : A -> bool) l :
  forallb f l = false -> exists x, In x l /\ f x = false.
Proof.
  induction l as [|x l IH]; simpl; [done|].
  destruct (f x) eqn:E; simpl.
  - intros (y & ? & ?)%IH. eauto.
  - eauto.
Qed.

Lemma encode_error_surrogate s pos c :
  In c s -> is_surrogate c = true -> exists ex, encode_error s pos = Some ex.
Proof.
  revert pos. induction s as [|x s IH]; intros pos; simpl; [done|].
  intros [->|Hin] Hc.
  - rewrite Hc. eauto.
  - destruct (is_surrogate x); eauto.
Qed.

Lemma lxml_utf8_raise s :
  forallb xml_char s = false -> exists ex, lxml_utf8 s = Raise ex /\ refused ex.
Proof.
  intros (c & Hin & Hc)%forallb_false. unfold lxml_utf8.
  destruct (encode_error s 0) as [ex|] eqn:E.
  - exists ex. split; [done|]. by apply encode_error_refused in E.
  - assert (forallb is_valid_xml s = false) as ->.
    { destruct (forallb is_valid_xml s) eqn:Hv; [exfalso|done].
      rewrite forallb_forall in Hv.
      destruct (is_surrogate c) eqn:Hs.
      - destruct (encode_error_surrogate s 0 c Hin Hs) as [ex Hex]. congruence.
      - assert (xml_char c = true) by (apply xml_char_spec; auto). congruence. }
    eexists. split; [done|]. by left.
Qed.

(** Without surrogates the refusal is lxml's [ValueError]. *)
Lemma encode_error_no_surrogate s pos : no_surrogate s = true -> encode_error s pos = None.
Proof.
  revert pos. induction s as [|c s IH]; intros pos; simpl; [done|].
  intros [Hc Hs]%andb_true_iff. unfold is_surrogate.
  apply negb_true_iff in Hc. rewrite Hc. by apply IH.
Qed.

Lemma lxml_utf8_value_error s :
  forallb xml_char s = false -> no_surrogate s = true ->
  lxml_utf8 s = Raise XML_ERROR.
Proof.
  intros Hbad Hs. unfold lxml_utf8. rewrite encode_error_no_surrogate by done.
  destruct (forallb is_valid_xml s) eqn:Hv; [exfalso|done].
  apply forallb_false in Hbad as (c & Hin & Hc).
  rewrite forallb_forall in Hv. unfold no_surrogate in Hs. rewrite forallb_forall in Hs.
  assert (xml_char c = true); [|congruence].
  apply xml_char_spec. split; [|by apply Hv].
  apply negb_true_iff. by apply (Hs c).
Qed.

Lemma flush_ok written bfr :
  forallb xml_char bfr = true -> flush written bfr = Ok (written ++ bfr).
Proof.
  intros H. unfold flush. destruct bfr as [|c bfr]; [by rewrite app_nil_r|].
  by rewrite lxml_utf8_ok.
Qed.

Lemma flush_cases written bfr :
  flush written bfr = Ok (written ++ bfr) \/
  exists ex, flush written bfr = Raise ex /\ refused ex.
Proof.
  destruct (forallb xml_char bfr) eqn:E; [left; by apply flush_ok|right].
  unfold flush. destruct bfr as [|c bfr]; [done|].
  destruct (lxml_utf8_raise _ E) as (ex & -> & Hex). eauto.
Qed.

Lemma flush_raise written bfr :
  forallb xml_char bfr = false -> exists ex, flush written bfr = Raise ex /\ refused ex.
Proof.
  intros E. unfold flush. destruct bfr as [|c bfr]; [done|].
  destruct (lxml_utf8_raise _ E) as (ex & -> & Hex). eauto.
Qed.

Lemma add_text_ok text written bfr :
  forallb plain bfr = true -> xml_compatible text = true ->
  add_text text written bfr = Ok (written ++ bfr ++ line_feeds text).
Proof.
  revert written bfr. induction text as [|c text IH]; intros written bfr Hb Ht.
  - simpl. rewrite app_nil_r. by apply flush_ok, forallb_plain_xml.
  - simpl in Ht. apply andb_true_iff in Ht as [Hc Ht]. cbn [add_text line_feeds map].
    unfold TAB, CR, NL.
    destruct (N.eqb_spec c 9) as [->|H9].
    { rewrite flush_ok by (by apply forallb_plain_xml).
      rewrite IH by done. cbn. by rewrite <- !app_assoc. }
    destruct (N.eqb_spec c 13) as [->|H13].
    { cbn [orb]. rewrite flush_ok by (by apply forallb_plain_xml).
      rewrite IH by done. cbn. by rewrite <- !app_assoc. }
    destruct (N.eqb_spec c 10) as [->|H10].
    { cbn [orb]. rewrite flush_ok by (by apply forallb_plain_xml).
      rewrite IH by done. cbn. by rewrite <- !app_assoc. }
    cbn [orb]. rewrite IH; [by rewrite <- !app_assoc|..|done].
    rewrite forallb_app, Hb. cbn. unfold plain. rewrite Hc.
    destruct (N.eqb_spec c 9), (N.eqb_spec c 10), (N.eqb_spec c 13); done.
Qed.

Lemma add_text_raise_bfr text written bfr :
  forallb xml_char bfr = false ->
  exists ex, add_text text written bfr = Raise ex /\ refused ex.
Proof.
  revert written bfr. induction text as [|c text IH]; intros written bfr Hb; simpl.
  - by apply flush_raise.
  - destruct (flush_raise written bfr Hb) as (ex & Hf & Hex).
    destruct (c =? TAB)%N; [rewrite Hf; eauto|].
    destruct ((c =? CR)%N || (c =? NL)%N); [rewrite Hf; eauto|].
    apply IH. by rewrite forallb_app, Hb.
Qed.

Lemma add_text_raise text written bfr :
  xml_compatible text = false ->
  exists ex, add_text text written bfr = Raise ex /\ refused ex.
Proof.
  revert written bfr. induction text as [|c text IH]; intros written bfr Ht; [done|].
  cbn [add_text]. unfold TAB, CR, NL.
  simpl in Ht.
  destruct (N.eqb_spec c 9) as [->|H9].
  { destruct (flush_cases written bfr) as [->|(ex & -> & ?)]; [by apply IH|eauto]. }
  destruct (N.eqb_spec c 13) as [->|H13].
  { cbn [orb]. destruct (flush_cases written bfr) as [->|(ex & -> & ?)]; [by apply IH|eauto]. }
  destruct (N.eqb_spec c 10) as [->|H10].
  { cbn [orb]. destruct (flush_cases written bfr) as [->|(ex & -> & ?)]; [by apply IH|eauto]. }
  cbn [orb]. destruct (xml_char c) eqn:Hc.
  - by apply IH.
  - apply add_text_raise_bfr. rewrite forallb_app. cbn. rewrite Hc.
    by rewrite andb_false_r.
Qed.

Lemma no_surrogate_app a b : no_surrogate (a ++ b) = no_surrogate a && no_surrogate b.
Proof. apply forallb_app. Qed.

Lemma xml_no_surrogate s : forallb xml_char s = true -> no_surrogate s = true.
Proof.
  unfold no_surrogate. rewrite !forallb_forall. intros H c Hc.
  apply H, xml_char_spec in Hc as [Hc _]. apply negb_true_iff. exact Hc.
Qed.

Lemma add_text_value_error_bfr text written bfr :
  forallb xml_char bfr = false -> no_surrogate bfr = true -> no_surrogate text = true ->
  add_text text written bfr = Raise XML_ERROR.
Proof.
  revert written bfr. induction text as [|c text IH]; intros written bfr Hb Hs Ht.
  - simpl. unfold flush. destruct bfr; [done|]. by rewrite lxml_utf8_value_error.
  - assert (flush written bfr = Raise XML_ERROR) as Hf.
    { unfold flush. destruct bfr; [done|]. by rewrite lxml_utf8_value_error. }
    cbn [add_text]. rewrite Hf.
    destruct (c =? TAB)%N; [done|].
    destruct ((c =? CR)%N || (c =? NL)%N); [done|].
    cbn [no_surrogate forallb] in Ht. apply andb_true_iff in Ht as [Hc Ht].
    apply IH; [by rewrite forallb_app, Hb| |done].
    rewrite no_surrogate_app, Hs. cbn. by rewrite Hc.
Qed.

Lemma add_text_value_error text written bfr :
  forallb plain bfr = true -> xml_compatible text = false -> no_surrogate text = true ->
  add_text text written bfr = Raise XML_ERROR.
Proof.
  revert written bfr. induction text as [|c text IH]; intros written bfr Hb Ht Hs; [done|].
  cbn [no_surrogate forallb] in Hs. apply andb_true_iff in Hs as [Hc Hs].
  cbn [add_text]. unfold TAB, CR, NL. simpl in Ht.
  assert (flush written bfr = Ok (written ++ bfr)) as Hf
    by (by apply flush_ok, forallb_plain_xml).
  destruct (N.eqb_spec c 9) as [->|H9]; [rewrite Hf; by apply IH|].
  destruct (N.eqb_spec c 13) as [->|H13]; [cbn [orb]; rewrite Hf; by apply IH|].
  destruct (N.eqb_spec c 10) as [->|H10]; [cbn [orb]; rewrite Hf; by apply IH|].
  cbn [orb]. destruct (xml_char c) eqn:Hx.
  - apply IH; [|done|done]. rewrite forallb_app, Hb. cbn. unfold plain. rewrite Hx.
    destruct (N.eqb_spec c 9), (N.eqb_spec c 10), (N.eqb_spec c 13); done.
  - apply add_text_value_error_bfr; [| |done].
    + rewrite forallb_app. cbn. rewrite Hx. by rewrite andb_false_r.
    + rewrite no_surrogate_app, (xml_no_surrogate bfr) by (by apply forallb_plain_xml).
      cbn. by rewrite Hc.
Qed.

(** A text with a character XML cannot hold, and no surrogate, is refused
    with lxml's [ValueError]. *)
Lemma run_text_value_error s :
  xml_compatible s = false -> no_surrogate s = true -> run_text s = Raise XML_ERROR.
Proof. intros. by apply add_text_value_error. Qed.

(** A text of XML characters is written, and reads back with its carriage
    returns as line feeds. *)
Lemma run_text_ok s : xml_compatible s = true -> run_text s = Ok (line_feeds s).
Proof. intros H. unfold run_text. by rewrite add_text_ok. Qed.

(** Any other text is refused. *)
Lemma run_text_raise s :
  xml_compatible s = false -> exists ex, run_text s = Raise ex /\ refused ex.
Proof. apply add_text_raise. Qed.

Lemma run_text_cases s :
  (xml_compatible s = true /\ run_text s = Ok (line_feeds s)) \/
  (xml_compatible s = false /\ exists ex, run_text s = Raise ex /\ refused ex).
Proof.
  destruct (xml_compatible s) eqn:E; [left|right]; (split; [done|]).
  - by apply run_text_ok.
  - by apply run_text_raise.
Qed.

Lemma line_feeds_app a b : line_feeds (a ++ b) = line_feeds a ++ line_feeds b.
Proof. apply map_app. Qed.

Lemma xml_compatible_app a b :
  xml_compatible (a ++ b) = xml_compatible a && xml_compatible b.
Proof. apply forallb_app. Qed.

Lemma line_feeds_without_CR s : ~ In CR s -> line_feeds s = s.
Proof.
  induction s as [|c s IH]; [done|]. intros Hc.
  unfold line_feeds in *. cbn [map].
  destruct (N.eqb_spec c 13) as [->|_]; [exfalso; apply Hc; by left|].
  rewrite IH; [done|]. intros ?. apply Hc. by right.
Qed.

Lemma printable_written s :
  forallb printable s = true -> xml_compatible s = true /\ line_feeds s = s.
Proof.
  induction s as [|c s IH]; [done|]. simpl.
  intros [Hc Hs]%andb_true_iff. destruct (IH Hs) as [Hx Hl].
  unfold printable in Hc. apply andb_true_iff in Hc as [H1%N.leb_le H2%N.leb_le].
  split.
  - rewrite Hx, andb_true_r. apply xml_char_spec.
    unfold is_surrogate, is_valid_xml, xmlIsChar_ch.
    destruct (N.ltb_spec c 128); [|lia].
    repeat match goal with
           | |- context [(?a =? ?b)%N] => destruct (N.eqb_spec a b)
           | |- context [(?a <=? ?b)%N] => destruct (N.leb_spec a b)
           end; cbn; split; try done; lia.
  - unfold line_feeds in *. cbn [map]. rewrite Hl.
    destruct (N.eqb_spec c 13); [lia|done].
Qed.

Lemma decimal_digits_printable fuel n acc :
  forallb printable acc = true -> forallb printable (decimal_digits fuel n acc) = true.
Proof.
  revert n acc. induction fuel as [|fuel IH]; intros n acc Hacc; [done|].
  cbn [decimal_digits].
  assert (forallb printable (N.of_nat (48 + n mod 10) :: acc) = true) as Hacc'.
  { cbn [forallb]. rewrite Hacc, andb_true_r. unfold printable.
    pose proof (Nat.mod_upper_bound n 10).
    apply andb_true_iff. split; apply N.leb_le; lia. }
  destruct (n / 10); [exact Hacc'|by apply IH].
Qed.

Lemma zfill_printable w s :
  forallb printable s = true -> forallb printable (zfill w s) = true.
Proof.
  intros H. unfold zfill. rewrite forallb_app. apply andb_true_iff. split; [|exact H].
  induction (w - length s) as [|k IH]; [done|]. simpl. by rewrite IH.
Qed.

Lemma isoformat_printable d : forallb printable (isoformat d) = true.
Proof.
  unfold isoformat, decimal. rewrite !forallb_app.
  rewrite !zfill_printable by (by apply decimal_digits_printable).
  vm_compute. reflexivity.
Qed.

End WrittenText.

(** * The claims *)

(** ** Analyse IA: the model call *)

Lemma analyser_ok e texte_ref texte_eleve matiere niveau style res :
  gemini e (prompt texte_ref texte_eleve matiere niveau style) = Ok res ->
  analyser_avec_gemini e texte_ref texte_eleve matiere niveau style
  = (Ok (extraction res),
     [model_generate_content (prompt texte_ref texte_eleve matiere niveau style)]).
Proof.
  intros H. unfold analyser_avec_gemini, try_except, bind, emit, lift, ret.
  rewrite H. reflexivity.
Qed.

Lemma analyser_raise e texte_ref texte_eleve matiere niveau style ex :
  gemini e (prompt texte_ref texte_eleve matiere niveau style) = Raise ex ->
  analyser_avec_gemini e texte_ref texte_eleve matiere niveau style
  = (Ok (py "Erreur IA : " ++ exn_str ex, [], [], py "00"),
     [model_generate_content (prompt texte_ref texte_eleve matiere niveau style)]).
Proof.
  intros H. unfold analyser_avec_gemini, try_except, bind, emit, lift, ret.
  rewrite H. reflexivity.
Qed.

(** C1. When the model call raises, [analyser_avec_gemini] does not raise:
    it returns the tuple whose comment is "Erreur IA : " followed by the
    message of the exception, whose improvement axes and strengths are
    empty, and whose score is "00". *)
Theorem analyser_avec_gemini_absorbs_errors
    e texte_ref texte_eleve matiere niveau style ex :
  gemini e (prompt texte_ref texte_eleve matiere niveau style) = Raise ex ->
  analyser_avec_gemini e texte_ref texte_eleve matiere niveau style
  = (Ok (py "Erreur IA : " ++ exn_str ex, [], [], py "00"),
     [model_generate_content (prompt texte_ref texte_eleve matiere niveau style)]).
Proof. apply analyser_raise. Qed.

Lemma analyser_avec_gemini_absorbs_errors_witness :
  analyser_avec_gemini env_model_down [] (py "2 + 2 = 5") (py "Maths")
    (py "Primaire") (py "Standard")
  = (Ok (py "Erreur IA : " ++ py "504 Deadline Exceeded", [], [], py "00"),
     [model_generate_content
        (prompt [] (py "2 + 2 = 5") (py "Maths") (py "Primaire") (py "Standard"))]).
Proof.
  apply (analyser_avec_gemini_absorbs_errors env_model_down [] (py "2 + 2 = 5")
           (py "Maths") (py "Primaire") (py "Standard")
           (Exception "DeadlineExceeded" (py "504 Deadline Exceeded"))).
  reflexivity.
Defined.

(** ** Tone *)

Lemma contains_str_in sub s : contains sub s <-> str_in sub s = true.
Proof. unfold contains. by rewrite str_in_spec. Qed.

(** C8. The tone mapping takes the first match, "Encourageante" before
    "Stricte": a style that contains "Encourageante" gives the supportive
    instruction whatever else it contains, a style that contains "Stricte"
    but not "Encourageante" gives the rigorous one, any other style the
    neutral one. *)
Theorem consigne_style_first_match (style : str) :
  (contains (py "Encourageante") style ->
   consigne_style style = py "Sois très bienveillant et valorise les efforts.") /\
  (contains (py "Stricte") style -> ~ contains (py "Encourageante") style ->
   consigne_style style = py "Sois rigoureux et exigeant.") /\
  (~ contains (py "Encourageante") style -> ~ contains (py "Stricte") style ->
   consigne_style style = py "Sois neutre et objectif.").
Proof.
  rewrite !contains_str_in. unfold consigne_style.
  destruct (str_in (py "Encourageante") style), (str_in (py "Stricte") style);
    (split; [|split]); intros; congruence.
Qed.

Lemma consigne_style_first_match_witness :
  consigne_style (py "Stricte mais Encourageante")
    = py "Sois très bienveillant et valorise les efforts." /\
  consigne_style (py "Stricte") = py "Sois rigoureux et exigeant." /\
  consigne_style (py "Standard") = py "Sois neutre et objectif.".
Proof.
  split; [|split].
  - apply (proj1 (consigne_style_first_match (py "Stricte mais Encourageante"))).
    exists (py "Stricte mais "), []. reflexivity.
  - apply (proj1 (proj2 (consigne_style_first_match (py "Stricte")))).
    + exists [], []. reflexivity.
    + intros H. apply contains_str_in in H. vm_compute in H. discriminate.
  - apply (proj2 (proj2 (consigne_style_first_match (py "Standard")))).
    + intros H. apply contains_str_in in H. vm_compute in H. discriminate.
    + intros H. apply contains_str_in in H. vm_compute in H. discriminate.
Defined.

(** ** The gate of the handler *)

(** C5. When the student's name is empty, or the subject is empty, or no
    submission was uploaded, the handler shows the validation message and
    does nothing else: the trace holds no extraction call, no model call,
    no document and no download button. *)
Theorem gate_blocks_pipeline e enseignant eleve matiere niveau style
    fichier_ref type_doc fichier_eleve :
  eleve = [] \/ matiere = [] \/ fichier_eleve = None ->
  lancer_la_correction e enseignant eleve matiere niveau style
    fichier_ref type_doc fichier_eleve
  = (Ok tt,
     [st_error (py "⚠️ Remplis tous les champs et ajoute la copie de l'élève.")]).
Proof.
  unfold lancer_la_correction.
  intros [-> | [-> | ->]].
  - reflexivity.
  - destruct eleve; reflexivity.
  - destruct eleve, matiere; reflexivity.
Qed.

Lemma gate_blocks_pipeline_witness :
  lancer_la_correction env_all_fine (py "M. Techno Djieh") [] (py "Maths")
    (py "Primaire") (py "Standard") None (py "PDF")
    (Some (File (py "copie.pdf") [37; 80; 68; 70]%N))
  = (Ok tt,
     [st_error (py "⚠️ Remplis tous les champs et ajoute la copie de l'élève.")]).
Proof.
  apply (gate_blocks_pipeline env_all_fine (py "M. Techno Djieh") [] (py "Maths")
           (py "Primaire") (py "Standard") None (py "PDF")
           (Some (File (py "copie.pdf") [37; 80; 68; 70]%N))).
  left. reflexivity.
Defined.

(** ** Lecture fichiers *)

Lemma lire_pages_result pages texte :
  exists r, lire_pages pages texte = (r, []) /\
    (forall ex, In (Raise ex) pages -> exists ex', r = Raise ex') /\
    (Forall (fun page => exists t, page = Ok t) pages -> exists s, r = Ok s).
Proof.
  revert texte; induction pages as [|page pages IH]; intros texte; simpl.
  - exists (Ok texte). split; [done|]. split; [intros ex []|eauto].
  - destruct page as [t|ex0].
    + destruct (IH (texte ++ t)) as (r & Hr & Hfail & Hok).
      exists r. unfold bind, lift. rewrite Hr. split; [done|]. split.
      * intros ex [H|H]; [discriminate|eauto].
      * intros H. apply Hok. by inversion H.
    + exists (Raise ex0). split; [done|]. split; [eauto|].
      intros H. inversion H as [|? ? [t Ht] _]. discriminate.
Qed.

(** C7. The three extractors return a string for every file, whatever the
    libraries do: when a library call raises they return the empty string
    (after showing the error), and a PDF without pages gives the empty
    string without any error. *)
Theorem extractors_never_raise e f :
  (exists s t, lire_docx e f = (Ok s, t)) /\
  (exists s t, lire_pdf e f = (Ok s, t)) /\
  (exists s t, lire_image e f = (Ok s, t)) /\
  (forall ex, python_docx e f = Raise ex ->
     lire_docx e f
     = (Ok [], [docx_Document f; st_error (py "Erreur DOCX : " ++ exn_str ex)])) /\
  (forall ex, pymupdf e (file_bytes f) = Raise ex ->
     lire_pdf e f
     = (Ok [], [fitz_open (file_bytes f);
                st_error (py "Erreur PDF : " ++ exn_str ex)])) /\
  (forall pages ex, pymupdf e (file_bytes f) = Ok pages -> In (Raise ex) pages ->
     exists ex', lire_pdf e f
     = (Ok [], [fitz_open (file_bytes f);
                st_error (py "Erreur PDF : " ++ exn_str ex')])) /\
  (forall ex, pil e f = Raise ex ->
     lire_image e f
     = (Ok [], [Image_open f; st_error (py "Erreur Image : " ++ exn_str ex)])) /\
  (forall img ex, pil e f = Ok img -> tesseract e img (py "fra") = Raise ex ->
     lire_image e f
     = (Ok [], [Image_open f; pytesseract_image_to_string img (py "fra");
                st_error (py "Erreur Image : " ++ exn_str ex)])) /\
  (pymupdf e (file_bytes f) = Ok [] ->
     lire_pdf e f = (Ok [], [fitz_open (file_bytes f)])).
Proof.
  repeat split.
  - unfold lire_docx, try_except, bind, emit, lift, ret.
    destruct (python_docx e f); eauto.
  - unfold lire_pdf, try_except, bind, emit, lift, ret.
    destruct (pymupdf e (file_bytes f)) as [pages|ex]; [|eauto].
    destruct (lire_pages_result pages []) as (r & -> & _).
    destruct r; eauto.
  - unfold lire_image, try_except, bind, emit, lift, ret.
    destruct (pil e f) as [img|ex]; [|eauto].
    destruct (tesseract e img (py "fra")); eauto.
  - intros ex H. unfold lire_docx, try_except, bind, emit, lift, ret.
    by rewrite H.
  - intros ex H. unfold lire_pdf, try_except, bind, emit, lift, ret.
    by rewrite H.
  - intros pages ex H Hin. unfold lire_pdf, try_except, bind, emit, lift, ret.
    rewrite H. destruct (lire_pages_result pages []) as (r & -> & Hfail & _).
    destruct (Hfail ex Hin) as [ex' ->]. eauto.
  - intros ex H. unfold lire_image, try_except, bind, emit, lift, ret.
    by rewrite H.
  - intros img ex H1 H2. unfold lire_image, try_except, bind, emit, lift, ret.
    by rewrite H1, H2.
  - intros H. unfold lire_pdf, try_except, bind, emit, lift, ret.
    by rewrite H.
Qed.

Lemma extractors_never_raise_witness :
  lire_docx env_broken_files (File (py "copie.docx") [])
    = (Ok [], [docx_Document (File (py "copie.docx") []);
               st_error (py "Erreur DOCX : " ++ py "Package not found")]) /\
  (exists ex', lire_pdf env_broken_files (File (py "copie.pdf") [])
    = (Ok [], [fitz_open []; st_error (py "Erreur PDF : " ++ exn_str ex')])) /\
  lire_image env_broken_files (File (py "copie.png") [])
    = (Ok [], [Image_open (File (py "copie.png") []);
               st_error (py "Erreur Image : " ++ py "cannot identify image file")]) /\
  lire_pdf env_empty_pdf (File (py "vide.pdf") []) = (Ok [], [fitz_open []]).
Proof.
  split; [|split; [|split]].
  - apply (proj1 (proj2 (proj2 (proj2
             (extractors_never_raise env_broken_files (File (py "copie.docx") [])))))
           (Exception "PackageNotFoundError" (py "Package not found"))).
    reflexivity.
  - apply (proj1 (proj2 (proj2 (proj2 (proj2 (proj2
             (extractors_never_raise env_broken_files (File (py "copie.pdf") [])))))))
           [Ok (py "page 1"); Raise (Exception "RuntimeError" (py "page damaged"))]
           (Exception "RuntimeError" (py "page damaged"))).
    + reflexivity.
    + right. left. reflexivity.
  - apply (proj1 (proj2 (proj2 (proj2 (proj2 (proj2 (proj2
             (extractors_never_raise env_broken_files (File (py "copie.png") []))))))))
           (Exception "UnidentifiedImageError" (py "cannot identify image file"))).
    reflexivity.
  - apply (proj2 (proj2 (proj2 (proj2 (proj2 (proj2 (proj2 (proj2
             (extractors_never_raise env_empty_pdf (File (py "vide.pdf") [])))))))))).
    reflexivity.
Defined.

(** ** Rapport Word *)

(** The writes of a proof are rewritten one by one, by the lemmas above. *)
Opaque run_text.

(** A literal text is written as it is. *)
Ltac write_literal x :=
  let H := fresh in
  assert (run_text x = Ok x) as H by (vm_compute; reflexivity);
  rewrite H; clear H.

Lemma date_line_written d :
  run_text ([NL] ++ py "Document généré le : " ++ isoformat d)
  = Ok ([NL] ++ py "Document généré le : " ++ isoformat d).
Proof.
  destruct (printable_written _ (isoformat_printable d)) as [Hx Hl].
  rewrite run_text_ok.
  - rewrite !line_feeds_app, Hl.
    assert (line_feeds (py "Document généré le : ") = py "Document généré le : ") as ->
      by (vm_compute; reflexivity).
    reflexivity.
  - rewrite !xml_compatible_app, Hx. vm_compute. reflexivity.
Qed.

(** [creer_fiche_word] on a dictionary with the seven keys: the six values
    are written in the order of the rows, and the first one refused ends
    the function. *)
Lemma creer_fiche_word_eval e (infos : gmap string str)
    enseignant eleve matiere niveau note commentaire axes :
  infos !! "enseignant" = Some enseignant ->
  infos !! "eleve" = Some eleve ->
  infos !! "matiere" = Some matiere ->
  infos !! "niveau" = Some niveau ->
  infos !! "note" = Some note ->
  infos !! "commentaire" = Some commentaire ->
  infos !! "axes" = Some axes ->
  creer_fiche_word e infos
  = match run_text enseignant with
    | Raise ex => (Raise ex, [docx_new_Document])
    | Ok v1 =>
    match run_text eleve with
    | Raise ex => (Raise ex, [docx_new_Document])
    | Ok v2 =>
    match run_text (matiere ++ py " (" ++ niveau ++ py ")") with
    | Raise ex => (Raise ex, [docx_new_Document])
    | Ok v3 =>
    match run_text note with
    | Raise ex => (Raise ex, [docx_new_Document])
    | Ok v4 =>
    match run_text commentaire with
    | Raise ex => (Raise ex, [docx_new_Document])
    | Ok v5 =>
    match run_text axes with
    | Raise ex => (Raise ex, [docx_new_Document])
    | Ok v6 =>
      let doc :=
        fiche (isoformat (date_today e))
          [ [py "Enseignant :"; v1];
            [py "Apprenant :"; v2];
            [py "Matière / Niveau :"; v3];
            [py "Note indicative :"; v4];
            [py "Commentaire pédagogique :"; v5];
            [py "Axes d'amélioration :"; v6] ] in
      (Ok doc, [docx_new_Document; docx_save doc])
    end end end end end end.
Proof.
  intros H1 H2 H3 H4 H5 H6 H7. unfold creer_fiche_word, getitem.
  unfold str in *. rewrite H1, H2, H3, H4, H5, H6, H7.
  unfold add_paragraph, add_heading, add_run. cbn [fill_rows]. unfold set_cell_text.
  rewrite date_line_written.
  write_literal (py "REPUBLIQUE DE COTE D'IVOIRE" ++ [NL] ++ py "Union - Discipline - Travail").
  write_literal (py "RAPPORT DE CORRECTION PEDAGOGIQUE IA").
  write_literal (py "Enseignant :").
  write_literal (py "Apprenant :").
  write_literal (py "Matière / Niveau :").
  write_literal (py "Note indicative :").
  write_literal (py "Commentaire pédagogique :").
  write_literal (py "Axes d'amélioration :").
  write_literal (py "------------------------------------------------------------").
  write_literal (@nil char).
  write_literal
    (py "Pour tout besoin en intelligence artificielle, contactez le Techno Djieh " ++
     py "au +225 0757283553 ou au mail : bitahdhiehd@gmail.com").
  lazy. destruct (run_text enseignant); [|lazy; reflexivity].
  lazy. destruct (run_text eleve); [|lazy; reflexivity].
  lazy.
  match goal with
  | |- context [run_text (?f matiere ?y)] =>
    destruct (run_text (f matiere y)); [|lazy; reflexivity]
  end.
  lazy. destruct (run_text note); [|lazy; reflexivity].
  lazy. destruct (run_text commentaire); [|lazy; reflexivity].
  lazy. destruct (run_text axes); lazy; reflexivity.
Qed.

Lemma join_written matiere niveau :
  xml_compatible (matiere ++ py " (" ++ niveau ++ py ")")
  = xml_compatible matiere && xml_compatible niveau /\
  line_feeds (matiere ++ py " (" ++ niveau ++ py ")")
  = line_feeds matiere ++ py " (" ++ line_feeds niveau ++ py ")".
Proof.
  rewrite !xml_compatible_app, !line_feeds_app.
  assert (xml_compatible (py " (") = true) as -> by (vm_compute; reflexivity).
  assert (xml_compatible (py ")") = true) as -> by (vm_compute; reflexivity).
  assert (line_feeds (py " (") = py " (") as -> by (vm_compute; reflexivity).
  assert (line_feeds (py ")") = py ")") as -> by (vm_compute; reflexivity).
  by rewrite andb_true_r.
Qed.

Lemma values_compatible_spec enseignant eleve matiere niveau note commentaire axes :
  values_compatible enseignant eleve matiere niveau note commentaire axes = true <->
  xml_compatible enseignant = true /\ xml_compatible eleve = true /\
  xml_compatible matiere = true /\ xml_compatible niveau = true /\
  xml_compatible note = true /\ xml_compatible commentaire = true /\
  xml_compatible axes = true.
Proof. unfold values_compatible. rewrite !andb_true_iff. tauto. Qed.

(** With values of XML characters the report is written and saved. *)
Lemma creer_fiche_word_ok e (infos : gmap string str)
    enseignant eleve matiere niveau note commentaire axes :
  infos !! "enseignant" = Some enseignant ->
  infos !! "eleve" = Some eleve ->
  infos !! "matiere" = Some matiere ->
  infos !! "niveau" = Some niveau ->
  infos !! "note" = Some note ->
  infos !! "commentaire" = Some commentaire ->
  infos !! "axes" = Some axes ->
  values_compatible enseignant eleve matiere niveau note commentaire axes = true ->
  creer_fiche_word e infos
  = (Ok (rapport (isoformat (date_today e)) (line_feeds enseignant) (line_feeds eleve)
           (line_feeds matiere) (line_feeds niveau) (line_feeds note)
           (line_feeds commentaire) (line_feeds axes)),
     [docx_new_Document;
      docx_save
        (rapport (isoformat (date_today e)) (line_feeds enseignant) (line_feeds eleve)
           (line_feeds matiere) (line_feeds niveau) (line_feeds note)
           (line_feeds commentaire) (line_feeds axes))]).
Proof.
  intros H1 H2 H3 H4 H5 H6 H7 (C1 & C2 & C3 & C4 & C5 & C6 & C7)%values_compatible_spec.
  rewrite (creer_fiche_word_eval e infos _ _ _ _ _ _ _ H1 H2 H3 H4 H5 H6 H7).
  destruct (join_written matiere niveau) as [Hx Hl].
  rewrite !run_text_ok; try done.
  - rewrite Hl. reflexivity.
  - by rewrite Hx, C3, C4.
Qed.

(** With any other value nothing is saved: the first text refused ends the
    function. *)
Lemma creer_fiche_word_refused e (infos : gmap string str)
    enseignant eleve matiere niveau note commentaire axes :
  infos !! "enseignant" = Some enseignant ->
  infos !! "eleve" = Some eleve ->
  infos !! "matiere" = Some matiere ->
  infos !! "niveau" = Some niveau ->
  infos !! "note" = Some note ->
  infos !! "commentaire" = Some commentaire ->
  infos !! "axes" = Some axes ->
  values_compatible enseignant eleve matiere niveau note commentaire axes = false ->
  exists ex, creer_fiche_word e infos = (Raise ex, [docx_new_Document]) /\ refused ex.
Proof.
  intros H1 H2 H3 H4 H5 H6 H7 Hbad.
  rewrite (creer_fiche_word_eval e infos _ _ _ _ _ _ _ H1 H2 H3 H4 H5 H6 H7).
  destruct (join_written matiere niveau) as [Hx _].
  destruct (run_text_cases enseignant) as [[C1 ->]|[_ (ex & -> & ?)]]; [|eauto].
  destruct (run_text_cases eleve) as [[C2 ->]|[_ (ex & -> & ?)]]; [|eauto].
  destruct (run_text_cases (matiere ++ py " (" ++ niveau ++ py ")"))
    as [[C3 ->]|[_ (ex & -> & ?)]]; [|eauto].
  destruct (run_text_cases note) as [[C5 ->]|[_ (ex & -> & ?)]]; [|eauto].
  destruct (run_text_cases commentaire) as [[C6 ->]|[_ (ex & -> & ?)]]; [|eauto].
  destruct (run_text_cases axes) as [[C7 ->]|[_ (ex & -> & ?)]]; [|eauto].
  exfalso. rewrite Hx in C3. apply andb_true_iff in C3 as [C3 C4].
  unfold values_compatible in Hbad. by rewrite C1, C2, C3, C4, C5, C6, C7 in Hbad.
Qed.

Lemma values_no_surrogate_spec enseignant eleve matiere niveau note commentaire axes :
  values_no_surrogate enseignant eleve matiere niveau note commentaire axes = true <->
  no_surrogate enseignant = true /\ no_surrogate eleve = true /\
  no_surrogate matiere = true /\ no_surrogate niveau = true /\
  no_surrogate note = true /\ no_surrogate commentaire = true /\
  no_surrogate axes = true.
Proof. unfold values_no_surrogate. rewrite !andb_true_iff. tauto. Qed.

(** Without surrogates in the values, the refusal is lxml's [ValueError]. *)
Lemma creer_fiche_word_value_error e (infos : gmap string str)
    enseignant eleve matiere niveau note commentaire axes :
  infos !! "enseignant" = Some enseignant ->
  infos !! "eleve" = Some eleve ->
  infos !! "matiere" = Some matiere ->
  infos !! "niveau" = Some niveau ->
  infos !! "note" = Some note ->
  infos !! "commentaire" = Some commentaire ->
  infos !! "axes" = Some axes ->
  values_compatible enseignant eleve matiere niveau note commentaire axes = false ->
  values_no_surrogate enseignant eleve matiere niveau note commentaire axes = true ->
  creer_fiche_word e infos = (Raise XML_ERROR, [docx_new_Document]).
Proof.
  intros H1 H2 H3 H4 H5 H6 H7 Hbad
    (S1 & S2 & S3 & S4 & S5 & S6 & S7)%values_no_surrogate_spec.
  rewrite (creer_fiche_word_eval e infos _ _ _ _ _ _ _ H1 H2 H3 H4 H5 H6 H7).
  assert (forall s, no_surrogate s = true ->
            (xml_compatible s = true /\ run_text s = Ok (line_feeds s)) \/
            run_text s = Raise XML_ERROR) as Hcase.
  { intros s Hs. destruct (xml_compatible s) eqn:E.
    - left. split; [done|]. by apply run_text_ok.
    - right. by apply run_text_value_error. }
  assert (no_surrogate (matiere ++ py " (" ++ niveau ++ py ")") = true) as S34.
  { rewrite !no_surrogate_app, S3, S4. vm_compute. reflexivity. }
  destruct (join_written matiere niveau) as [Hx _].
  destruct (Hcase enseignant S1) as [[C1 ->]| ->]; [|done].
  destruct (Hcase eleve S2) as [[C2 ->]| ->]; [|done].
  destruct (Hcase _ S34) as [[C3 ->]| ->]; [|done].
  destruct (Hcase note S5) as [[C5 ->]| ->]; [|done].
  destruct (Hcase commentaire S6) as [[C6 ->]| ->]; [|done].
  destruct (Hcase axes S7) as [[C7 ->]| ->]; [|done].
  exfalso. rewrite Hx in C3. apply andb_true_iff in C3 as [C3 C4].
  unfold values_compatible in Hbad. by rewrite C1, C2, C3, C4, C5, C6, C7 in Hbad.
Qed.

(** The two ways [creer_fiche_word] ends on a dictionary with the seven
    keys. *)
Lemma creer_fiche_word_cases e (infos : gmap string str)
    enseignant eleve matiere niveau note commentaire axes :
  infos !! "enseignant" = Some enseignant ->
  infos !! "eleve" = Some eleve ->
  infos !! "matiere" = Some matiere ->
  infos !! "niveau" = Some niveau ->
  infos !! "note" = Some note ->
  infos !! "commentaire" = Some commentaire ->
  infos !! "axes" = Some axes ->
  exists rd,
    creer_fiche_word e infos
    = (rd, docx_new_Document ::
           match rd with Ok doc => [docx_save doc] | Raise _ => [] end) /\
    ((values_compatible enseignant eleve matiere niveau note commentaire axes = true /\
      rd = Ok (rapport (isoformat (date_today e)) (line_feeds enseignant)
                 (line_feeds eleve) (line_feeds matiere) (line_feeds niveau)
                 (line_feeds note) (line_feeds commentaire) (line_feeds axes))) \/
     (values_compatible enseignant eleve matiere niveau note commentaire axes = false /\
      exists ex, rd = Raise ex /\ refused ex /\
        (values_no_surrogate enseignant eleve matiere niveau note commentaire axes = true ->
         ex = XML_ERROR))).
Proof.
  intros H1 H2 H3 H4 H5 H6 H7.
  destruct (values_compatible enseignant eleve matiere niveau note commentaire axes)
    eqn:Hc.
  - eexists. split; [|left; split; [done|reflexivity]].
    by apply (creer_fiche_word_ok e infos _ _ _ _ _ _ _ H1 H2 H3 H4 H5 H6 H7).
  - destruct (values_no_surrogate enseignant eleve matiere niveau note commentaire axes)
      eqn:Hs.
    + exists (Raise XML_ERROR).
      split; [by apply (creer_fiche_word_value_error e infos _ _ _ _ _ _ _
                          H1 H2 H3 H4 H5 H6 H7)|].
      right. split; [done|]. exists XML_ERROR. split; [done|]. split; [by left|done].
    + destruct (creer_fiche_word_refused e infos _ _ _ _ _ _ _ H1 H2 H3 H4 H5 H6 H7 Hc)
        as (ex & Hrun & Hex).
      exists (Raise ex). split; [done|]. right. split; [done|].
      exists ex. split; [done|]. split; [done|]. discriminate.
Qed.

Lemma build_infos_lookup enseignant eleve matiere niveau note commentaire axes :
  let infos := build_infos enseignant eleve matiere niveau note commentaire axes in
  infos !! "enseignant" = Some enseignant /\
  infos !! "eleve" = Some eleve /\
  infos !! "matiere" = Some matiere /\
  infos !! "niveau" = Some niveau /\
  infos !! "note" = Some note /\
  infos !! "commentaire" = Some commentaire /\
  infos !! "axes" = Some axes.
Proof. repeat split; vm_compute; reflexivity. Qed.

(** C6, as amended. For every [infos] whose values hold only characters
    that XML text can hold (empty values included), the report holds exactly
    one table, of six rows and two columns, in this order: Enseignant,
    Apprenant, Matière / Niveau with the value "matiere (niveau)", Note
    indicative, Commentaire pédagogique, Axes d'amélioration; the label is
    in column 0 and the value in column 1, with every carriage return of the
    value read back as a line feed. An empty value gives an empty cell, and
    the six rows are there whatever the values (the third value is the
    join, " ()" when subject and level are both empty). *)
Theorem creer_fiche_word_table e (infos : gmap string str)
    enseignant eleve matiere niveau note commentaire axes :
  infos !! "enseignant" = Some enseignant ->
  infos !! "eleve" = Some eleve ->
  infos !! "matiere" = Some matiere ->
  infos !! "niveau" = Some niveau ->
  infos !! "note" = Some note ->
  infos !! "commentaire" = Some commentaire ->
  infos !! "axes" = Some axes ->
  xml_compatible enseignant = true -> xml_compatible eleve = true ->
  xml_compatible matiere = true -> xml_compatible niveau = true ->
  xml_compatible note = true -> xml_compatible commentaire = true ->
  xml_compatible axes = true ->
  exists doc cells,
    creer_fiche_word e infos = (Ok doc, [docx_new_Document; docx_save doc]) /\
    tables_of doc = [Table (py "Table Grid") cells] /\
    cells
    = [ [py "Enseignant :"; line_feeds enseignant];
        [py "Apprenant :"; line_feeds eleve];
        [py "Matière / Niveau :";
         line_feeds matiere ++ py " (" ++ line_feeds niveau ++ py ")"];
        [py "Note indicative :"; line_feeds note];
        [py "Commentaire pédagogique :"; line_feeds commentaire];
        [py "Axes d'amélioration :"; line_feeds axes] ] /\
    length cells = 6 /\ Forall (fun row => length row = 2) cells.
Proof.
  intros H1 H2 H3 H4 H5 H6 H7 C1 C2 C3 C4 C5 C6 C7.
  rewrite (creer_fiche_word_ok e infos _ _ _ _ _ _ _ H1 H2 H3 H4 H5 H6 H7)
    by (by apply values_compatible_spec).
  do 2 eexists. split; [reflexivity|]. split; [reflexivity|].
  split; [reflexivity|]. split; [reflexivity|].
  repeat constructor.
Qed.

Lemma creer_fiche_word_table_witness :
  exists doc cells,
    creer_fiche_word env_all_fine infos_empty
    = (Ok doc, [docx_new_Document; docx_save doc]) /\
    tables_of doc = [Table (py "Table Grid") cells] /\
    cells
    = [ [py "Enseignant :"; line_feeds []];
        [py "Apprenant :"; line_feeds []];
        [py "Matière / Niveau :"; line_feeds [] ++ py " (" ++ line_feeds [] ++ py ")"];
        [py "Note indicative :"; line_feeds []];
        [py "Commentaire pédagogique :"; line_feeds []];
        [py "Axes d'amélioration :"; line_feeds []] ] /\
    length cells = 6 /\ Forall (fun row => length row = 2) cells.
Proof.
  apply (creer_fiche_word_table env_all_fine infos_empty [] [] [] [] [] [] []);
    vm_compute; reflexivity.
Defined.

(** C6, as stated, fails, in two ways. With the comment
    [commentaire_form_feed] (a form feed between two sentences) and the six
    other values in plain text, [creer_fiche_word] raises [ValueError] while
    it fills the table: there is no rendered report and no table. With the
    comment [commentaire_crlf] the report is rendered, and the cell of the
    comment does not hold the value: the carriage return has become a line
    feed. *)
Lemma report_table_not_for_every_value :
  (infos_form_feed !! "commentaire" = Some commentaire_form_feed /\
   creer_fiche_word env_all_fine infos_form_feed
   = (Raise XML_ERROR, [docx_new_Document])) /\
  (infos_crlf !! "commentaire" = Some commentaire_crlf /\
   exists doc t,
     creer_fiche_word env_all_fine infos_crlf
     = (Ok doc, [docx_new_Document; docx_save doc]) /\
     tables_of doc = [t] /\
     table_cells t !! 4
     = Some [py "Commentaire pédagogique :"; py "Ligne 1" ++ [NL; NL] ++ py "Ligne 2"] /\
     py "Ligne 1" ++ [NL; NL] ++ py "Ligne 2" <> commentaire_crlf) /\
  ~ (forall e (infos : gmap string str)
       enseignant eleve matiere niveau note commentaire axes,
       infos !! "enseignant" = Some enseignant ->
       infos !! "eleve" = Some eleve ->
       infos !! "matiere" = Some matiere ->
       infos !! "niveau" = Some niveau ->
       infos !! "note" = Some note ->
       infos !! "commentaire" = Some commentaire ->
       infos !! "axes" = Some axes ->
       exists doc cells,
         creer_fiche_word e infos = (Ok doc, [docx_new_Document; docx_save doc]) /\
         tables_of doc = [Table (py "Table Grid") cells] /\
         cells
         = [ [py "Enseignant :"; enseignant];
             [py "Apprenant :"; eleve];
             [py "Matière / Niveau :"; matiere ++ py " (" ++ niveau ++ py ")"];
             [py "Note indicative :"; note];
             [py "Commentaire pédagogique :"; commentaire];
             [py "Axes d'amélioration :"; axes] ]).
Proof.
  assert (creer_fiche_word env_all_fine infos_form_feed
          = (Raise XML_ERROR, [docx_new_Document])) as Hrun
    by (vm_compute; reflexivity).
  split; [split; [vm_compute; reflexivity|exact Hrun]|]. split.
  - split; [vm_compute; reflexivity|].
    destruct (creer_fiche_word env_all_fine infos_crlf) as [r t] eqn:E.
    vm_compute in E. injection E as <- <-.
    do 2 eexists. split; [reflexivity|]. split; [reflexivity|].
    split; [vm_compute; reflexivity|]. vm_compute. discriminate.
  - intros H.
    destruct (H env_all_fine infos_form_feed (py "M. Techno Djieh") (py "Awa")
                (py "Maths") (py "Primaire") (py "15") commentaire_form_feed (py "Relire"))
      as (doc & cells & Hdoc & _); try (vm_compute; reflexivity).
    rewrite Hrun in Hdoc. discriminate Hdoc.
Qed.

(** C9, as amended. When the values of the [infos] of a grading result
    hold only characters that XML text can hold, the report holds the score
    and the comment in the value cells of the rows "Note indicative" and
    "Commentaire pédagogique", with every carriage return read back as a
    line feed: as they are when they hold no carriage return. *)
Theorem report_preserves_note_and_commentaire e
    enseignant eleve matiere niveau commentaire axes note :
  xml_compatible enseignant = true -> xml_compatible eleve = true ->
  xml_compatible matiere = true -> xml_compatible niveau = true ->
  xml_compatible note = true -> xml_compatible commentaire = true ->
  xml_compatible axes = true ->
  exists doc t,
    creer_fiche_word e
      (build_infos enseignant eleve matiere niveau note commentaire axes)
    = (Ok doc, [docx_new_Document; docx_save doc]) /\
    tables_of doc = [t] /\
    table_cells t !! 3 = Some [py "Note indicative :"; line_feeds note] /\
    table_cells t !! 4 = Some [py "Commentaire pédagogique :"; line_feeds commentaire] /\
    (~ In CR note -> line_feeds note = note) /\
    (~ In CR commentaire -> line_feeds commentaire = commentaire).
Proof.
  intros C1 C2 C3 C4 C5 C6 C7.
  destruct (build_infos_lookup enseignant eleve matiere niveau note commentaire axes)
    as (H1 & H2 & H3 & H4 & H5 & H6 & H7).
  rewrite (creer_fiche_word_ok e _ _ _ _ _ _ _ _ H1 H2 H3 H4 H5 H6 H7)
    by (by apply values_compatible_spec).
  do 2 eexists. split; [reflexivity|]. split; [reflexivity|].
  split; [reflexivity|]. split; [reflexivity|].
  split; apply line_feeds_without_CR.
Qed.

Lemma report_preserves_note_and_commentaire_witness :
  exists doc t,
    creer_fiche_word env_all_fine
      (build_infos (py "M. Techno Djieh") (py "Awa") (py "Maths") (py "Primaire")
         (py "15") (py "Good work") (py "Work on grammar"))
    = (Ok doc, [docx_new_Document; docx_save doc]) /\
    tables_of doc = [t] /\
    table_cells t !! 3 = Some [py "Note indicative :"; line_feeds (py "15")] /\
    table_cells t !! 4
    = Some [py "Commentaire pédagogique :"; line_feeds (py "Good work")] /\
    (~ In CR (py "15") -> line_feeds (py "15") = py "15") /\
    (~ In CR (py "Good work") -> line_feeds (py "Good work") = py "Good work").
Proof.
  apply (report_preserves_note_and_commentaire env_all_fine (py "M. Techno Djieh")
           (py "Awa") (py "Maths") (py "Primaire") (py "Good work")
           (py "Work on grammar") (py "15")); vm_compute; reflexivity.
Defined.

(** C9, as stated, fails: the comment parsed from [reply_crlf] is
    [commentaire_crlf] ("Ligne 1", carriage return, line feed, "Ligne 2");
    the report built from the parsed values holds "Ligne 1", two line feeds,
    "Ligne 2" in the comment cell, and no cell of the table holds the
    comment as it was. *)
Lemma carriage_return_not_preserved :
  commentaire_of (extraction reply_crlf) = commentaire_crlf /\
  exists doc t,
    creer_fiche_word env_all_fine
      (build_infos (py "M. Techno Djieh") (py "Awa") (py "Maths") (py "Primaire")
         (note_of (extraction reply_crlf)) (commentaire_of (extraction reply_crlf))
         (axes_of (extraction reply_crlf)))
    = (Ok doc, [docx_new_Document; docx_save doc]) /\
    tables_of doc = [t] /\
    table_cells t !! 4
    = Some [py "Commentaire pédagogique :"; py "Ligne 1" ++ [NL; NL] ++ py "Ligne 2"] /\
    Forall (Forall (fun cell => str_in (commentaire_of (extraction reply_crlf)) cell = false))
      (table_cells t).
Proof.
  split; [vm_compute; reflexivity|].
  destruct (creer_fiche_word env_all_fine
              (build_infos (py "M. Techno Djieh") (py "Awa") (py "Maths") (py "Primaire")
                 (note_of (extraction reply_crlf)) (commentaire_of (extraction reply_crlf))
                 (axes_of (extraction reply_crlf)))) as [r t] eqn:E.
  vm_compute in E. injection E as <- <-.
  do 2 eexists. split; [reflexivity|]. split; [reflexivity|].
  split; [vm_compute; reflexivity|].
  repeat constructor; vm_compute; reflexivity.
Qed.

(** ** Analyse IA: the parser *)

Import Patterns.

(** What [extraction] does with the outcome of one search. *)
Lemma extraction_fields res :
  extraction res
  = (match search pat_comm res with Some g => strip g | None => NON_GENERE end,
     match search pat_axes res with Some g => strip g | None => NON_GENERE end,
     match search pat_pf res with Some g => strip g | None => NON_GENERE end,
     match search pat_note res with Some g => g | None => py "10" end).
Proof. reflexivity. Qed.

Lemma extraction_between e texte_ref texte_eleve matiere niveau style
    res a w1 b1 v1 w2 b2 v2 w3 b3 v3 rest :
  gemini e (prompt texte_ref texte_eleve matiere niveau style) = Ok res ->
  res = a ++ LABEL_COMM ++ w1 ++ COLON :: (b1 ++ NL :: v1)
          ++ LABEL_AXES ++ w2 ++ COLON :: (b2 ++ NL :: v2)
          ++ LABEL_PF ++ w3 ++ COLON :: (b3 ++ NL :: v3)
          ++ LABEL_NOTE ++ rest ->
  occurrences LABEL_COMM res = 1 -> occurrences LABEL_AXES res = 1 ->
  occurrences LABEL_PF res = 1 -> occurrences LABEL_NOTE res = 1 ->
  forallb isspace w1 = true -> forallb isspace v1 = true ->
  forallb isspace w2 = true -> forallb isspace v2 = true ->
  forallb isspace w3 = true -> forallb isspace v3 = true ->
  exists note,
    analyser_avec_gemini e texte_ref texte_eleve matiere niveau style
    = (Ok (strip (b1 ++ NL :: v1), strip (b2 ++ NL :: v2),
           strip (b3 ++ NL :: v3), note),
       [model_generate_content (prompt texte_ref texte_eleve matiere niveau style)]).
Proof.
  intros Hg Hres Ho1 Ho2 Ho3 Ho4 Hw1 Hv1 Hw2 Hv2 Hw3 Hv3.
  rewrite (analyser_ok _ _ _ _ _ _ _ Hg). unfold extraction.
  assert (exists g, search pat_comm res = Some g /\ strip g = strip (b1 ++ NL :: v1))
    as (g1 & -> & ->).
  { rewrite pat_comm_eq. rewrite Hres in Ho1, Ho2 |- *.
    apply (between_search LABEL_COMM LABEL_AXES a w1 b1 v1 _ Ho1 Ho2 Hw1 Hv1). }
  assert (exists g, search pat_axes res = Some g /\ strip g = strip (b2 ++ NL :: v2))
    as (g2 & -> & ->).
  { rewrite pat_axes_eq.
    assert (res = (a ++ LABEL_COMM ++ w1 ++ COLON :: (b1 ++ NL :: v1))
                    ++ LABEL_AXES ++ w2 ++ COLON :: (b2 ++ NL :: v2)
                    ++ LABEL_PF ++ w3 ++ COLON :: (b3 ++ NL :: v3)
                    ++ LABEL_NOTE ++ rest) as E.
    { rewrite Hres. by list_norm. }
    rewrite E in Ho2, Ho3 |- *.
    apply (between_search LABEL_AXES LABEL_PF _ w2 b2 v2 _ Ho2 Ho3 Hw2 Hv2). }
  assert (exists g, search pat_pf res = Some g /\ strip g = strip (b3 ++ NL :: v3))
    as (g3 & -> & ->).
  { rewrite pat_pf_eq.
    assert (res = (a ++ LABEL_COMM ++ w1 ++ COLON :: (b1 ++ NL :: v1)
                     ++ LABEL_AXES ++ w2 ++ COLON :: (b2 ++ NL :: v2))
                    ++ LABEL_PF ++ w3 ++ COLON :: (b3 ++ NL :: v3)
                    ++ LABEL_NOTE ++ rest) as E.
    { rewrite Hres. by list_norm. }
    rewrite E in Ho3, Ho4 |- *.
    apply (between_search LABEL_PF LABEL_NOTE _ w3 b3 v3 _ Ho3 Ho4 Hw3 Hv3). }
  eauto.
Qed.

(** C2, as amended. In a reply where each of the four labels occurs once,
    in the fixed order, where each of the first three labels is followed by
    optional whitespace and a colon, and where the label that follows
    stands at the start of a line (after a newline and optional
    whitespace), each of the first three fields is the text between its
    colon and the next label, trimmed. The reply of the specification,
    with the labels of the source, parses to "Good work", "Work on
    grammar", "Clear structure" and "15". *)
Theorem extraction_between_labels :
  (forall e texte_ref texte_eleve matiere niveau style
          res a w1 b1 v1 w2 b2 v2 w3 b3 v3 rest,
    gemini e (prompt texte_ref texte_eleve matiere niveau style) = Ok res ->
    res = a ++ LABEL_COMM ++ w1 ++ COLON :: (b1 ++ NL :: v1)
            ++ LABEL_AXES ++ w2 ++ COLON :: (b2 ++ NL :: v2)
            ++ LABEL_PF ++ w3 ++ COLON :: (b3 ++ NL :: v3)
            ++ LABEL_NOTE ++ rest ->
    occurrences LABEL_COMM res = 1 -> occurrences LABEL_AXES res = 1 ->
    occurrences LABEL_PF res = 1 -> occurrences LABEL_NOTE res = 1 ->
    forallb isspace w1 = true -> forallb isspace v1 = true ->
    forallb isspace w2 = true -> forallb isspace v2 = true ->
    forallb isspace w3 = true -> forallb isspace v3 = true ->
    exists note,
      analyser_avec_gemini e texte_ref texte_eleve matiere niveau style
      = (Ok (strip (b1 ++ NL :: v1), strip (b2 ++ NL :: v2),
             strip (b3 ++ NL :: v3), note),
         [model_generate_content
            (prompt texte_ref texte_eleve matiere niveau style)])) /\
  extraction reply_well_formed
  = (py "Good work", py "Work on grammar", py "Clear structure", py "15").
Proof.
  split.
  - exact extraction_between.
  - vm_compute. reflexivity.
Qed.

Lemma extraction_between_labels_witness :
  exists note,
    analyser_avec_gemini (env_reply reply_well_formed) [] (py "2 + 2 = 4")
      (py "Maths") (py "Primaire") (py "Standard")
    = (Ok (strip ((NL :: py "Good work") ++ NL :: []),
           strip ((NL :: py "Work on grammar") ++ NL :: []),
           strip ((NL :: py "Clear structure") ++ NL :: []), note),
       [model_generate_content
          (prompt [] (py "2 + 2 = 4") (py "Maths") (py "Primaire") (py "Standard"))]).
Proof.
  apply (proj1 extraction_between_labels (env_reply reply_well_formed) []
           (py "2 + 2 = 4") (py "Maths") (py "Primaire") (py "Standard")
           reply_well_formed
           [] [] (NL :: py "Good work") []
           [] (NL :: py "Work on grammar") []
           [] (NL :: py "Clear structure") []
           (COLON :: NL :: py "15/20"));
    vm_compute; reflexivity.
Defined.

(** C2, as stated, fails (even with "label" read as the label and its
    colon, and with each label occurring once): in [reply_one_line] the
    four labels appear in order, the text between the first label and the
    second is " Bon travail ", and the parser returns "Non généré" for the
    comment, because no newline precedes the second label. *)
Lemma labels_on_one_line_not_extracted :
  ~ (forall e texte_ref texte_eleve matiere niveau style res a t1 t2 t3 rest,
      gemini e (prompt texte_ref texte_eleve matiere niveau style) = Ok res ->
      res = a ++ LABEL_COMM ++ COLON :: t1 ++ LABEL_AXES ++ COLON :: t2
              ++ LABEL_PF ++ COLON :: t3 ++ LABEL_NOTE ++ rest ->
      occurrences LABEL_COMM res = 1 -> occurrences LABEL_AXES res = 1 ->
      occurrences LABEL_PF res = 1 -> occurrences LABEL_NOTE res = 1 ->
      exists note,
        analyser_avec_gemini e texte_ref texte_eleve matiere niveau style
        = (Ok (strip t1, strip t2, strip t3, note),
           [model_generate_content
              (prompt texte_ref texte_eleve matiere niveau style)])).
Proof.
  intros H.
  destruct (H (env_reply reply_one_line) [] [] [] [] [] reply_one_line
              [] (py " Bon travail ") (py " Grammaire ") (py " Structure ")
              (py ": 15/20")) as [note Hn]; try (vm_compute; reflexivity).
  rewrite (analyser_ok _ _ _ _ _ _ reply_one_line) in Hn by reflexivity.
  vm_compute in Hn. discriminate Hn.
Qed.

(** More generally, a reply written on one line gives no text field. *)
Lemma extraction_without_newline res :
  ~ In NL res ->
  exists note, extraction res = (NON_GENERE, NON_GENERE, NON_GENERE, note).
Proof.
  intros Hn. rewrite extraction_fields, pat_comm_eq, pat_axes_eq, pat_pf_eq.
  rewrite !between_search_needs_newline by done. eauto.
Qed.

Lemma reply_one_line_extraction :
  extraction reply_one_line = (NON_GENERE, NON_GENERE, NON_GENERE, py "15").
Proof. vm_compute. reflexivity. Qed.



Lemma reply_well_formed_parts :
  reply_well_formed = reply_head ++ LABEL_AXES ++ COLON :: reply_tail.
Proof. vm_compute. reflexivity. Qed.

Lemma reply_missing_axes_label_extraction :
  extraction reply_missing_axes_label
  = (NON_GENERE, NON_GENERE, py "Clear structure", py "15").
Proof. vm_compute. reflexivity. Qed.


(** ** The score *)

Lemma note_after_colon e texte_ref texte_eleve matiere niveau style
    res a w1 w2 ds rest :
  gemini e (prompt texte_ref texte_eleve matiere niveau style) = Ok res ->
  res = a ++ LABEL_NOTE ++ w1 ++ COLON :: w2 ++ ds ++ rest ->
  find LABEL_NOTE res = Some (length a) ->
  forallb isspace w1 = true -> forallb isspace w2 = true ->
  ds <> [] -> forallb isdecimal ds = true ->
  match rest with [] => True | x :: _ => isdecimal x = false end ->
  exists commentaire axes points_forts,
    analyser_avec_gemini e texte_ref texte_eleve matiere niveau style
    = (Ok (commentaire, axes, points_forts, ds),
       [model_generate_content (prompt texte_ref texte_eleve matiere niveau style)]).
Proof.
  intros Hg Hres Hfind Hw1 Hw2 Hne Hd Hrest.
  rewrite (analyser_ok _ _ _ _ _ _ _ Hg), extraction_fields.
  rewrite pat_note_eq. rewrite Hres in Hfind |- *.
  rewrite (number_search LABEL_NOTE a w1 w2 ds rest Hfind Hw1 Hw2 Hne Hd Hrest).
  eauto.
Qed.

(** C4, as amended. When the first occurrence of the label "Note
    indicative" is followed by optional whitespace, a colon, optional
    whitespace and then at least one digit, the score is the run of digits
    that starts there (the first run of digits after the label). *)
Theorem note_digits_after_colon e texte_ref texte_eleve matiere niveau style
    res a w1 w2 ds rest :
  gemini e (prompt texte_ref texte_eleve matiere niveau style) = Ok res ->
  res = a ++ LABEL_NOTE ++ w1 ++ COLON :: w2 ++ ds ++ rest ->
  find LABEL_NOTE res = Some (length a) ->
  forallb isspace w1 = true -> forallb isspace w2 = true ->
  ds <> [] -> forallb isdecimal ds = true ->
  match rest with [] => True | x :: _ => isdecimal x = false end ->
  exists commentaire axes points_forts,
    analyser_avec_gemini e texte_ref texte_eleve matiere niveau style
    = (Ok (commentaire, axes, points_forts, ds),
       [model_generate_content (prompt texte_ref texte_eleve matiere niveau style)]).
Proof. apply note_after_colon. Qed.

Lemma note_digits_after_colon_witness :
  exists commentaire axes points_forts,
    analyser_avec_gemini (env_reply reply_note_only) [] (py "2 + 2 = 4")
      (py "Maths") (py "Primaire") (py "Standard")
    = (Ok (commentaire, axes, points_forts, py "15"),
       [model_generate_content
          (prompt [] (py "2 + 2 = 4") (py "Maths") (py "Primaire") (py "Standard"))]).
Proof.
  apply (note_digits_after_colon (env_reply reply_note_only) [] (py "2 + 2 = 4")
           (py "Maths") (py "Primaire") (py "Standard")
           reply_note_only (py "Bilan. ") (py " ") (py " ") (py "15") (py "/20")).
  - reflexivity.
  - vm_compute. reflexivity.
  - vm_compute. reflexivity.
  - vm_compute. reflexivity.
  - vm_compute. reflexivity.
  - vm_compute. discriminate.
  - vm_compute. reflexivity.
  - vm_compute. reflexivity.
Defined.

(** C4, as stated, fails: in [reply_note_after_word] the label is followed
    later by the digits "15", the first run of digits after it, and the
    parser returns the fallback "10", because the digits do not come right
    after the colon. *)
Lemma note_digits_later_not_found :
  ~ (forall e texte_ref texte_eleve matiere niveau style res a mid ds rest,
      gemini e (prompt texte_ref texte_eleve matiere niveau style) = Ok res ->
      res = a ++ LABEL_NOTE ++ mid ++ ds ++ rest ->
      find LABEL_NOTE res = Some (length a) ->
      forallb (fun c => negb (isdecimal c)) mid = true ->
      ds <> [] -> forallb isdecimal ds = true ->
      match rest with [] => True | x :: _ => isdecimal x = false end ->
      exists commentaire axes points_forts,
        analyser_avec_gemini e texte_ref texte_eleve matiere niveau style
        = (Ok (commentaire, axes, points_forts, ds),
           [model_generate_content
              (prompt texte_ref texte_eleve matiere niveau style)])).
Proof.
  intros H.
  destruct (H (env_reply reply_note_after_word) [] [] [] [] []
              reply_note_after_word [] (py " : environ ") (py "15") (py "/20"))
    as (c & a & p & Hn); try (vm_compute; reflexivity).
  - vm_compute. discriminate.
  - rewrite (analyser_ok _ _ _ _ _ _ reply_note_after_word) in Hn by reflexivity.
    vm_compute in Hn. discriminate Hn.
Qed.

Lemma reply_note_after_word_extraction :
  note_of (extraction reply_note_after_word) = py "10".
Proof. vm_compute. reflexivity. Qed.

Lemma decimal_chars ds c :
  forallb isdecimal ds = true -> isdecimal c = false -> ~ In c ds.
Proof.
  intros Hd Hc Hin. rewrite forallb_forall in Hd. rewrite (Hd c Hin) in Hc. done.
Qed.

(** A place where the pattern of the score matches is a place where the
    score can be read. *)
Lemma match_at_note_site s g : match_at pat_note s = Some g -> note_site_here s = true.
Proof.
  intros Hm. rewrite pat_note_eq in Hm.
  apply ReFacts.match_at_sound in Hm as (m1 & m3 & t & -> & Hm1 & Hg & _).
  cbn [before inside number_pattern] in Hm1, Hg.
  apply Lang_label_colon in Hm1 as (u & v & -> & Hu & Hv).
  apply Lang_digits in Hg as [Hne Hd].
  destruct g as [|d g]; [done|]. simpl in Hd. apply andb_true_iff in Hd as [Hd _].
  unfold note_site_here. list_norm.
  rewrite startswith_app, drop_app_length, lstrip_spaces by done.
  cbn [lstrip andb].
  assert (isspace COLON = false) as -> by (vm_compute; reflexivity).
  rewrite N.eqb_refl, lstrip_spaces by done. cbn [lstrip andb].
  by rewrite (decimal_not_space d Hd).
Qed.

Lemma first_note_site_before a s :
  first_note_site (a ++ s) = Some (length a) ->
  forall a1 a2, a = a1 ++ a2 -> a2 <> [] -> note_site_here (a2 ++ s) = false.
Proof.
  induction a as [|c a IH]; intros H a1 a2 Ha Hne.
  - destruct a1, a2; done.
  - cbn [first_note_site app] in H.
    destruct (note_site_here (c :: a ++ s)) eqn:E; [done|].
    destruct (first_note_site (a ++ s)) as [n|] eqn:F; [|done].
    injection H as ->. destruct a1 as [|c1 a1].
    + simpl in Ha. subst a2. exact E.
    + injection Ha as -> ->. eapply IH; done.
Qed.

Lemma note_at_first_site e texte_ref texte_eleve matiere niveau style
    res a w1 w2 ds rest :
  gemini e (prompt texte_ref texte_eleve matiere niveau style) = Ok res ->
  res = a ++ LABEL_NOTE ++ w1 ++ COLON :: w2 ++ ds ++ rest ->
  first_note_site res = Some (length a) ->
  forallb isspace w1 = true -> forallb isspace w2 = true ->
  ds <> [] -> forallb isdecimal ds = true ->
  match rest with [] => True | x :: _ => isdecimal x = false end ->
  exists commentaire axes points_forts,
    analyser_avec_gemini e texte_ref texte_eleve matiere niveau style
    = (Ok (commentaire, axes, points_forts, ds),
       [model_generate_content (prompt texte_ref texte_eleve matiere niveau style)]).
Proof.
  intros Hg Hres Hfirst Hw1 Hw2 Hne Hd Hrest.
  rewrite (analyser_ok _ _ _ _ _ _ _ Hg), extraction_fields.
  rewrite Hres in Hfirst |- *.
  assert (search pat_note (a ++ LABEL_NOTE ++ w1 ++ COLON :: w2 ++ ds ++ rest) = Some ds)
    as ->; [|eauto].
  rewrite ReFacts.search_skip.
  - apply ReFacts.search_here. rewrite pat_note_eq. by apply number_match_at.
  - intros a1 a2 Ha Hne2.
    destruct (match_at pat_note (a2 ++ _)) as [g|] eqn:Hm; [exfalso|done].
    apply match_at_note_site in Hm.
    by rewrite (first_note_site_before _ _ Hfirst a1 a2 Ha Hne2) in Hm.
Qed.

(** C10, as amended. When the first place where the label "Note
    indicative" is followed by optional whitespace, a colon, optional
    whitespace and a digit carries a decimal number such as "15.5", the
    score is the integer part before the decimal point; and every score
    [analyser_avec_gemini] returns (a capture, or one of the fixed values
    "10" and "00") is a non-empty run of decimal digits, without "." and
    without "/". *)
Theorem note_integer_part e texte_ref texte_eleve matiere niveau style :
  (forall res a w1 w2 ds frac,
     gemini e (prompt texte_ref texte_eleve matiere niveau style) = Ok res ->
     res = a ++ LABEL_NOTE ++ w1 ++ COLON :: w2 ++ ds ++ DOT :: frac ->
     first_note_site res = Some (length a) ->
     forallb isspace w1 = true -> forallb isspace w2 = true ->
     ds <> [] -> forallb isdecimal ds = true ->
     exists commentaire axes points_forts,
       analyser_avec_gemini e texte_ref texte_eleve matiere niveau style
       = (Ok (commentaire, axes, points_forts, ds),
          [model_generate_content
             (prompt texte_ref texte_eleve matiere niveau style)])) /\
  (forall r t,
     analyser_avec_gemini e texte_ref texte_eleve matiere niveau style = (Ok r, t) ->
     note_of r <> [] /\ forallb isdecimal (note_of r) = true /\
     ~ In DOT (note_of r) /\ ~ In SLASH (note_of r)).
Proof.
  split.
  - intros res a w1 w2 ds frac Hg Hres Hfirst Hw1 Hw2 Hne Hd.
    apply (note_at_first_site e _ _ _ _ _ res a w1 w2 ds (DOT :: frac)); try done.
  - intros r t Hrun.
    assert (note_of r <> [] /\ forallb isdecimal (note_of r) = true) as [Hne Hd].
    { destruct (gemini e (prompt texte_ref texte_eleve matiere niveau style))
        as [res|ex] eqn:Hg.
      - rewrite (analyser_ok _ _ _ _ _ _ _ Hg), extraction_fields in Hrun.
        injection Hrun as <- _. unfold note_of. cbn [snd].
        destruct (search pat_note res) as [g|] eqn:Hs.
        + rewrite pat_note_eq in Hs.
          apply number_search_sound in Hs as (? & ? & _). done.
        + split; [vm_compute; discriminate|vm_compute; reflexivity].
      - rewrite (analyser_raise _ _ _ _ _ _ _ Hg) in Hrun.
        injection Hrun as <- _. unfold note_of. cbn [snd].
        split; [vm_compute; discriminate|vm_compute; reflexivity]. }
    split; [done|]. split; [done|].
    split; apply decimal_chars; done.
Qed.

Lemma note_integer_part_witness :
  (exists commentaire axes points_forts,
     analyser_avec_gemini (env_reply reply_note_in_prose) [] (py "2 + 2 = 4")
       (py "Maths") (py "Primaire") (py "Standard")
     = (Ok (commentaire, axes, points_forts, py "15"),
        [model_generate_content
           (prompt [] (py "2 + 2 = 4") (py "Maths") (py "Primaire") (py "Standard"))])) /\
  ~ In DOT (note_of (extraction reply_note_in_prose)).
Proof.
  pose proof (note_integer_part (env_reply reply_note_in_prose) [] (py "2 + 2 = 4")
                (py "Maths") (py "Primaire") (py "Standard")) as [Hint Hdigits].
  split.
  - apply (Hint reply_note_in_prose
             (py "La Note indicative figure plus bas." ++ [NL])
             (py " ") (py " ") (py "15") (py "5/20")).
    + reflexivity.
    + vm_compute. reflexivity.
    + vm_compute. reflexivity.
    + vm_compute. reflexivity.
    + vm_compute. reflexivity.
    + vm_compute. discriminate.
    + vm_compute. reflexivity.
  - apply (Hdigits (extraction reply_note_in_prose)
             [model_generate_content
                (prompt [] (py "2 + 2 = 4") (py "Maths") (py "Primaire") (py "Standard"))]).
    apply analyser_ok. reflexivity.
Defined.

(** C10, as stated, fails: in [reply_two_notes] the label is followed, after
    the colon and a space, by the decimal number "15.5/20", and the score is
    "12", read at the label that comes first. *)
Lemma second_score_not_read :
  note_of (extraction reply_two_notes) = py "12" /\
  ~ (forall e texte_ref texte_eleve matiere niveau style res a w1 w2 ds frac,
      gemini e (prompt texte_ref texte_eleve matiere niveau style) = Ok res ->
      res = a ++ LABEL_NOTE ++ w1 ++ COLON :: w2 ++ ds ++ DOT :: frac ->
      forallb isspace w1 = true -> forallb isspace w2 = true ->
      ds <> [] -> forallb isdecimal ds = true ->
      exists commentaire axes points_forts,
        analyser_avec_gemini e texte_ref texte_eleve matiere niveau style
        = (Ok (commentaire, axes, points_forts, ds),
           [model_generate_content
              (prompt texte_ref texte_eleve matiere niveau style)])).
Proof.
  split; [vm_compute; reflexivity|].
  intros H.
  destruct (H (env_reply reply_two_notes) [] [] [] [] []
              reply_two_notes (py "Note indicative: 12/20" ++ [NL]) [] (py " ")
              (py "15") (py "5/20"))
    as (c & a & p & Hn); try (vm_compute; reflexivity).
  - vm_compute. discriminate.
  - rewrite (analyser_ok _ _ _ _ _ _ reply_two_notes) in Hn by reflexivity.
    vm_compute in Hn. discriminate Hn.
Qed.

(** * Further properties

    Properties of the parts of the module the claims do not reach, and of
    how its functions compose. *)

(** ** Lecture fichiers *)

Lemma lire_pages_ok texts acc :
  lire_pages (map Ok texts) acc = (Ok (acc ++ concat texts), []).
Proof.
  revert acc; induction texts as [|t texts IH]; intros acc; simpl.
  - by rewrite app_nil_r.
  - unfold bind, lift. rewrite IH, <- app_assoc. reflexivity.
Qed.

Lemma lire_pages_fail texts ex rest acc :
  lire_pages (map Ok texts ++ Raise ex :: rest) acc = (Raise ex, []).
Proof.
  revert acc; induction texts as [|t texts IH]; intros acc; simpl.
  - reflexivity.
  - unfold bind, lift. rewrite IH. reflexivity.
Qed.

(** X1. When every page of a PDF can be read, [lire_pdf] returns the texts
    of the pages joined in page order, with nothing between them, and shows
    no error. *)
Theorem lire_pdf_concatenates_pages e f texts :
  pymupdf e (file_bytes f) = Ok (map Ok texts) ->
  lire_pdf e f = (Ok (concat texts), [fitz_open (file_bytes f)]).
Proof.
  intros H. unfold lire_pdf, try_except, bind, emit, lift.
  rewrite H, lire_pages_ok. reflexivity.
Qed.

Lemma lire_pdf_concatenates_pages_witness :
  lire_pdf env_two_pages copie_pdf
  = (Ok (concat [py "page 1 "; py "page 2"]), [fitz_open (file_bytes copie_pdf)]).
Proof.
  apply (lire_pdf_concatenates_pages env_two_pages copie_pdf
           [py "page 1 "; py "page 2"]).
  reflexivity.
Defined.

(** X2. When a page of a PDF cannot be read, [lire_pdf] shows the error of
    the first such page and returns the empty string: the text of the pages
    read before it is dropped, and the pages after it are not read. *)
Theorem lire_pdf_first_failure e f texts ex rest :
  pymupdf e (file_bytes f) = Ok (map Ok texts ++ Raise ex :: rest) ->
  lire_pdf e f
  = (Ok [], [fitz_open (file_bytes f); st_error (py "Erreur PDF : " ++ exn_str ex)]).
Proof.
  intros H. unfold lire_pdf, try_except, bind, emit, lift.
  rewrite H, lire_pages_fail. reflexivity.
Qed.

Lemma lire_pdf_first_failure_witness :
  lire_pdf env_broken_files copie_pdf
  = (Ok [], [fitz_open (file_bytes copie_pdf);
             st_error (py "Erreur PDF : " ++
                       exn_str (Exception "RuntimeError" (py "page damaged")))]).
Proof.
  apply (lire_pdf_first_failure env_broken_files copie_pdf [py "page 1"]
           (Exception "RuntimeError" (py "page damaged")) []).
  reflexivity.
Defined.

Lemma join_contains sep (l : list str) p : In p l -> contains p (join sep l).
Proof.
  induction l as [|q l IH]; [intros []|].
  intros [->|Hin].
  - destruct l as [|q' l].
    + exists [], []. simpl. by rewrite app_nil_r.
    + exists [], (sep ++ join sep (q' :: l)). reflexivity.
  - destruct l as [|q' l]; [destruct Hin|].
    destruct (IH Hin) as (a & b & Hab).
    exists (q ++ sep ++ a), b.
    change (join sep (q :: q' :: l)) with (q ++ sep ++ join sep (q' :: l)).
    rewrite Hab, <- !app_assoc. reflexivity.
Qed.

Lemma join_nil sep (l : list str) :
  Forall (fun p => p <> []) l -> join sep l = [] -> l = [].
Proof.
  intros Hne Hj. destruct l as [|p l]; [done|]. exfalso.
  inversion Hne as [|? ? Hp _]; subst.
  destruct l as [|q l]; simpl in Hj; [done|].
  destruct p; [done|discriminate].
Qed.

Lemma lstrip_suffix (s : str) :
  exists w, s = w ++ lstrip s /\ forallb isspace w = true.
Proof.
  induction s as [|c s IH]; simpl.
  - exists []. done.
  - destruct (isspace c) eqn:E.
    + destruct IH as (w & Hw & Hsp). exists (c :: w). simpl.
      rewrite E, Hsp, <- Hw. done.
    + exists []. done.
Qed.

Lemma rstrip_prefix (s : str) :
  exists w, s = rstrip s ++ w /\ forallb isspace w = true.
Proof.
  unfold rstrip. destruct (lstrip_suffix (rev s)) as (w & Hw & Hsp).
  exists (rev w). split; [|by rewrite forallb_rev].
  rewrite <- rev_app_distr, <- Hw, rev_involutive. done.
Qed.

(** A string strips to nothing exactly when it is blank. *)
Lemma strip_blank (p : str) : truthy (strip p) = negb (blank p).
Proof.
  unfold blank. destruct (forallb isspace p) eqn:E.
  - unfold strip. by rewrite lstrip_all_spaces.
  - destruct (strip p) eqn:Hs; [exfalso|done].
    destruct (lstrip_suffix p) as (w & Hw & Hsp).
    destruct (rstrip_prefix (lstrip p)) as (w' & Hw' & Hsp').
    fold (strip p) in Hw'. rewrite Hs in Hw'. simpl in Hw'.
    rewrite Hw, Hw', forallb_app, Hsp, Hsp' in E. done.
Qed.

Lemma truthy_spec (s : str) : truthy s = true <-> s <> [].
Proof. destruct s; simpl; split; done. Qed.

(** X3. On a document that can be read, [lire_docx] returns the paragraphs
    that are not blank (not made of whitespace only), in their order, joined
    by line feeds: the blank ones are dropped, and each of the others is
    kept as it is (inner and outer spaces included). So each non-blank
    paragraph is a contiguous part of the result, and the result is empty
    exactly when all paragraphs are blank. *)
Theorem lire_docx_keeps_paragraphs e f paragraphs :
  python_docx e f = Ok paragraphs ->
  exists texte,
    lire_docx e f = (Ok texte, [docx_Document f]) /\
    texte = join [NL] (List.filter (fun p => negb (blank p)) paragraphs) /\
    (forall p, In p paragraphs -> strip p <> [] -> contains p texte) /\
    (texte = [] <-> forall p, In p paragraphs -> strip p = []).
Proof.
  intros H. unfold lire_docx, try_except, bind, emit, lift, ret. rewrite H.
  clear H. eexists. split; [reflexivity|]. split; [|split].
  - f_equal. clear. induction paragraphs as [|p l IH]; [done|].
    cbn [List.filter]. by rewrite strip_blank, IH.
  - intros p Hin Hp. apply join_contains, filter_In. split; [done|].
    by apply truthy_spec.
  - split.
    + intros Hj p Hin. apply join_nil in Hj.
      * destruct (strip p) eqn:E; [done|exfalso].
        assert (In p (List.filter (fun text => truthy (strip text)) paragraphs))
          as Hf by (apply filter_In; rewrite E; done).
        rewrite Hj in Hf. destruct Hf.
      * apply List.Forall_forall. intros q Hq. apply filter_In in Hq as [_ Hq].
        intros ->. discriminate Hq.
    + intros Hall.
      assert (List.filter (fun text => truthy (strip text)) paragraphs = []) as ->;
        [|reflexivity].
      induction paragraphs as [|q l IH]; [reflexivity|]. simpl.
      rewrite (Hall q) by (left; reflexivity). simpl.
      apply IH. intros p Hp. apply Hall. right. exact Hp.
Qed.

Lemma lire_docx_keeps_paragraphs_witness :
  exists texte,
    lire_docx env_paragraphs copie_docx = (Ok texte, [docx_Document copie_docx]) /\
    texte = py "Titre" ++ [NL] ++ py " Corps du devoir " /\
    contains (py " Corps du devoir ") texte /\ texte <> [].
Proof.
  destruct (lire_docx_keeps_paragraphs env_paragraphs copie_docx
              [py "Titre"; py "   "; py " Corps du devoir "; []] eq_refl)
    as (texte & Hrun & Htexte & Hkeep & Hempty).
  exists texte. split; [exact Hrun|]. split; [|split].
  - rewrite Htexte. vm_compute. reflexivity.
  - apply Hkeep.
    + right. right. left. reflexivity.
    + vm_compute. discriminate.
  - intros Hnil.
    pose proof (proj1 Hempty Hnil (py "Titre") (or_introl eq_refl)) as Hp.
    vm_compute in Hp. discriminate Hp.
Defined.

(** ** Rapport Word *)

(** X4. When the values hold only characters that XML text can hold, the
    report has six blocks, in this order: the centred letterhead, the title
    (heading of level 0), the table, the line "Document généré le : " with
    the date of the day as year-month-day, the dashed rule, and the centred
    contact line; only the table and the date line vary, and the document
    saved into the buffer is the document returned. *)
Theorem creer_fiche_word_layout e (infos : gmap string str)
    enseignant eleve matiere niveau note commentaire axes :
  infos !! "enseignant" = Some enseignant ->
  infos !! "eleve" = Some eleve ->
  infos !! "matiere" = Some matiere ->
  infos !! "niveau" = Some niveau ->
  infos !! "note" = Some note ->
  infos !! "commentaire" = Some commentaire ->
  infos !! "axes" = Some axes ->
  values_compatible enseignant eleve matiere niveau note commentaire axes = true ->
  exists doc table,
    creer_fiche_word e infos = (Ok doc, [docx_new_Document; docx_save doc]) /\
    doc
    = [ Paragraph (py "REPUBLIQUE DE COTE D'IVOIRE" ++ [NL] ++
                   py "Union - Discipline - Travail") CENTER;
        Heading (py "RAPPORT DE CORRECTION PEDAGOGIQUE IA") 0;
        TableBlock table;
        Paragraph ([NL] ++ py "Document généré le : " ++ isoformat (date_today e)) LEFT;
        Paragraph (py "------------------------------------------------------------")
          LEFT;
        Paragraph
          (py "Pour tout besoin en intelligence artificielle, contactez le Techno Djieh " ++
           py "au +225 0757283553 ou au mail : bitahdhiehd@gmail.com") CENTER ].
Proof.
  intros H1 H2 H3 H4 H5 H6 H7 Hc.
  rewrite (creer_fiche_word_ok e infos _ _ _ _ _ _ _ H1 H2 H3 H4 H5 H6 H7 Hc).
  do 2 eexists. split; reflexivity.
Qed.

Lemma creer_fiche_word_layout_witness :
  exists doc table,
    creer_fiche_word env_all_fine infos_empty
    = (Ok doc, [docx_new_Document; docx_save doc]) /\
    doc
    = [ Paragraph (py "REPUBLIQUE DE COTE D'IVOIRE" ++ [NL] ++
                   py "Union - Discipline - Travail") CENTER;
        Heading (py "RAPPORT DE CORRECTION PEDAGOGIQUE IA") 0;
        TableBlock table;
        Paragraph ([NL] ++ py "Document généré le : " ++
                   isoformat (date_today env_all_fine)) LEFT;
        Paragraph (py "------------------------------------------------------------")
          LEFT;
        Paragraph
          (py "Pour tout besoin en intelligence artificielle, contactez le Techno Djieh " ++
           py "au +225 0757283553 ou au mail : bitahdhiehd@gmail.com") CENTER ].
Proof.
  apply (creer_fiche_word_layout env_all_fine infos_empty [] [] [] [] [] [] []);
    vm_compute; reflexivity.
Defined.

(** X5. When one of the seven keys is absent from [infos],
    [creer_fiche_word] raises [KeyError] for the first absent key (in the
    order enseignant, eleve, matiere, niveau, note, commentaire, axes); a
    document has been created by then, and nothing is saved. *)
Theorem creer_fiche_word_missing_key e (infos : gmap string str) (key : string) :
  List.find (fun k => negb (is_some (infos !! k))) cles = Some key ->
  creer_fiche_word e infos
  = (Raise (Exception "KeyError" (py "'" ++ py key ++ py "'")), [docx_new_Document]).
Proof.
  unfold cles, List.find, creer_fiche_word, getitem.
  destruct (infos !! "enseignant"); cbn [is_some negb];
    [|intros [= <-]; vm_compute; reflexivity].
  destruct (infos !! "eleve"); cbn [is_some negb];
    [|intros [= <-]; vm_compute; reflexivity].
  destruct (infos !! "matiere"); cbn [is_some negb];
    [|intros [= <-]; vm_compute; reflexivity].
  destruct (infos !! "niveau"); cbn [is_some negb];
    [|intros [= <-]; vm_compute; reflexivity].
  destruct (infos !! "note"); cbn [is_some negb];
    [|intros [= <-]; vm_compute; reflexivity].
  destruct (infos !! "commentaire"); cbn [is_some negb];
    [|intros [= <-]; vm_compute; reflexivity].
  destruct (infos !! "axes"); cbn [is_some negb];
    [|intros [= <-]; vm_compute; reflexivity].
  discriminate.
Qed.

Lemma creer_fiche_word_missing_key_witness :
  creer_fiche_word env_all_fine infos_sans_note
  = (Raise (Exception "KeyError" (py "'" ++ py "note" ++ py "'")), [docx_new_Document]).
Proof.
  apply (creer_fiche_word_missing_key env_all_fine infos_sans_note "note").
  vm_compute. reflexivity.
Defined.

(** ** Analyse IA *)

(** X6. Whatever the model does, [analyser_avec_gemini] returns a tuple and
    calls the model exactly once, with the prompt: there is no second
    attempt after a failure. *)
Theorem analyser_avec_gemini_single_call e texte_ref texte_eleve matiere niveau style :
  exists r,
    analyser_avec_gemini e texte_ref texte_eleve matiere niveau style
    = (Ok r,
       [model_generate_content (prompt texte_ref texte_eleve matiere niveau style)]).
Proof.
  destruct (gemini e (prompt texte_ref texte_eleve matiere niveau style))
    as [res|ex] eqn:Hg.
  - rewrite (analyser_ok _ _ _ _ _ _ _ Hg). eauto.
  - rewrite (analyser_raise _ _ _ _ _ _ _ Hg). eauto.
Qed.

(** *** Parts of a string *)

Lemma contains_refl (s : str) : contains s s.
Proof. exists [], []. simpl. by rewrite app_nil_r. Qed.

Lemma contains_trans (a b c : str) : contains a b -> contains b c -> contains a c.
Proof.
  intros (x & y & ->) (x' & y' & ->). exists (x' ++ x), (y ++ y').
  by list_norm.
Qed.

Lemma contains_In (c : char) (sub s : str) : contains (c :: sub) s -> In c s.
Proof.
  intros (a & b & ->). apply in_or_app. right. left. reflexivity.
Qed.

Lemma lstrip_head (s : str) :
  match lstrip s with [] => True | c :: _ => isspace c = false end.
Proof.
  induction s as [|c s IH]; simpl; [done|].
  destruct (isspace c) eqn:E; [exact IH|exact E].
Qed.

Lemma lstrip_fixed (s : str) :
  match s with [] => True | c :: _ => isspace c = false end -> lstrip s = s.
Proof. destruct s as [|c s]; simpl; [done|]. by intros ->. Qed.

Lemma lstrip_idem (s : str) : lstrip (lstrip s) = lstrip s.
Proof. apply lstrip_fixed, lstrip_head. Qed.

Lemma rstrip_idem (s : str) : rstrip (rstrip s) = rstrip s.
Proof. unfold rstrip. by rewrite rev_involutive, lstrip_idem. Qed.

Lemma strip_contains (s : str) : contains (strip s) s.
Proof.
  unfold strip. destruct (lstrip_suffix s) as (w & Hw & _).
  destruct (rstrip_prefix (lstrip s)) as (w' & Hw' & _).
  exists w, w'. rewrite <- Hw'. exact Hw.
Qed.

(** [strip] leaves no space at either end. *)
Lemma strip_idem (s : str) : strip (strip s) = strip s.
Proof.
  unfold strip.
  assert (lstrip (rstrip (lstrip s)) = rstrip (lstrip s)) as ->.
  { apply lstrip_fixed.
    destruct (rstrip_prefix (lstrip s)) as (w & Hw & _).
    pose proof (lstrip_head s) as Hh.
    destruct (rstrip (lstrip s)) as [|c r]; [done|].
    rewrite Hw in Hh. exact Hh. }
  apply rstrip_idem.
Qed.

(** X7. The parser invents no text: each of the four values it returns is
    either its fallback ("Non généré", "10") or a contiguous part of the
    model's reply. *)
Theorem extraction_values_come_from_reply (res : str) :
  (commentaire_of (extraction res) = NON_GENERE \/
   contains (commentaire_of (extraction res)) res) /\
  (axes_of (extraction res) = NON_GENERE \/
   contains (axes_of (extraction res)) res) /\
  (points_forts_of (extraction res) = NON_GENERE \/
   contains (points_forts_of (extraction res)) res) /\
  (note_of (extraction res) = py "10" \/
   contains (note_of (extraction res)) res).
Proof.
  rewrite extraction_fields.
  unfold commentaire_of, axes_of, points_forts_of, note_of. cbn [fst snd].
  rewrite pat_comm_eq, pat_axes_eq, pat_pf_eq, pat_note_eq.
  repeat split.
  - destruct (search _ res) as [g|] eqn:E; [right|by left].
    apply between_search_sound in E as (a & u & v & w & t & -> & _).
    apply (contains_trans _ g); [apply strip_contains|].
    exists (a ++ LABEL_COMM ++ u ++ COLON :: v), (NL :: w ++ LABEL_AXES ++ t).
    by list_norm.
  - destruct (search _ res) as [g|] eqn:E; [right|by left].
    apply between_search_sound in E as (a & u & v & w & t & -> & _).
    apply (contains_trans _ g); [apply strip_contains|].
    exists (a ++ LABEL_AXES ++ u ++ COLON :: v), (NL :: w ++ LABEL_PF ++ t).
    by list_norm.
  - destruct (search _ res) as [g|] eqn:E; [right|by left].
    apply between_search_sound in E as (a & u & v & w & t & -> & _).
    apply (contains_trans _ g); [apply strip_contains|].
    exists (a ++ LABEL_PF ++ u ++ COLON :: v), (NL :: w ++ LABEL_NOTE ++ t).
    by list_norm.
  - destruct (search _ res) as [g|] eqn:E; [right|by left].
    apply number_search_sound in E as (_ & _ & a & u & v & t & -> & _).
    exists (a ++ LABEL_NOTE ++ u ++ COLON :: v), t. by list_norm.
Qed.

(** X8. The three text values are always trimmed: trimming them again
    changes nothing, whether they are captures or the fallback. *)
Theorem extraction_texts_are_trimmed (res : str) :
  strip (commentaire_of (extraction res)) = commentaire_of (extraction res) /\
  strip (axes_of (extraction res)) = axes_of (extraction res) /\
  strip (points_forts_of (extraction res)) = points_forts_of (extraction res).
Proof.
  rewrite extraction_fields.
  unfold commentaire_of, axes_of, points_forts_of. cbn [fst snd].
  assert (strip NON_GENERE = NON_GENERE) as Hf by (vm_compute; reflexivity).
  repeat split; destruct (search _ res); auto using strip_idem.
Qed.

(** *** The lazy capture stops at the first chance *)

Lemma lazy_sound_min {R} (c : cclass) (k : str -> option R) s r :
  lazy c k s = Some r ->
  exists u t, s = u ++ t /\ k t = Some r /\
    forall u1 u2, u = u1 ++ u2 -> u2 <> [] -> k (u2 ++ t) = None.
Proof.
  induction s as [|x s IH]; simpl; intros H.
  - destruct (k []) eqn:E; [|discriminate]. exists [], []. rewrite E.
    split; [done|]. split; [done|]. intros u1 u2 Hu. by destruct u1, u2.
  - destruct (k (x :: s)) eqn:E.
    + exists [], (x :: s). rewrite E. split; [done|]. split; [done|].
      intros u1 u2 Hu. by destruct u1, u2.
    + destruct (accepts c x); [|discriminate].
      destruct (IH H) as (u & t & -> & Hk & Hmin).
      exists (x :: u), t. split; [done|]. split; [done|].
      intros u1 u2 Hu Hne. destruct u1 as [|y u1].
      * simpl in Hu. subst u2. exact E.
      * injection Hu as -> ->. by apply (Hmin u1 u2).
Qed.

Lemma between_capture_minimal L1 L2 res g w :
  search (between_pattern L1 L2) res = Some g ->
  forallb isspace w = true ->
  ~ contains (NL :: w ++ L2) g.
Proof.
  intros Hs Hw (g1 & g2 & Hg).
  apply ReFacts.search_sound in Hs as (a & s' & -> & Hm).
  unfold match_at in Hm. cbn [before inside after between_pattern] in Hm.
  apply ReFacts.run_sound in Hm as (w1 & s1 & -> & _ & Hm).
  cbn [run] in Hm.
  apply lazy_sound_min in Hm as (u & t & -> & Hk & Hmin).
  assert (g = u) as ->.
  { apply ReFacts.run_sound in Hk as (w3 & t' & -> & _ & Hk).
    injection Hk as <-.
    rewrite length_app, Nat.add_sub, take_app_length. done. }
  subst u.
  specialize (Hmin g1 ((NL :: w ++ L2) ++ g2) eq_refl).
  assert ((NL :: w ++ L2) ++ g2 <> []) as Hne by done.
  specialize (Hmin Hne).
  assert (Lang ([Rep (CChar NL) Once; Rep CSpace Star] ++ lit L2) (NL :: w ++ L2))
    as HL by (apply Lang_newline_label; eauto).
  match type of Hmin with
  | run ?p ?k _ = None =>
    set (K := k) in Hmin;
    destruct (ReFacts.run_complete p K (NL :: w ++ L2) (g2 ++ t) _ HL eq_refl)
      as [r' Hr']
  end.
  rewrite <- app_assoc in Hmin. rewrite Hmin in Hr'. discriminate.
Qed.

Lemma fallback_has_no_newline sub : ~ contains (NL :: sub) NON_GENERE.
Proof.
  intros H. apply contains_In in H. vm_compute in H.
  repeat destruct H as [H|H]; try discriminate H. exact H.
Qed.

(** X9. A text value stops at the first line that starts with the label
    that follows: the comment holds no newline followed (after optional
    spaces) by "Axes d'amélioration", the improvement axes none followed by
    "Points forts", the strengths none followed by "Note indicative". *)
Theorem extraction_stops_at_next_label (res w : str) :
  forallb isspace w = true ->
  ~ contains (NL :: w ++ LABEL_AXES) (commentaire_of (extraction res)) /\
  ~ contains (NL :: w ++ LABEL_PF) (axes_of (extraction res)) /\
  ~ contains (NL :: w ++ LABEL_NOTE) (points_forts_of (extraction res)).
Proof.
  intros Hw. rewrite extraction_fields.
  unfold commentaire_of, axes_of, points_forts_of. cbn [fst snd].
  rewrite pat_comm_eq, pat_axes_eq, pat_pf_eq.
  repeat split.
  - destruct (search _ res) as [g|] eqn:E; [|apply fallback_has_no_newline].
    intros H. apply (between_capture_minimal _ _ _ _ w E Hw).
    eapply contains_trans; [exact H|apply strip_contains].
  - destruct (search _ res) as [g|] eqn:E; [|apply fallback_has_no_newline].
    intros H. apply (between_capture_minimal _ _ _ _ w E Hw).
    eapply contains_trans; [exact H|apply strip_contains].
  - destruct (search _ res) as [g|] eqn:E; [|apply fallback_has_no_newline].
    intros H. apply (between_capture_minimal _ _ _ _ w E Hw).
    eapply contains_trans; [exact H|apply strip_contains].
Qed.

Lemma extraction_stops_at_next_label_witness :
  ~ contains (NL :: py "  " ++ LABEL_AXES) (commentaire_of (extraction reply_well_formed)) /\
  ~ contains (NL :: py "  " ++ LABEL_PF) (axes_of (extraction reply_well_formed)) /\
  ~ contains (NL :: py "  " ++ LABEL_NOTE)
      (points_forts_of (extraction reply_well_formed)).
Proof.
  apply (extraction_stops_at_next_label reply_well_formed (py "  ")).
  vm_compute. reflexivity.
Defined.

(** *** Where the score is read *)

Lemma search_complete p a s g :
  match_at p s = Some g -> exists g', search p (a ++ s) = Some g'.
Proof.
  intros H. induction a as [|c a IH]; simpl.
  - exists g. by apply ReFacts.search_here.
  - destruct (match_at p (c :: a ++ s)); eauto.
Qed.

Lemma digits_run (t : str) :
  exists ds rest, t = ds ++ rest /\ forallb isdecimal ds = true /\
    match rest with [] => True | x :: _ => isdecimal x = false end.
Proof.
  induction t as [|x t IH].
  - exists [], []. done.
  - destruct (isdecimal x) eqn:E.
    + destruct IH as (ds & rest & -> & Hd & Hr). exists (x :: ds), rest.
      simpl. rewrite E, Hd. done.
    + exists [], (x :: t). done.
Qed.

Lemma note_site_search res : note_site res -> exists g, search pat_note res = Some g.
Proof.
  intros (a & u & v & d & t & -> & Hu & Hv & Hd).
  destruct (digits_run t) as (ds & rest & -> & Hds & Hrest).
  rewrite pat_note_eq.
  apply (search_complete _ a _ (d :: ds)).
  apply (number_match_at LABEL_NOTE u v (d :: ds) rest); try done.
  simpl. by rewrite Hd, Hds.
Qed.

(** The capture of the score pattern is a whole run of digits. *)
Lemma number_search_whole_run L res g :
  search (number_pattern L) res = Some g ->
  exists a u v t, res = a ++ L ++ u ++ COLON :: v ++ g ++ t /\
    forallb isspace u = true /\ forallb isspace v = true /\
    g <> [] /\ forallb isdecimal g = true /\
    match t with [] => True | x :: _ => isdecimal x = false end.
Proof.
  intros Hs. apply ReFacts.search_sound in Hs as (a & s' & -> & Hm).
  pose proof Hm as Hshape.
  apply ReFacts.match_at_sound in Hshape as (m1 & m3 & t & -> & Hm1 & Hg & Hm3).
  cbn [before inside after number_pattern] in Hm1, Hg, Hm3.
  apply Lang_label_colon in Hm1 as (u & v & -> & Hu & Hv).
  apply Lang_digits in Hg as [Hne Hd]. cbn [Lang] in Hm3. subst m3.
  destruct (digits_run t) as (ds & rest & -> & Hds & Hrest).
  assert (match_at (number_pattern L)
            (L ++ u ++ COLON :: v ++ (g ++ ds) ++ rest) = Some (g ++ ds)) as Hm'.
  { apply number_match_at; try done.
    - destruct g; [done|discriminate].
    - by rewrite forallb_app, Hd, Hds. }
  assert ((L ++ u ++ COLON :: v) ++ g ++ [] ++ ds ++ rest
          = L ++ u ++ COLON :: v ++ (g ++ ds) ++ rest) as E by (by list_norm).
  rewrite E, Hm' in Hm. injection Hm as Hm.
  rewrite <- (app_nil_r g) in Hm at 2. apply app_inv_head in Hm. subst ds.
  exists a, u, v, rest. split; [by list_norm|]. done.
Qed.

(** X10. The score is read at a place where the label "Note indicative" is
    followed by optional spaces, a colon, optional spaces and a digit: when
    the reply has no such place the score is the fallback "10"; when it has
    one, the score is a whole run of digits standing at such a place (the
    character after it, if any, is not a digit). *)
Theorem note_read_at_a_site (res : str) :
  (~ note_site res -> note_of (extraction res) = py "10") /\
  (note_site res ->
   exists a u v t,
     res = a ++ LABEL_NOTE ++ u ++ COLON :: v ++ note_of (extraction res) ++ t /\
     forallb isspace u = true /\ forallb isspace v = true /\
     note_of (extraction res) <> [] /\
     forallb isdecimal (note_of (extraction res)) = true /\
     match t with [] => True | x :: _ => isdecimal x = false end).
Proof.
  rewrite extraction_fields. unfold note_of. cbn [snd]. rewrite pat_note_eq. split.
  - intros Hno. destruct (search _ res) as [g|] eqn:E; [exfalso|done].
    apply number_search_whole_run in E
      as (a & u & v & t & -> & Hu & Hv & Hne & Hd & _).
    apply Hno. destruct g as [|d g]; [done|]. simpl in Hd.
    apply andb_true_iff in Hd as [Hd _].
    exists a, u, v, d, (g ++ t). done.
  - intros Hsite. apply note_site_search in Hsite as [g Hg].
    rewrite pat_note_eq in Hg. rewrite Hg.
    by apply number_search_whole_run in Hg.
Qed.

Lemma note_read_at_a_site_witness :
  note_of (extraction reply_note_after_word) = py "10" /\
  exists a u v t,
    reply_note_only
    = a ++ LABEL_NOTE ++ u ++ COLON :: v ++ note_of (extraction reply_note_only) ++ t /\
    forallb isspace u = true /\ forallb isspace v = true /\
    note_of (extraction reply_note_only) <> [] /\
    forallb isdecimal (note_of (extraction reply_note_only)) = true /\
    match t with [] => True | x :: _ => isdecimal x = false end.
Proof.
  split.
  - apply (proj1 (note_read_at_a_site reply_note_after_word)).
    intros Hsite. apply note_site_search in Hsite as [g Hg].
    vm_compute in Hg. discriminate Hg.
  - apply (proj2 (note_read_at_a_site reply_note_only)).
    exists (py "Bilan. "), (py " "), (py " "), 49%N, (py "5/20").
    vm_compute. done.
Defined.

(** *** The format the prompt asks for *)

Lemma find_head sub s : startswith sub s = true -> find sub s = Some 0.
Proof. intros H. destruct s; simpl; by rewrite H. Qed.

Lemma find_unique sub a b :
  occurrences sub (a ++ sub ++ b) = 1 -> find sub (a ++ sub ++ b) = Some (length a).
Proof.
  induction a as [|c a IH]; intros Hocc.
  - cbn [app length]. apply find_head, startswith_app.
  - simpl in Hocc |- *. pose proof (occurrences_app_ge sub a b) as Hge.
    destruct (startswith sub (c :: a ++ sub ++ b)); [lia|].
    rewrite IH by lia. reflexivity.
Qed.

Lemma label_with_colon :
  py "Commentaire pédagogique :" = LABEL_COMM ++ [32%N; COLON] /\
  py "Axes d'amélioration :" = LABEL_AXES ++ [32%N; COLON] /\
  py "Points forts :" = LABEL_PF ++ [32%N; COLON] /\
  py "Note indicative :" = LABEL_NOTE ++ [32%N; COLON] /\
  py ".../20" = py "..." ++ py "/20" /\
  py "/20" = SLASH :: py "20".
Proof. repeat split; vm_compute; reflexivity. Qed.

Lemma reponse_type_parts c a p n :
  reponse_type c a p n
  = LABEL_COMM ++ [32%N] ++ COLON :: ((NL :: c ++ [NL]) ++ NL :: [])
      ++ LABEL_AXES ++ [32%N] ++ COLON :: ((NL :: a ++ [NL]) ++ NL :: [])
      ++ LABEL_PF ++ [32%N] ++ COLON :: ((NL :: p ++ [NL]) ++ NL :: [])
      ++ LABEL_NOTE ++ ([32%N] ++ COLON :: [NL] ++ n ++ SLASH :: py "20" ++ [NL]).
Proof.
  unfold reponse_type.
  destruct label_with_colon as (-> & -> & -> & -> & _ & ->). by list_norm.
Qed.

Lemma strip_between_newlines c : strip ((NL :: c ++ [NL]) ++ NL :: []) = strip c.
Proof.
  assert ((NL :: c ++ [NL]) ++ NL :: [] = [NL] ++ c ++ [NL; NL]) as -> by (by list_norm).
  apply strip_spaces; reflexivity.
Qed.

(** X11. The prompt and the parser agree on the format: the prompt ends
    with the four labelled sections (each with dots for its content), and a
    reply made of any introduction followed by these sections filled in is
    parsed back to its contents: the three texts trimmed, and the digits of
    the score; provided each label occurs once in the reply. *)
Theorem reponse_type_round_trip :
  (forall texte_ref texte_eleve matiere niveau style,
     exists head,
       prompt texte_ref texte_eleve matiere niveau style
       = head ++ reponse_type (py "...") (py "...") (py "...") (py "...")) /\
  (forall intro c a p n,
     occurrences LABEL_COMM (intro ++ reponse_type c a p n) = 1 ->
     occurrences LABEL_AXES (intro ++ reponse_type c a p n) = 1 ->
     occurrences LABEL_PF (intro ++ reponse_type c a p n) = 1 ->
     occurrences LABEL_NOTE (intro ++ reponse_type c a p n) = 1 ->
     n <> [] -> forallb isdecimal n = true ->
     extraction (intro ++ reponse_type c a p n) = (strip c, strip a, strip p, n)).
Proof.
  split.
  - intros texte_ref texte_eleve matiere niveau style.
    exists ([NL] ++
            py "Tu es un expert pédagogique niveau " ++ niveau ++ py "." ++ [NL] ++
            py "Matière : " ++ matiere ++ [NL] ++
            py "Style : " ++ consigne_style style ++ [NL] ++
            [NL] ++
            py "CORRIGÉ :" ++ [NL] ++
            texte_ref ++ [NL] ++
            [NL] ++
            py "COPIE ÉLÈVE :" ++ [NL] ++
            texte_eleve ++ [NL] ++
            [NL] ++
            py "Répond STRICTEMENT sous ce format :" ++ [NL] ++
            [NL]).
    unfold prompt, reponse_type.
    destruct label_with_colon as (_ & _ & _ & _ & -> & _). by list_norm.
  - intros intro c a p n Ho1 Ho2 Ho3 Ho4 Hne Hd.
    set (res := intro ++ reponse_type c a p n) in *.
    assert (res
            = intro ++ LABEL_COMM ++ [32%N] ++ COLON :: ((NL :: c ++ [NL]) ++ NL :: [])
                ++ LABEL_AXES ++ [32%N] ++ COLON :: ((NL :: a ++ [NL]) ++ NL :: [])
                ++ LABEL_PF ++ [32%N] ++ COLON :: ((NL :: p ++ [NL]) ++ NL :: [])
                ++ LABEL_NOTE
                ++ ([32%N] ++ COLON :: [NL] ++ n ++ SLASH :: py "20" ++ [NL])) as Hres.
    { unfold res. by rewrite reponse_type_parts. }
    destruct (extraction_between (env_reply res) [] [] [] [] [] res
                intro [32%N] (NL :: c ++ [NL]) []
                [32%N] (NL :: a ++ [NL]) []
                [32%N] (NL :: p ++ [NL]) []
                ([32%N] ++ COLON :: [NL] ++ n ++ SLASH :: py "20" ++ [NL])
                eq_refl Hres Ho1 Ho2 Ho3 Ho4
                eq_refl eq_refl eq_refl eq_refl eq_refl eq_refl) as [note Hn].
    rewrite (analyser_ok _ _ _ _ _ _ res) in Hn by reflexivity.
    assert (extraction res
            = (strip ((NL :: c ++ [NL]) ++ NL :: []),
               strip ((NL :: a ++ [NL]) ++ NL :: []),
               strip ((NL :: p ++ [NL]) ++ NL :: []), note)) as Hx
      by (apply (f_equal fst) in Hn; cbn [fst] in Hn; congruence).
    clear Hn. rename Hx into Hn.
    assert (note_of (extraction res) = n) as Hnote.
    { rewrite extraction_fields. unfold note_of. cbn [snd]. rewrite pat_note_eq.
      assert (res
              = (intro ++ LABEL_COMM ++ [32%N] ++ COLON :: ((NL :: c ++ [NL]) ++ NL :: [])
                   ++ LABEL_AXES ++ [32%N] ++ COLON :: ((NL :: a ++ [NL]) ++ NL :: [])
                   ++ LABEL_PF ++ [32%N] ++ COLON :: ((NL :: p ++ [NL]) ++ NL :: []))
                  ++ LABEL_NOTE ++ [32%N] ++ COLON :: [NL] ++ n
                  ++ (SLASH :: py "20" ++ [NL])) as Hres'.
      { rewrite Hres. by list_norm. }
      rewrite Hres' in Ho4 |- *.
      rewrite (number_search LABEL_NOTE _ [32%N] [NL] n (SLASH :: py "20" ++ [NL]));
        try done.
      by apply find_unique. }
    rewrite Hn in Hnote |- *. unfold note_of in Hnote. cbn [snd] in Hnote.
    subst note. rewrite !strip_between_newlines. reflexivity.
Qed.

Lemma reponse_type_round_trip_witness :
  extraction ((py "Voici ma correction." ++ [NL]) ++
              reponse_type (py "Bon devoir.") (py "Soigner l'orthographe.")
                (py "Plan clair.") (py "14"))
  = (strip (py "Bon devoir."), strip (py "Soigner l'orthographe."),
     strip (py "Plan clair."), py "14").
Proof.
  apply (proj2 reponse_type_round_trip (py "Voici ma correction." ++ [NL])
           (py "Bon devoir.") (py "Soigner l'orthographe.") (py "Plan clair.")
           (py "14")).
  - vm_compute. reflexivity.
  - vm_compute. reflexivity.
  - vm_compute. reflexivity.
  - vm_compute. reflexivity.
  - vm_compute. discriminate.
  - vm_compute. reflexivity.
Defined.

(** *** Replies on one line *)

Lemma not_In_char (c : char) (s : str) : existsb (N.eqb c) s = false -> ~ In c s.
Proof.
  intros Hex Hin. assert (existsb (N.eqb c) s = true); [|congruence].
  apply existsb_exists. exists c. split; [done|apply N.eqb_refl].
Qed.

(** X12. A reply without any newline gives no text value: the comment, the
    improvement axes and the strengths are all "Non généré", whatever
    labels the line holds. *)
Theorem single_line_reply_has_no_text (res : str) :
  ~ In NL res ->
  commentaire_of (extraction res) = NON_GENERE /\
  axes_of (extraction res) = NON_GENERE /\
  points_forts_of (extraction res) = NON_GENERE.
Proof.
  intros Hn. rewrite extraction_fields, pat_comm_eq, pat_axes_eq, pat_pf_eq.
  rewrite !between_search_needs_newline by done. done.
Qed.

Lemma single_line_reply_has_no_text_witness :
  commentaire_of (extraction reply_one_line) = NON_GENERE /\
  axes_of (extraction reply_one_line) = NON_GENERE /\
  points_forts_of (extraction reply_one_line) = NON_GENERE.
Proof.
  apply (single_line_reply_has_no_text reply_one_line).
  apply not_In_char. vm_compute. reflexivity.
Defined.

(** ** The handler, past the gate *)

Lemma lire_docx_returns e f :
  exists s t, lire_docx e f = (Ok s, t) /\ forallb is_reading t = true.
Proof.
  unfold lire_docx, try_except, bind, emit, lift, ret.
  destruct (python_docx e f); eauto.
Qed.

Lemma lire_pdf_returns e f :
  exists s t, lire_pdf e f = (Ok s, t) /\ forallb is_reading t = true.
Proof.
  unfold lire_pdf, try_except, bind, emit, lift, ret.
  destruct (pymupdf e (file_bytes f)) as [pages|ex]; [|eauto].
  destruct (lire_pages_result pages []) as (r & -> & _).
  destruct r; eauto.
Qed.

Lemma lire_image_returns e f :
  exists s t, lire_image e f = (Ok s, t) /\ forallb is_reading t = true.
Proof.
  unfold lire_image, try_except, bind, emit, lift, ret.
  destruct (pil e f) as [img|ex]; [|eauto].
  destruct (tesseract e img (py "fra")); eauto.
Qed.

Lemma texte_reference_returns e fichier_ref :
  exists s t, texte_reference e fichier_ref = (Ok s, t) /\ forallb is_reading t = true.
Proof.
  destruct fichier_ref as [f|]; [apply lire_docx_returns|].
  exists [], []. done.
Qed.

Lemma texte_copie_returns e type_doc f :
  exists s t, texte_copie e type_doc f = (Ok s, t) /\ forallb is_reading t = true.
Proof.
  unfold texte_copie.
  destruct (str_eqb type_doc (py "DOCX")); [apply lire_docx_returns|].
  destruct (str_eqb type_doc (py "PDF")); [apply lire_pdf_returns|].
  apply lire_image_returns.
Qed.

(** The run of the handler, from the results of its parts. *)
Lemma handler_eval e enseignant eleve matiere niveau style fichier_ref type_doc
    fichier_eleve texte_ref t_ref texte_eleve t_eleve c a p n rd :
  truthy eleve = true -> truthy matiere = true ->
  texte_reference e fichier_ref = (Ok texte_ref, t_ref) ->
  texte_copie e type_doc fichier_eleve = (Ok texte_eleve, t_eleve) ->
  analyser_avec_gemini e texte_ref texte_eleve matiere niveau style
  = (Ok (c, a, p, n),
     [model_generate_content (prompt texte_ref texte_eleve matiere niveau style)]) ->
  creer_fiche_word e (build_infos enseignant eleve matiere niveau n c a)
  = (rd, docx_new_Document ::
         match rd with Ok doc => [docx_save doc] | Raise _ => [] end) ->
  lancer_la_correction e enseignant eleve matiere niveau style
    fichier_ref type_doc (Some fichier_eleve)
  = ((fin_de_traitement rd eleve).1,
     t_ref ++ t_eleve ++
     [st_spinner (py "Analyse IA en cours...");
      model_generate_content (prompt texte_ref texte_eleve matiere niveau style)] ++
     affichage c a p n ++ (fin_de_traitement rd eleve).2).
Proof.
  intros He Hm Href Hcopie Han Hdoc.
  unfold lancer_la_correction. rewrite He, Hm. cbn [andb is_some].
  unfold texte_reference in Href. unfold texte_copie in Hcopie.
  rewrite Href. cbn [bind]. rewrite Hcopie. cbn [bind emit].
  rewrite Han. cbn [bind emit]. rewrite Hdoc.
  destruct rd; cbn [bind emit fin_de_traitement fst snd]; unfold affichage; f_equal.
Qed.

Lemma analyser_returns e texte_ref texte_eleve matiere niveau style :
  exists c a p n,
    analyser_avec_gemini e texte_ref texte_eleve matiere niveau style
    = (Ok (c, a, p, n),
       [model_generate_content (prompt texte_ref texte_eleve matiere niveau style)]).
Proof.
  destruct (gemini e (prompt texte_ref texte_eleve matiere niveau style))
    as [res|ex] eqn:Hg.
  - rewrite (analyser_ok _ _ _ _ _ _ _ Hg).
    destruct (extraction res) as [[[c a] p] n]. eauto.
  - rewrite (analyser_raise _ _ _ _ _ _ _ Hg). eauto.
Qed.

Lemma gate_closed e enseignant eleve matiere niveau style fichier_ref type_doc
    fichier_eleve :
  truthy eleve && truthy matiere && is_some fichier_eleve = false ->
  lancer_la_correction e enseignant eleve matiere niveau style
    fichier_ref type_doc fichier_eleve
  = (Ok tt,
     [st_error (py "⚠️ Remplis tous les champs et ajoute la copie de l'élève.")]).
Proof. intros H. unfold lancer_la_correction. rewrite H. reflexivity. Qed.

(** The run past the gate, with the parts it is made of: the texts are
    read, the model is called once, the four results are shown, and the
    report is written or refused. *)
Lemma handler_run e enseignant eleve matiere niveau style fichier_ref type_doc
    fichier_eleve :
  truthy eleve = true -> truthy matiere = true ->
  exists texte_ref t_ref texte_eleve t_eleve c a p n rd,
    texte_reference e fichier_ref = (Ok texte_ref, t_ref) /\
    forallb is_reading t_ref = true /\
    texte_copie e type_doc fichier_eleve = (Ok texte_eleve, t_eleve) /\
    forallb is_reading t_eleve = true /\
    analyser_avec_gemini e texte_ref texte_eleve matiere niveau style
    = (Ok (c, a, p, n),
       [model_generate_content (prompt texte_ref texte_eleve matiere niveau style)]) /\
    ((values_compatible enseignant eleve matiere niveau n c a = true /\
      rd = Ok (rapport (isoformat (date_today e)) (line_feeds enseignant)
                 (line_feeds eleve) (line_feeds matiere) (line_feeds niveau)
                 (line_feeds n) (line_feeds c) (line_feeds a))) \/
     (values_compatible enseignant eleve matiere niveau n c a = false /\
      exists ex, rd = Raise ex /\ refused ex /\
        (values_no_surrogate enseignant eleve matiere niveau n c a = true ->
         ex = XML_ERROR))) /\
    lancer_la_correction e enseignant eleve matiere niveau style
      fichier_ref type_doc (Some fichier_eleve)
    = ((fin_de_traitement rd eleve).1,
       t_ref ++ t_eleve ++
       [st_spinner (py "Analyse IA en cours...");
        model_generate_content (prompt texte_ref texte_eleve matiere niveau style)] ++
       affichage c a p n ++ (fin_de_traitement rd eleve).2).
Proof.
  intros He Hm.
  destruct (texte_reference_returns e fichier_ref) as (texte_ref & t_ref & Href & Hr1).
  destruct (texte_copie_returns e type_doc fichier_eleve)
    as (texte_eleve & t_eleve & Hcopie & Hr2).
  destruct (analyser_returns e texte_ref texte_eleve matiere niveau style)
    as (c & a & p & n & Han).
  destruct (build_infos_lookup enseignant eleve matiere niveau n c a)
    as (H1 & H2 & H3 & H4 & H5 & H6 & H7).
  destruct (creer_fiche_word_cases e _ _ _ _ _ _ _ _ H1 H2 H3 H4 H5 H6 H7)
    as (rd & Hdoc & Hrd).
  exists texte_ref, t_ref, texte_eleve, t_eleve, c, a, p, n, rd.
  split; [done|]. split; [done|]. split; [done|]. split; [done|].
  split; [done|]. split; [done|].
  by apply handler_eval.
Qed.

Lemma filter_reading (f : event -> bool) t :
  (forall ev, is_reading ev = true -> f ev = false) ->
  forallb is_reading t = true -> List.filter f t = [].
Proof.
  intros Hf. induction t as [|ev t IH]; simpl; [done|].
  intros H. apply andb_true_iff in H as [Hev Ht].
  rewrite (Hf ev Hev). auto.
Qed.

(** What is counted in the part of a run that comes before the report. *)
Lemma counts_before_report t_ref t_eleve prompt c a p n :
  forallb is_reading t_ref = true -> forallb is_reading t_eleve = true ->
  let t0 := t_ref ++ t_eleve ++
            [st_spinner (py "Analyse IA en cours..."); model_generate_content prompt] ++
            affichage c a p n in
  count_events is_model_call t0 = 1 /\
  count_events is_save t0 = 0 /\ count_events is_download t0 = 0.
Proof.
  intros Hr1 Hr2 t0. unfold t0, count_events. rewrite !List.filter_app.
  rewrite !(filter_reading _ t_ref), !(filter_reading _ t_eleve);
    try done; try (by intros []).
Qed.

Lemma count_events_app {E} (f : E -> bool) t1 t2 :
  count_events f (t1 ++ t2) = count_events f t1 + count_events f t2.
Proof. unfold count_events. by rewrite List.filter_app, length_app. Qed.

Lemma count_events_tail (f : event -> bool) t_ref t_eleve t_model t_show tail :
  count_events f (t_ref ++ t_eleve ++ t_model ++ t_show ++ tail)
  = count_events f (t_ref ++ t_eleve ++ t_model ++ t_show) + count_events f tail.
Proof. rewrite <- count_events_app. f_equal. by rewrite <- !app_assoc. Qed.

(** How the handler ends, whatever it is given. *)
Lemma handler_ends e enseignant eleve matiere niveau style
    fichier_ref type_doc fichier_eleve :
  exists r t,
    lancer_la_correction e enseignant eleve matiere niveau style
      fichier_ref type_doc fichier_eleve = (r, t) /\
    (r = Ok tt \/
     exists ex t0, r = Raise ex /\ refused ex /\ t = t0 ++ [docx_new_Document] /\
       count_events is_model_call t = 1 /\
       count_events is_save t = 0 /\ count_events is_download t = 0).
Proof.
  destruct (truthy eleve && truthy matiere && is_some fichier_eleve) eqn:Hgate.
  - apply andb_true_iff in Hgate as [Hgate Hf].
    apply andb_true_iff in Hgate as [He Hm].
    destruct fichier_eleve as [f|]; [|discriminate].
    destruct (handler_run e enseignant eleve matiere niveau style fichier_ref
                type_doc f He Hm)
      as (texte_ref & t_ref & texte_eleve & t_eleve & c & a & p & n & rd
          & _ & Hr1 & _ & Hr2 & _ & Hrd & Hrun).
    do 2 eexists. split; [exact Hrun|].
    destruct Hrd as [[_ ->]|[_ (ex & -> & Hex & _)]]; [by left|right].
    cbn [fin_de_traitement fst snd].
    destruct (counts_before_report t_ref t_eleve
                (prompt texte_ref texte_eleve matiere niveau style) c a p n Hr1 Hr2)
      as (N1 & N2 & N3).
    exists ex. eexists. split; [done|]. split; [done|].
    split; [by rewrite !app_assoc|].
    rewrite !count_events_tail, N1, N2, N3. done.
  - rewrite gate_closed by done. do 2 eexists. split; [done|]. by left.
Qed.

(** X13. The only exception the handler lets out is the refusal of a text
    by the report ([ValueError], or its subclass [UnicodeEncodeError]):
    whatever the inputs, the files and the libraries do, a run either ends
    normally or ends on that exception, and then it has called the model
    once, its last act was to create the document, and nothing was saved or
    offered for download. *)
Theorem lancer_la_correction_raises_only_refusals e enseignant eleve matiere niveau
    style fichier_ref type_doc fichier_eleve :
  exists r t,
    lancer_la_correction e enseignant eleve matiere niveau style
      fichier_ref type_doc fichier_eleve = (r, t) /\
    (r = Ok tt \/
     exists ex t0, r = Raise ex /\ refused ex /\ t = t0 ++ [docx_new_Document] /\
       count_events is_model_call t = 1 /\
       count_events is_save t = 0 /\ count_events is_download t = 0).
Proof. apply handler_ends. Qed.

Lemma contains_compatible (sub s : str) :
  contains sub s -> xml_compatible s = true -> xml_compatible sub = true.
Proof.
  intros (a & b & ->). rewrite !xml_compatible_app.
  by intros [_ [? _]%andb_true_iff]%andb_true_iff.
Qed.

Lemma search_contains p res g : search p res = Some g -> contains g res.
Proof.
  intros (a & s' & -> & Hm)%ReFacts.search_sound.
  apply ReFacts.match_at_sound in Hm as (w1 & w3 & t & -> & _).
  exists (a ++ w1), (w3 ++ t). by rewrite <- !app_assoc.
Qed.

(** The values parsed from a reply of XML characters are of XML
    characters. *)
Lemma extraction_compatible res :
  xml_compatible res = true ->
  xml_compatible (commentaire_of (extraction res)) = true /\
  xml_compatible (axes_of (extraction res)) = true /\
  xml_compatible (note_of (extraction res)) = true.
Proof.
  intros Hres. rewrite extraction_fields.
  unfold commentaire_of, axes_of, note_of. cbn [fst snd].
  split; [|split].
  - destruct (search pat_comm res) as [g|] eqn:E; [|vm_compute; reflexivity].
    apply (contains_compatible _ res); [|done].
    apply (contains_trans _ g); [apply strip_contains|by apply search_contains in E].
  - destruct (search pat_axes res) as [g|] eqn:E; [|vm_compute; reflexivity].
    apply (contains_compatible _ res); [|done].
    apply (contains_trans _ g); [apply strip_contains|by apply search_contains in E].
  - destruct (search pat_note res) as [g|] eqn:E; [|vm_compute; reflexivity].
    apply (contains_compatible _ res); [|done]. by apply search_contains in E.
Qed.

Lemma analyser_compatible e texte_ref texte_eleve matiere niveau style c a p n t :
  xml_compatible
    (answer_text (gemini e (prompt texte_ref texte_eleve matiere niveau style))) = true ->
  analyser_avec_gemini e texte_ref texte_eleve matiere niveau style
  = (Ok (c, a, p, n), t) ->
  xml_compatible c = true /\ xml_compatible a = true /\ xml_compatible n = true.
Proof.
  destruct (gemini e (prompt texte_ref texte_eleve matiere niveau style))
    as [res|ex] eqn:Hg; cbn [answer_text]; intros Hx Han.
  - rewrite (analyser_ok _ _ _ _ _ _ _ Hg) in Han.
    destruct (extraction_compatible res Hx) as (Hc & Ha & Hn).
    assert (extraction res = (c, a, p, n)) as E
      by (apply (f_equal fst) in Han; cbn [fst] in Han; congruence).
    rewrite E in Hc, Ha, Hn.
    unfold commentaire_of, axes_of, note_of in Hc, Ha, Hn. done.
  - rewrite (analyser_raise _ _ _ _ _ _ _ Hg) in Han.
    injection Han as <- <- _ <- _.
    rewrite xml_compatible_app, Hx. split; [|split]; vm_compute; reflexivity.
Qed.

(** X14. Past the gate (name and subject not empty, a submission uploaded),
    when the teacher's entries and whatever the model answers (its reply,
    or the message of its failure) hold only characters that XML text can
    hold, one run makes exactly one model call, saves exactly one document
    and offers exactly one download; the run ends with the creation of the
    document, its saving, and the download button, which carries that very
    document under the name "Correction_" + eleve + ".docx". *)
Theorem lancer_la_correction_one_of_each e enseignant eleve matiere niveau style
    fichier_ref type_doc fichier_eleve :
  truthy eleve = true -> truthy matiere = true ->
  xml_compatible enseignant = true -> xml_compatible eleve = true ->
  xml_compatible matiere = true -> xml_compatible niveau = true ->
  (forall prompt, xml_compatible (answer_text (gemini e prompt)) = true) ->
  exists t t0 doc,
    lancer_la_correction e enseignant eleve matiere niveau style
      fichier_ref type_doc (Some fichier_eleve) = (Ok tt, t) /\
    count_events is_model_call t = 1 /\
    count_events is_save t = 1 /\
    count_events is_download t = 1 /\
    t = t0 ++
        [ docx_new_Document; docx_save doc;
          st_download_button (py "📥 Télécharger la fiche DOCX") doc
            (py "Correction_" ++ eleve ++ py ".docx")
            (py "application/vnd.openxmlformats-officedocument.wordprocessingml.document") ].
Proof.
  intros He Hm C1 C2 C3 C4 Hmodel.
  destruct (handler_run e enseignant eleve matiere niveau style fichier_ref
              type_doc fichier_eleve He Hm)
    as (texte_ref & t_ref & texte_eleve & t_eleve & c & a & p & n & rd
        & _ & Hr1 & _ & Hr2 & Han & Hrd & Hrun).
  destruct (analyser_compatible e _ _ _ _ _ _ _ _ _ _ (Hmodel _) Han) as (C5 & C6 & C7).
  destruct Hrd as [[_ ->]|[Hbad _]].
  2: { exfalso. unfold values_compatible in Hbad.
       by rewrite C1, C2, C3, C4, C5, C6, C7 in Hbad. }
  cbn [fin_de_traitement fst snd] in Hrun.
  destruct (counts_before_report t_ref t_eleve
              (prompt texte_ref texte_eleve matiere niveau style) c a p n Hr1 Hr2)
    as (N1 & N2 & N3).
  eexists.
  exists (t_ref ++ t_eleve ++
          [st_spinner (py "Analyse IA en cours...");
           model_generate_content (prompt texte_ref texte_eleve matiere niveau style)] ++
          affichage c a p n).
  eexists. split; [exact Hrun|].
  rewrite !count_events_tail, N1, N2, N3.
  split; [reflexivity|]. split; [reflexivity|]. split; [reflexivity|].
  by rewrite <- !app_assoc.
Qed.

Lemma lancer_la_correction_one_of_each_witness :
  exists t t0 doc,
    lancer_la_correction env_all_fine (py "M. Techno Djieh") (py "Awa") (py "Maths")
      (py "Primaire") (py "Standard") None (py "PDF") (Some copie_pdf) = (Ok tt, t) /\
    count_events is_model_call t = 1 /\
    count_events is_save t = 1 /\
    count_events is_download t = 1 /\
    t = t0 ++
        [ docx_new_Document; docx_save doc;
          st_download_button (py "📥 Télécharger la fiche DOCX") doc
            (py "Correction_" ++ py "Awa" ++ py ".docx")
            (py "application/vnd.openxmlformats-officedocument.wordprocessingml.document") ].
Proof.
  apply (lancer_la_correction_one_of_each env_all_fine (py "M. Techno Djieh")
           (py "Awa") (py "Maths") (py "Primaire") (py "Standard") None (py "PDF")
           copie_pdf); intros; vm_compute; reflexivity.
Defined.



(** X16. An unreadable submission does not stop the run: past the gate,
    with a DOCX submission that python-docx rejects (and no reference), the
    error is shown and the model is still called, with a prompt whose
    reference and submission texts are both empty. *)
Theorem lancer_la_correction_unreadable_copy e enseignant eleve matiere niveau style
    fichier_eleve ex :
  truthy eleve = true -> truthy matiere = true ->
  python_docx e fichier_eleve = Raise ex ->
  exists r rest,
    lancer_la_correction e enseignant eleve matiere niveau style
      None (py "DOCX") (Some fichier_eleve)
    = (r,
       [ docx_Document fichier_eleve;
         st_error (py "Erreur DOCX : " ++ exn_str ex);
         st_spinner (py "Analyse IA en cours...");
         model_generate_content (prompt [] [] matiere niveau style) ] ++ rest).
Proof.
  intros He Hm Hbad.
  destruct (analyser_returns e [] [] matiere niveau style) as (c & a & p & n & Han).
  destruct (build_infos_lookup enseignant eleve matiere niveau n c a)
    as (H1 & H2 & H3 & H4 & H5 & H6 & H7).
  destruct (creer_fiche_word_cases e _ _ _ _ _ _ _ _ H1 H2 H3 H4 H5 H6 H7)
    as (rd & Hdoc & _).
  do 2 eexists.
  rewrite (handler_eval e enseignant eleve matiere niveau style None (py "DOCX")
             fichier_eleve [] [] []
             [docx_Document fichier_eleve; st_error (py "Erreur DOCX : " ++ exn_str ex)]
             c a p n rd He Hm eq_refl); [reflexivity| |exact Han|exact Hdoc].
  unfold texte_copie.
  assert (str_eqb (py "DOCX") (py "DOCX") = true) as -> by (by apply bool_decide_eq_true).
  unfold lire_docx, try_except, bind, emit, lift, ret. by rewrite Hbad.
Qed.

Lemma lancer_la_correction_unreadable_copy_witness :
  exists r rest,
    lancer_la_correction env_broken_files (py "M. Techno Djieh") (py "Awa") (py "Maths")
      (py "Primaire") (py "Standard") None (py "DOCX") (Some copie_docx)
    = (r,
       [ docx_Document copie_docx;
         st_error (py "Erreur DOCX : " ++
                   exn_str (Exception "PackageNotFoundError" (py "Package not found")));
         st_spinner (py "Analyse IA en cours...");
         model_generate_content (prompt [] [] (py "Maths") (py "Primaire") (py "Standard")) ]
       ++ rest).
Proof.
  apply (lancer_la_correction_unreadable_copy env_broken_files (py "M. Techno Djieh")
           (py "Awa") (py "Maths") (py "Primaire") (py "Standard") copie_docx
           (Exception "PackageNotFoundError" (py "Package not found"))).
  - vm_compute. reflexivity.
  - vm_compute. reflexivity.
  - reflexivity.
Defined.

Lemma lire_docx_first e f :
  exists s t, lire_docx e f = (Ok s, docx_Document f :: t).
Proof.
  unfold lire_docx, try_except, bind, emit, lift, ret.
  destruct (python_docx e f); simpl; eauto.
Qed.

Lemma lire_pdf_first e f :
  exists s t, lire_pdf e f = (Ok s, fitz_open (file_bytes f) :: t).
Proof.
  unfold lire_pdf, try_except, bind, emit, lift, ret.
  destruct (pymupdf e (file_bytes f)) as [pages|ex]; [|simpl; eauto].
  destruct (lire_pages_result pages []) as (r & -> & _).
  destruct r; simpl; eauto.
Qed.

Lemma lire_image_first e f :
  exists s t, lire_image e f = (Ok s, Image_open f :: t).
Proof.
  unfold lire_image, try_except, bind, emit, lift, ret.
  destruct (pil e f) as [img|ex]; [|simpl; eauto].
  destruct (tesseract e img (py "fra")); simpl; eauto.
Qed.

(** X17. Past the gate and without a reference, the submission is the
    first thing read, by the reader of its declared type: python-docx for
    "DOCX", PyMuPDF (on the bytes of the file) for "PDF", and the image
    reader for every other value of the type, whatever it is. *)
Theorem lancer_la_correction_reader_by_type e enseignant eleve matiere niveau style
    type_doc fichier_eleve :
  truthy eleve = true -> truthy matiere = true ->
  exists r rest,
    lancer_la_correction e enseignant eleve matiere niveau style
      None type_doc (Some fichier_eleve)
    = (r,
       (if str_eqb type_doc (py "DOCX") then docx_Document fichier_eleve
        else if str_eqb type_doc (py "PDF") then fitz_open (file_bytes fichier_eleve)
        else Image_open fichier_eleve) :: rest).
Proof.
  intros He Hm.
  assert (exists s t,
            texte_copie e type_doc fichier_eleve
            = (Ok s,
               (if str_eqb type_doc (py "DOCX") then docx_Document fichier_eleve
                else if str_eqb type_doc (py "PDF")
                     then fitz_open (file_bytes fichier_eleve)
                     else Image_open fichier_eleve) :: t))
    as (texte_eleve & t & Hcopie).
  { unfold texte_copie.
    destruct (str_eqb type_doc (py "DOCX")); [apply lire_docx_first|].
    destruct (str_eqb type_doc (py "PDF")); [apply lire_pdf_first|].
    apply lire_image_first. }
  destruct (analyser_returns e [] texte_eleve matiere niveau style)
    as (c & a & p & n & Han).
  destruct (build_infos_lookup enseignant eleve matiere niveau n c a)
    as (H1 & H2 & H3 & H4 & H5 & H6 & H7).
  destruct (creer_fiche_word_cases e _ _ _ _ _ _ _ _ H1 H2 H3 H4 H5 H6 H7)
    as (rd & Hdoc & _).
  do 2 eexists.
  rewrite (handler_eval e enseignant eleve matiere niveau style None type_doc
             fichier_eleve [] [] texte_eleve _ c a p n rd He Hm eq_refl Hcopie Han Hdoc).
  reflexivity.
Qed.

Lemma lancer_la_correction_reader_by_type_witness :
  exists r rest,
    lancer_la_correction env_all_fine (py "M. Techno Djieh") (py "Awa") (py "Maths")
      (py "Primaire") (py "Standard") None (py "pdf") (Some copie_pdf)
    = (r,
       (if str_eqb (py "pdf") (py "DOCX") then docx_Document copie_pdf
        else if str_eqb (py "pdf") (py "PDF") then fitz_open (file_bytes copie_pdf)
        else Image_open copie_pdf) :: rest).
Proof.
  apply (lancer_la_correction_reader_by_type env_all_fine (py "M. Techno Djieh")
           (py "Awa") (py "Maths") (py "Primaire") (py "Standard") (py "pdf") copie_pdf);
    vm_compute; reflexivity.
Defined.

Lemma creer_fiche_word_env e1 e2 infos :
  date_today e1 = date_today e2 -> creer_fiche_word e1 infos = creer_fiche_word e2 infos.
Proof. intros H. unfold creer_fiche_word. by rewrite H. Qed.

(** X18. The strengths reach the screen and nothing else: two models whose
    replies give the same comment, improvement axes and score lead to runs
    that differ in the strengths shown only. The runs end the same way, and
    what they do with the report (the document saved and offered, or the
    refusal of a text) is the same, whatever strengths the replies give. *)
Theorem report_ignores_strengths e enseignant eleve matiere niveau style
    fichier_ref type_doc fichier_eleve res1 res2 :
  truthy eleve = true -> truthy matiere = true ->
  commentaire_of (extraction res1) = commentaire_of (extraction res2) ->
  axes_of (extraction res1) = axes_of (extraction res2) ->
  note_of (extraction res1) = note_of (extraction res2) ->
  exists t0 r t,
    lancer_la_correction (with_gemini e (fun _ => Ok res1))
      enseignant eleve matiere niveau style fichier_ref type_doc (Some fichier_eleve)
    = (r,
       t0 ++
       affichage (commentaire_of (extraction res1)) (axes_of (extraction res1))
         (points_forts_of (extraction res1)) (note_of (extraction res1)) ++ t) /\
    lancer_la_correction (with_gemini e (fun _ => Ok res2))
      enseignant eleve matiere niveau style fichier_ref type_doc (Some fichier_eleve)
    = (r,
       t0 ++
       affichage (commentaire_of (extraction res1)) (axes_of (extraction res1))
         (points_forts_of (extraction res2)) (note_of (extraction res1)) ++ t).
Proof.
  intros He Hm Hc Ha Hn.
  destruct (texte_reference_returns e fichier_ref) as (texte_ref & t_ref & Href & _).
  destruct (texte_copie_returns e type_doc fichier_eleve)
    as (texte_eleve & t_eleve & Hcopie & _).
  destruct (extraction res1) as [[[c1 a1] p1] n1] eqn:E1.
  destruct (extraction res2) as [[[c2 a2] p2] n2] eqn:E2.
  unfold commentaire_of, axes_of, points_forts_of, note_of in *.
  cbn [fst snd] in *. subst c2 a2 n2.
  destruct (build_infos_lookup enseignant eleve matiere niveau n1 c1 a1)
    as (H1 & H2 & H3 & H4 & H5 & H6 & H7).
  destruct (creer_fiche_word_cases e _ _ _ _ _ _ _ _ H1 H2 H3 H4 H5 H6 H7)
    as (rd & Hdoc & _).
  exists (t_ref ++ t_eleve ++
          [st_spinner (py "Analyse IA en cours...");
           model_generate_content (prompt texte_ref texte_eleve matiere niveau style)]),
         (fin_de_traitement rd eleve).1, (fin_de_traitement rd eleve).2.
  split.
  - rewrite (handler_eval (with_gemini e (fun _ => Ok res1)) enseignant eleve matiere
               niveau style fichier_ref type_doc fichier_eleve
               texte_ref t_ref texte_eleve t_eleve c1 a1 p1 n1 rd He Hm Href Hcopie).
    + by rewrite <- !app_assoc.
    + rewrite (analyser_ok _ _ _ _ _ _ res1) by reflexivity. by rewrite E1.
    + by rewrite (creer_fiche_word_env _ e).
  - rewrite (handler_eval (with_gemini e (fun _ => Ok res2)) enseignant eleve matiere
               niveau style fichier_ref type_doc fichier_eleve
               texte_ref t_ref texte_eleve t_eleve c1 a1 p2 n1 rd He Hm Href Hcopie).
    + by rewrite <- !app_assoc.
    + rewrite (analyser_ok _ _ _ _ _ _ res2) by reflexivity. by rewrite E2.
    + by rewrite (creer_fiche_word_env _ e).
Qed.

Lemma report_ignores_strengths_witness :
  exists t0 r t,
    lancer_la_correction (with_gemini env_all_fine (fun _ => Ok reply_well_formed))
      (py "M. Techno Djieh") (py "Awa") (py "Maths") (py "Primaire") (py "Standard")
      None (py "PDF") (Some copie_pdf)
    = (r,
       t0 ++
       affichage (commentaire_of (extraction reply_well_formed))
         (axes_of (extraction reply_well_formed))
         (points_forts_of (extraction reply_well_formed))
         (note_of (extraction reply_well_formed)) ++ t) /\
    lancer_la_correction (with_gemini env_all_fine (fun _ => Ok reply_other_strengths))
      (py "M. Techno Djieh") (py "Awa") (py "Maths") (py "Primaire") (py "Standard")
      None (py "PDF") (Some copie_pdf)
    = (r,
       t0 ++
       affichage (commentaire_of (extraction reply_well_formed))
         (axes_of (extraction reply_well_formed))
         (points_forts_of (extraction reply_other_strengths))
         (note_of (extraction reply_well_formed)) ++ t).
Proof.
  apply (report_ignores_strengths env_all_fine (py "M. Techno Djieh") (py "Awa")
           (py "Maths") (py "Primaire") (py "Standard") None (py "PDF") copie_pdf
           reply_well_formed reply_other_strengths); vm_compute; reflexivity.
Defined.

(** X23. A dictionary with the seven keys and a value that holds a
    character XML text cannot hold (a control character such as a form
    feed, U+FFFE, U+FFFF, a lone surrogate) gives no report:
    [creer_fiche_word] raises while it fills the table, after the document
    was created and before anything is saved. The exception is a
    [ValueError] or its subclass [UnicodeEncodeError], and it is lxml's
    [ValueError] when no value holds a surrogate. *)
Theorem creer_fiche_word_refuses_text e (infos : gmap string str)
    enseignant eleve matiere niveau note commentaire axes :
  infos !! "enseignant" = Some enseignant ->
  infos !! "eleve" = Some eleve ->
  infos !! "matiere" = Some matiere ->
  infos !! "niveau" = Some niveau ->
  infos !! "note" = Some note ->
  infos !! "commentaire" = Some commentaire ->
  infos !! "axes" = Some axes ->
  values_compatible enseignant eleve matiere niveau note commentaire axes = false ->
  exists ex,
    creer_fiche_word e infos = (Raise ex, [docx_new_Document]) /\
    refused ex /\
    (values_no_surrogate enseignant eleve matiere niveau note commentaire axes = true ->
     ex = XML_ERROR).
Proof.
  intros H1 H2 H3 H4 H5 H6 H7 Hbad.
  destruct (creer_fiche_word_cases e infos _ _ _ _ _ _ _ H1 H2 H3 H4 H5 H6 H7)
    as (rd & Hdoc & [[Hok _]|[_ (ex & -> & Hex & Hval)]]); [congruence|].
  exists ex. done.
Qed.

Lemma creer_fiche_word_refuses_text_witness :
  exists ex,
    creer_fiche_word env_all_fine infos_form_feed = (Raise ex, [docx_new_Document]) /\
    refused ex /\
    (values_no_surrogate (py "M. Techno Djieh") (py "Awa") (py "Maths") (py "Primaire")
       (py "15") commentaire_form_feed (py "Relire") = true ->
     ex = XML_ERROR).
Proof.
  apply (creer_fiche_word_refuses_text env_all_fine infos_form_feed
           (py "M. Techno Djieh") (py "Awa") (py "Maths") (py "Primaire")
           (py "15") commentaire_form_feed (py "Relire")); vm_compute; reflexivity.
Defined.

(** A value the report refuses ends the run after the results were shown. *)
Lemma handler_refused_value e enseignant eleve matiere niveau style
    fichier_ref type_doc fichier_eleve res :
  truthy eleve = true -> truthy matiere = true ->
  (forall prompt, gemini e prompt = Ok res) ->
  values_compatible enseignant eleve matiere niveau (note_of (extraction res))
    (commentaire_of (extraction res)) (axes_of (extraction res)) = false ->
  exists ex t0,
    lancer_la_correction e enseignant eleve matiere niveau style
      fichier_ref type_doc (Some fichier_eleve)
    = (Raise ex,
       t0 ++
       affichage (commentaire_of (extraction res)) (axes_of (extraction res))
         (points_forts_of (extraction res)) (note_of (extraction res)) ++
       [docx_new_Document]) /\
    refused ex /\
    count_events is_save t0 = 0 /\ count_events is_download t0 = 0 /\
    (values_no_surrogate enseignant eleve matiere niveau (note_of (extraction res))
       (commentaire_of (extraction res)) (axes_of (extraction res)) = true ->
     ex = XML_ERROR).
Proof.
  intros He Hm Hmodel Hbad.
  destruct (texte_reference_returns e fichier_ref) as (texte_ref & t_ref & Href & Hr1).
  destruct (texte_copie_returns e type_doc fichier_eleve)
    as (texte_eleve & t_eleve & Hcopie & Hr2).
  destruct (extraction res) as [[[c a] p] n] eqn:E.
  unfold commentaire_of, axes_of, points_forts_of, note_of in *. cbn [fst snd] in *.
  destruct (build_infos_lookup enseignant eleve matiere niveau n c a)
    as (H1 & H2 & H3 & H4 & H5 & H6 & H7).
  destruct (creer_fiche_word_cases e _ _ _ _ _ _ _ _ H1 H2 H3 H4 H5 H6 H7)
    as (rd & Hdoc & [[Hok _]|[_ (ex & -> & Hex & Hval)]]); [congruence|].
  exists ex,
    (t_ref ++ t_eleve ++
     [st_spinner (py "Analyse IA en cours...");
      model_generate_content (prompt texte_ref texte_eleve matiere niveau style)]).
  split; [|split; [done|split; [|split; [|done]]]].
  - rewrite (handler_eval e enseignant eleve matiere niveau style fichier_ref type_doc
               fichier_eleve texte_ref t_ref texte_eleve t_eleve c a p n (Raise ex)
               He Hm Href Hcopie); [|  |exact Hdoc].
    + cbn [fin_de_traitement fst snd]. by rewrite <- !app_assoc.
    + rewrite (analyser_ok _ _ _ _ _ _ res) by apply Hmodel. by rewrite E.
  - unfold count_events. rewrite !List.filter_app.
    rewrite (filter_reading _ t_ref), (filter_reading _ t_eleve);
      try done; by intros [].
  - unfold count_events. rewrite !List.filter_app.
    rewrite (filter_reading _ t_ref), (filter_reading _ t_eleve);
      try done; by intros [].
Qed.

(** X24. A reply can stop the run after its results were shown: past the
    gate, when one of the values of the report (the teacher's entries, or
    the comment, the improvement axes or the score parsed from the reply)
    holds a character XML text cannot hold, the four results are displayed,
    the document is created, and the run ends there on the refusal, with
    nothing saved and no download offered; with no surrogate in the values
    the exception is lxml's [ValueError]. *)
Theorem lancer_la_correction_refused_value e enseignant eleve matiere niveau style
    fichier_ref type_doc fichier_eleve res :
  truthy eleve = true -> truthy matiere = true ->
  (forall prompt, gemini e prompt = Ok res) ->
  values_compatible enseignant eleve matiere niveau (note_of (extraction res))
    (commentaire_of (extraction res)) (axes_of (extraction res)) = false ->
  exists ex t0,
    lancer_la_correction e enseignant eleve matiere niveau style
      fichier_ref type_doc (Some fichier_eleve)
    = (Raise ex,
       t0 ++
       affichage (commentaire_of (extraction res)) (axes_of (extraction res))
         (points_forts_of (extraction res)) (note_of (extraction res)) ++
       [docx_new_Document]) /\
    refused ex /\
    count_events is_save t0 = 0 /\ count_events is_download t0 = 0 /\
    (values_no_surrogate enseignant eleve matiere niveau (note_of (extraction res))
       (commentaire_of (extraction res)) (axes_of (extraction res)) = true ->
     ex = XML_ERROR).
Proof. apply handler_refused_value. Qed.

Lemma lancer_la_correction_refused_value_witness :
  exists ex t0,
    lancer_la_correction (env_reply reply_form_feed) (py "M. Techno Djieh") (py "Awa")
      (py "Maths") (py "Primaire") (py "Standard") None (py "PDF") (Some copie_pdf)
    = (Raise ex,
       t0 ++
       affichage (commentaire_of (extraction reply_form_feed))
         (axes_of (extraction reply_form_feed))
         (points_forts_of (extraction reply_form_feed))
         (note_of (extraction reply_form_feed)) ++
       [docx_new_Document]) /\
    refused ex /\
    count_events is_save t0 = 0 /\ count_events is_download t0 = 0 /\
    (values_no_surrogate (py "M. Techno Djieh") (py "Awa") (py "Maths") (py "Primaire")
       (note_of (extraction reply_form_feed))
       (commentaire_of (extraction reply_form_feed))
       (axes_of (extraction reply_form_feed)) = true ->
     ex = XML_ERROR).
Proof.
  apply (lancer_la_correction_refused_value (env_reply reply_form_feed)
           (py "M. Techno Djieh") (py "Awa") (py "Maths") (py "Primaire") (py "Standard")
           None (py "PDF") copie_pdf reply_form_feed); intros; vm_compute; reflexivity.
Defined.

(** ** The script *)

(** X19. Without an API key (the variable GEMINI_API_KEY absent or empty)
    the script shows the error and stops there: no client is configured, no
    widget is drawn and nothing of the pipeline runs, whatever the session
    holds. *)
Theorem script_stops_without_key e s :
  environ s (py "GEMINI_API_KEY") = None \/ environ s (py "GEMINI_API_KEY") = Some [] ->
  script e s
  = (Stopped,
     [ load_dotenv; os_getenv (py "GEMINI_API_KEY");
       pipeline (st_error (py "❌ Clé API Gemini introuvable. Vérifie ton fichier .env"));
       st_stop ]).
Proof. unfold script. intros [-> | ->]; reflexivity. Qed.

Lemma script_stops_without_key_witness :
  script env_all_fine session_no_key
  = (Stopped,
     [ load_dotenv; os_getenv (py "GEMINI_API_KEY");
       pipeline (st_error (py "❌ Clé API Gemini introuvable. Vérifie ton fichier .env"));
       st_stop ]).
Proof.
  apply (script_stops_without_key env_all_fine session_no_key).
  left. vm_compute. reflexivity.
Defined.

(** The script with a key: the widgets are drawn (no event of the pipeline
    among them), and the events of the pipeline are those of the handler
    when the button is pressed. *)
Lemma script_with_key e s key :
  environ s (py "GEMINI_API_KEY") = Some key -> truthy key = true ->
  exists fichier_eleve t,
    fichier_eleve
    = (if str_eqb (radio s (py "Type copie élève") [py "DOCX"; py "PDF"; py "Image"])
                  (py "DOCX")
       then file_uploader s (py "Copie DOCX") [py "docx"]
       else if str_eqb (radio s (py "Type copie élève") [py "DOCX"; py "PDF"; py "Image"])
                       (py "PDF")
       then file_uploader s (py "Copie PDF") [py "pdf"]
       else file_uploader s (py "Image devoir") [py "jpg"; py "png"; py "jpeg"]) /\
    List.filter is_pipeline t = [] /\
    (button s (py "Lancer la correction IA") = false -> script e s = (Completed, t)) /\
    (button s (py "Lancer la correction IA") = true ->
     forall r th,
       lancer_la_correction e
         (text_input s (py "Enseignant") (py "M. Techno Djieh"))
         (text_input s (py "Nom de l'élève") [])
         (text_input s (py "Matière") [])
         (selectbox s (py "Niveau") [py "Primaire"; py "Secondaire"; py "Universitaire"])
         (radio s (py "Style") [py "Encourageante"; py "Standard"; py "Stricte"])
         (file_uploader s (py "Corrigé (DOCX optionnel)") [py "docx"])
         (radio s (py "Type copie élève") [py "DOCX"; py "PDF"; py "Image"])
         fichier_eleve = (r, th) ->
       script e s
       = (match r with Ok _ => Completed | Raise ex => Crashed ex end,
          t ++ map pipeline th)).
Proof.
  intros Hkey Htrue. unfold script. rewrite Hkey, Htrue. cbn [negb].
  destruct (str_eqb (radio s (py "Type copie élève") _) (py "DOCX")).
  - eexists. eexists. split; [reflexivity|]. split; [|split].
    2: { intros ->. reflexivity. }
    2: { intros -> r th ->. by list_norm. }
    reflexivity.
  - destruct (str_eqb (radio s (py "Type copie élève") _) (py "PDF")).
    + eexists. eexists. split; [reflexivity|]. split; [|split].
      2: { intros ->. reflexivity. }
      2: { intros -> r th ->. by list_norm. }
      reflexivity.
    + eexists. eexists. split; [reflexivity|]. split; [|split].
      2: { intros ->. reflexivity. }
      2: { intros -> r th ->. by list_norm. }
      reflexivity.
Qed.

(** X20. As long as the button is not pressed nothing of the pipeline
    runs: with a key, the run draws the widgets and ends, without reading a
    file, calling the model, building a report or showing a message. *)
Theorem script_waits_for_the_button e s key :
  environ s (py "GEMINI_API_KEY") = Some key -> truthy key = true ->
  button s (py "Lancer la correction IA") = false ->
  exists t, script e s = (Completed, t) /\ count_events is_pipeline t = 0.
Proof.
  intros Hkey Htrue Hb.
  destruct (script_with_key e s key Hkey Htrue) as (f & t & _ & Hf & Hno & _).
  exists t. split; [by apply Hno|]. unfold count_events. by rewrite Hf.
Qed.

Lemma script_waits_for_the_button_witness :
  exists t,
    script env_all_fine session_no_click = (Completed, t) /\
    count_events is_pipeline t = 0.
Proof.
  apply (script_waits_for_the_button env_all_fine session_no_click (py "cle-de-test"));
    vm_compute; reflexivity.
Defined.

(** X21. A run of the script ends in one of three ways: it stops at the
    key check, it completes, or it ends on the refusal of a text by the
    report ([ValueError], or its subclass [UnicodeEncodeError]). No other
    exception ends the script, and a refusal ends it only after the button
    was pressed, right after the document was created. *)
Theorem script_crashes_only_on_refusal e s :
  exists o t,
    script e s = (o, t) /\
    (o = Stopped \/ o = Completed \/
     exists ex t0, o = Crashed ex /\ refused ex /\
       button s (py "Lancer la correction IA") = true /\
       t = t0 ++ [pipeline docx_new_Document]).
Proof.
  destruct (environ s (py "GEMINI_API_KEY")) as [key|] eqn:Hkey.
  - destruct (truthy key) eqn:Htrue.
    + destruct (script_with_key e s key Hkey Htrue) as (f & t & _ & _ & Hno & Hyes).
      destruct (button s (py "Lancer la correction IA")) eqn:Hb.
      * destruct (handler_ends e
                    (text_input s (py "Enseignant") (py "M. Techno Djieh"))
                    (text_input s (py "Nom de l'élève") [])
                    (text_input s (py "Matière") [])
                    (selectbox s (py "Niveau")
                       [py "Primaire"; py "Secondaire"; py "Universitaire"])
                    (radio s (py "Style") [py "Encourageante"; py "Standard"; py "Stricte"])
                    (file_uploader s (py "Corrigé (DOCX optionnel)") [py "docx"])
                    (radio s (py "Type copie élève") [py "DOCX"; py "PDF"; py "Image"])
                    f) as (r & th & Hth & Hr).
        rewrite (Hyes eq_refl _ _ Hth). do 2 eexists. split; [reflexivity|].
        destruct Hr as [->|(ex & t0 & -> & Hex & -> & _)]; [by right; left|].
        right. right. exists ex, (t ++ map pipeline t0).
        split; [done|]. split; [done|]. split; [done|].
        by rewrite map_app, app_assoc.
      * rewrite (Hno eq_refl). do 2 eexists. split; [reflexivity|]. by right; left.
    + do 2 eexists. split; [|by left]. unfold script. rewrite Hkey, Htrue. reflexivity.
  - do 2 eexists. split; [|by left]. unfold script. rewrite Hkey. reflexivity.
Qed.

(** X22. Only the uploader of the selected type counts: when the type is
    "PDF" and nothing was uploaded in the PDF uploader, pressing the button
    gives the validation message and nothing else of the pipeline, even
    with a name, a subject, and a file left in another uploader. *)
Theorem script_uses_uploader_of_selected_type e s key :
  environ s (py "GEMINI_API_KEY") = Some key -> truthy key = true ->
  button s (py "Lancer la correction IA") = true ->
  radio s (py "Type copie élève") [py "DOCX"; py "PDF"; py "Image"] = py "PDF" ->
  file_uploader s (py "Copie PDF") [py "pdf"] = None ->
  exists t,
    script e s = (Completed, t) /\
    List.filter is_pipeline t
    = [pipeline
         (st_error (py "⚠️ Remplis tous les champs et ajoute la copie de l'élève."))].
Proof.
  intros Hkey Htrue Hb Htype Hnone.
  destruct (script_with_key e s key Hkey Htrue) as (f & t & Hf & Hui & _ & Hyes).
  rewrite Htype in Hf.
  assert (str_eqb (py "PDF") (py "DOCX") = false) as E1 by (vm_compute; reflexivity).
  assert (str_eqb (py "PDF") (py "PDF") = true) as E2 by (vm_compute; reflexivity).
  rewrite E1, E2, Hnone in Hf. subst f.
  specialize (Hyes Hb (Ok tt)
    [st_error (py "⚠️ Remplis tous les champs et ajoute la copie de l'élève.")]).
  rewrite Hyes.
  - eexists. split; [reflexivity|].
    rewrite List.filter_app, Hui. reflexivity.
  - apply gate_closed. cbn [is_some]. apply andb_false_r.
Qed.

Lemma script_uses_uploader_of_selected_type_witness :
  exists t,
    script env_all_fine session_wrong_uploader = (Completed, t) /\
    List.filter is_pipeline t
    = [pipeline
         (st_error (py "⚠️ Remplis tous les champs et ajoute la copie de l'élève."))].
Proof.
  apply (script_uses_uploader_of_selected_type env_all_fine session_wrong_uploader
           (py "cle-de-test")); vm_compute; reflexivity.
Defined.

Lemma filter_pipeline_map (t : list event) :
  List.filter is_pipeline (map pipeline t) = map pipeline t.
Proof. induction t as [|ev t IH]; [done|]. simpl. by rewrite IH. Qed.

(** X25. Nothing in the script catches the refusal: with a key, the button
    pressed, a name, a subject and a PDF submission, a reply that gives the
    report a value XML text cannot hold (a comment with a form feed, say)
    ends the whole script on the exception. Of the pipeline, the run has
    shown the four results and created the document, and that is its last
    act: no document is saved and no download is offered. With no surrogate
    in the values the exception is lxml's [ValueError]. *)
Theorem script_crashes_on_refused_value e s key fichier_eleve res :
  environ s (py "GEMINI_API_KEY") = Some key -> truthy key = true ->
  button s (py "Lancer la correction IA") = true ->
  radio s (py "Type copie élève") [py "DOCX"; py "PDF"; py "Image"] = py "PDF" ->
  file_uploader s (py "Copie PDF") [py "pdf"] = Some fichier_eleve ->
  truthy (text_input s (py "Nom de l'élève") []) = true ->
  truthy (text_input s (py "Matière") []) = true ->
  (forall prompt, gemini e prompt = Ok res) ->
  values_compatible
    (text_input s (py "Enseignant") (py "M. Techno Djieh"))
    (text_input s (py "Nom de l'élève") [])
    (text_input s (py "Matière") [])
    (selectbox s (py "Niveau") [py "Primaire"; py "Secondaire"; py "Universitaire"])
    (note_of (extraction res)) (commentaire_of (extraction res))
    (axes_of (extraction res)) = false ->
  exists ex t th,
    script e s = (Crashed ex, t) /\ refused ex /\
    List.filter is_pipeline t
    = map pipeline
        (th ++
         affichage (commentaire_of (extraction res)) (axes_of (extraction res))
           (points_forts_of (extraction res)) (note_of (extraction res)) ++
         [docx_new_Document]) /\
    count_events is_save th = 0 /\ count_events is_download th = 0 /\
    (values_no_surrogate
       (text_input s (py "Enseignant") (py "M. Techno Djieh"))
       (text_input s (py "Nom de l'élève") [])
       (text_input s (py "Matière") [])
       (selectbox s (py "Niveau") [py "Primaire"; py "Secondaire"; py "Universitaire"])
       (note_of (extraction res)) (commentaire_of (extraction res))
       (axes_of (extraction res)) = true ->
     ex = XML_ERROR).
Proof.
  intros Hkey Htrue Hb Htype Hfile He Hm Hmodel Hbad.
  destruct (script_with_key e s key Hkey Htrue) as (f & t & Hf & Hui & _ & Hyes).
  rewrite Htype in Hf.
  assert (str_eqb (py "PDF") (py "DOCX") = false) as E1 by (vm_compute; reflexivity).
  assert (str_eqb (py "PDF") (py "PDF") = true) as E2 by (vm_compute; reflexivity).
  rewrite E1, E2, Hfile in Hf. subst f.
  destruct (handler_refused_value e
              (text_input s (py "Enseignant") (py "M. Techno Djieh"))
              (text_input s (py "Nom de l'élève") [])
              (text_input s (py "Matière") [])
              (selectbox s (py "Niveau")
                 [py "Primaire"; py "Secondaire"; py "Universitaire"])
              (radio s (py "Style") [py "Encourageante"; py "Standard"; py "Stricte"])
              (file_uploader s (py "Corrigé (DOCX optionnel)") [py "docx"])
              (radio s (py "Type copie élève") [py "DOCX"; py "PDF"; py "Image"])
              fichier_eleve res He Hm Hmodel Hbad)
    as (ex & th & Hrun & Hex & N1 & N2 & Hval).
  exists ex. eexists. exists th.
  split; [exact (Hyes Hb _ _ Hrun)|]. split; [done|].
  split; [|done].
  by rewrite List.filter_app, Hui, filter_pipeline_map.
Qed.

Lemma script_crashes_on_refused_value_witness :
  exists ex t th,
    script (env_reply reply_form_feed) session_click = (Crashed ex, t) /\ refused ex /\
    List.filter is_pipeline t
    = map pipeline
        (th ++
         affichage (commentaire_of (extraction reply_form_feed))
           (axes_of (extraction reply_form_feed))
           (points_forts_of (extraction reply_form_feed))
           (note_of (extraction reply_form_feed)) ++
         [docx_new_Document]) /\
    count_events is_save th = 0 /\ count_events is_download th = 0 /\
    (values_no_surrogate
       (text_input session_click (py "Enseignant") (py "M. Techno Djieh"))
       (text_input session_click (py "Nom de l'élève") [])
       (text_input session_click (py "Matière") [])
       (selectbox session_click (py "Niveau")
          [py "Primaire"; py "Secondaire"; py "Universitaire"])
       (note_of (extraction reply_form_feed)) (commentaire_of (extraction reply_form_feed))
       (axes_of (extraction reply_form_feed)) = true ->
     ex = XML_ERROR).
Proof.
  apply (script_crashes_on_refused_value (env_reply reply_form_feed) session_click
           (py "cle-de-test") copie_pdf reply_form_feed);
    intros; vm_compute; reflexivity.
Defined.
